(** * Stock Data Viewer: indicator engine, range filter and export pipeline

    A shallow embedding of [stock_app.py].  The script is a Streamlit page:
    it fetches a price table, restricts it to a date range, attaches the
    Bollinger and MACD columns, draws charts and offers CSV, Excel and PDF
    downloads.

    Modelling choices, fixed once for the whole development:

    - a float64 is a real number or NaN: [cell := option R], [None] being NaN
      ("no value").  Arithmetic is exact; rounding is not modelled;
    - a pandas [Series] is the list of its cells in index order.  Every series
      the script combines is taken from one frame, so index alignment is
      positional;
    - a [DataFrame] has a datetime index and named float columns, kept in
      column order; frames live in a store and are referred to by location,
      because the script mutates them in place ([data["BB_MA"] = ...]);
    - the Streamlit calls are recorded as a log of user-interface events, and
      [st.stop()] ends the run;
    - pandas, plotly and FPDF are libraries: the operations the script uses
      are modelled from their documented behaviour. *)

From Stdlib Require Import Reals Lra Lia ZArith Sorted.
From stdpp Require Import gmap strings list.

(** * Floats with NaN, and series *)

Module Pandas.

Local Open Scope R_scope.

Abbreviation cell := (option R).
Abbreviation Series := (list (option R)).

(** Float arithmetic: NaN is absorbing. *)
Definition lift2 (f : R -> R -> R) (a b : cell) : cell :=
  match a, b with
  | Some x, Some y => Some (f x y)
  | _, _ => None
  end.

(** Division: a zero divisor leaves no finite number. *)
Definition fdiv (a b : cell) : cell :=
  match a, b with
  | Some x, Some y => if Req_dec_T y 0 then None else Some (x / y)
  | _, _ => None
  end.

(** [s1 + s2], [s1 - s2] on two series of the same frame, [s * k] and
    [s / k] with a scalar. *)
Definition sadd (a b : Series) : Series := zip_with (lift2 Rplus) a b.
Definition ssub (a b : Series) : Series := zip_with (lift2 Rminus) a b.
Definition smul_scalar (a : Series) (k : R) : Series := fmap (fun x => lift2 Rmult x (Some k)) a.
Definition sdiv_scalar (a : Series) (k : cell) : Series := fmap (fun x => fdiv x k) a.
Definition smul_cell (a : Series) (k : cell) : Series := fmap (fun x => lift2 Rmult x k) a.

Definition Rsum (l : list R) : R := foldr Rplus 0 l.

(** The observations of a series: its cells that are not NaN. *)
Definition observations (w : Series) : list R := omap (fun c : cell => c) w.

(** ** Rolling windows

    [s.rolling(window=W)] looks, at position [i], at the cells at positions
    [max 0 (i+1-W) .. i].  An aggregate is NaN unless the window holds at
    least [min_periods] observations; [min_periods] defaults to [W]. *)
Definition window_at (W : nat) (xs : Series) (i : nat) : Series :=
  drop (S i - W) (take (S i) xs).

Definition rolling (W : nat) (agg : list R -> cell) (xs : Series) : Series :=
  fmap (fun i =>
         let obs := observations (window_at W xs i) in
         if (length obs <? W)%nat then None else agg obs)
      (seq 0 (length xs)).

(** [.mean()]: the sum of the observations over their number. *)
Definition agg_mean (obs : list R) : cell :=
  Some (Rsum obs / INR (length obs)).

(** [.std()] with the default [ddof=1]: the square root of the sum of the
    squared deviations from the mean over [n - 1]; NaN when [n <= 1]. *)
Definition agg_std (obs : list R) : cell :=
  if (length obs <=? 1)%nat then None
  else
    let m := Rsum obs / INR (length obs) in
    Some (sqrt (Rsum (fmap (fun x => (x - m) * (x - m)) obs) / (INR (length obs) - 1))).

Definition rolling_mean (W : nat) (xs : Series) : Series := rolling W agg_mean xs.
Definition rolling_std (W : nat) (xs : Series) : Series := rolling W agg_std xs.

(** ** Exponentially weighted mean, [adjust=False]

    [s.ewm(span=S, adjust=False).mean()] with [alpha = 2/(S+1)].  The running
    average [w] starts at the first observation.  An observation [c] moves it
    to [(old_wt*w + alpha*c) / (old_wt + alpha)], where [old_wt] is
    [(1-alpha)^k] for [k] the distance to the previous observation
    ([ignore_na=False]); a NaN cell repeats the running average.  Before the
    first observation the output is NaN. *)
Fixpoint ewm_from (alpha : R) (w : cell) (old_wt : R) (xs : Series) : Series :=
  match xs with
  | [] => []
  | cur :: xs' =>
      match w with
      | None => cur :: ewm_from alpha cur 1 xs'
      | Some wv =>
          let old_wt' := old_wt * (1 - alpha) in
          match cur with
          | None => Some wv :: ewm_from alpha (Some wv) old_wt' xs'
          | Some c =>
              let w' := (old_wt' * wv + alpha * c) / (old_wt' + alpha) in
              Some w' :: ewm_from alpha (Some w') 1 xs'
          end
      end
  end.

Definition span_alpha (span : Z) : R := 2 / (IZR span + 1).

End Pandas.

(** * Python results *)

Module Py.

Inductive exn : Type :=
| KeyError (key : string)
| ValueError (msg : string)
| UnicodeEncodeError (msg : string)
| OtherException (msg : string).

(** [str(e)] in [f"Failed to create PDF: {e}"]. *)
Definition exn_str (e : exn) : string :=
  match e with
  | KeyError k => "'" +:+ k +:+ "'"
  | ValueError m => m
  | UnicodeEncodeError m => m
  | OtherException m => m
  end.

Inductive result (A : Type) : Type :=
| Ok (a : A)
| Raise (e : exn).
Arguments Ok {A} a.
Arguments Raise {A} e.

#[global] Instance result_ret : MRet result := fun A a => Ok a.
#[global] Instance result_bind : MBind result := fun A B k r =>
  match r with
  | Ok a => k a
  | Raise e => Raise e
  end.

End Py.

Export Py.

(** * Dates, timestamps and frames *)

Module Frames.

Import Pandas.

(** [datetime.date]: ordered as the triple (year, month, day). *)
Record date : Type := Date { year : Z; month : Z; day : Z }.

Definition date_cmp (a b : date) : comparison :=
  match (year a ?= year b)%Z with
  | Eq => match (month a ?= month b)%Z with
          | Eq => (day a ?= day b)%Z
          | c => c
          end
  | c => c
  end.

Definition date_gt (a b : date) : bool :=
  match date_cmp a b with Gt => true | _ => false end.
Definition date_ge (a b : date) : bool :=
  match date_cmp a b with Lt => false | _ => true end.
Definition date_le (a b : date) : bool :=
  match date_cmp a b with Gt => false | _ => true end.

(** [pandas.Timestamp]: a calendar date and the nanoseconds elapsed since
    midnight.  [t.date()] forgets the time of day. *)
Record Timestamp : Type := Stamp { ts_date : date; ts_nanos : Z }.

Record DataFrame : Type := Frame {
  index_name : option string;
  index : list Timestamp;
  columns : list (string * Series)
}.

(** Every column carries one cell per index entry. *)
Definition wf_frame (df : DataFrame) : Prop :=
  Forall (fun c => length (snd c) = length (index df)) (columns df).

(** [df.empty]: some axis has length zero. *)
Definition df_empty (df : DataFrame) : bool :=
  (length (index df) =? 0) || (length (columns df) =? 0).

Fixpoint lookup_col (k : string) (cols : list (string * Series)) : option Series :=
  match cols with
  | [] => None
  | (n, s) :: cols' => if String.eqb n k then Some s else lookup_col k cols'
  end.

(** The number of columns labelled [k]. *)
Fixpoint count_col (k : string) (cols : list (string * Series)) : nat :=
  match cols with
  | [] => 0
  | (n, _) :: cols' => (if String.eqb n k then 1 else 0) + count_col k cols'
  end.

(** [df[k]] where the script goes on with one column.  Without a column
    labelled [k] pandas raises [KeyError].  With the label on several
    columns, as [get_stock_data] leaves them when the download has several
    tickers, [df[k]] is the frame of these columns and not a column: what
    the indicator functions compute from it are frames too, and the
    assignment of such a frame to a single column, at line 118, raises
    [ValueError].  (A table that had several columns labelled BB_MA already
    would take that assignment; no table of this script has one.) *)
Definition getitem (df : DataFrame) (k : string) : result Series :=
  match lookup_col k (columns df) with
  | Some s =>
      if count_col k (columns df) =? 1 then Ok s
      else Raise (ValueError "Cannot set a DataFrame with multiple columns to a single column")
  | None => Raise (KeyError k)
  end.

Fixpoint assign_col (k : string) (s : Series) (cols : list (string * Series))
  : list (string * Series) :=
  match cols with
  | [] => [(k, s)]
  | (n, s0) :: cols' =>
      if String.eqb n k then (n, s) :: cols' else (n, s0) :: assign_col k s cols'
  end.

(** [df[k] = s]: replaces the column named [k], or appends it as the last
    column. *)
Definition setitem (df : DataFrame) (k : string) (s : Series) : DataFrame :=
  Frame (index_name df) (index df) (assign_col k s (columns df)).

(** Boolean-mask selection. *)
Fixpoint select {A : Type} (mask : list bool) (xs : list A) : list A :=
  match mask, xs with
  | b :: mask', x :: xs' => if b then x :: select mask' xs' else select mask' xs'
  | _, _ => []
  end.

(** [df.loc[mask]] *)
Definition loc_mask (df : DataFrame) (mask : list bool) : DataFrame :=
  Frame (index_name df) (select mask (index df))
        (fmap (fun c => (fst c, select mask (snd c))) (columns df)).

(** [df.tail(n)] *)
Definition df_tail (n : nat) (df : DataFrame) : DataFrame :=
  Frame (index_name df) (drop (length (index df) - n) (index df))
        (fmap (fun c => (fst c, drop (length (snd c) - n) (snd c))) (columns df)).

(** [s.max()]: the largest observation, NaN when there is none. *)
Definition smax (s : Series) : cell :=
  match observations s with
  | [] => None
  | x :: xs => Some (foldr Rmax x xs)
  end.

(** A frame after [reset_index()]: the index has become the first column,
    so a column holds timestamps or floats. *)
Inductive value : Type :=
| VTimestamp (t : Timestamp)
| VFloat (c : cell).

Record ObjFrame : Type := OFrame {
  o_len : nat;
  o_columns : list (string * list value)
}.

(** [df.reset_index()]: the new first column is named after the index,
    ["index"] when the index has no name.  (pandas refuses a label that
    already names a column; no frame of this script has one.) *)
Definition reset_index (df : DataFrame) : ObjFrame :=
  OFrame (length (index df))
         ((default "index" (index_name df), fmap VTimestamp (index df))
            :: fmap (fun c : string * Series => (fst c, fmap VFloat (snd c))) (columns df)).

(** Row [0], row [1], ... of a list of columns: the heads of the columns,
    then the rows of their tails. *)
Fixpoint transpose_rows {A : Type} (d : A) (n : nat) (cols : list (list A))
  : list (list A) :=
  match n with
  | O => []
  | S n' => ((fun c => default d (head c)) <$> cols)
              :: transpose_rows d n' (tail <$> cols)
  end.

(** [for _, row in o.iterrows()]: the rows in order, each the list of the
    row's values in column order. *)
Definition iterrows (o : ObjFrame) : list (list value) :=
  transpose_rows (VFloat None) (o_len o) (snd <$> o_columns o).

(** The rows of a frame: each index entry with the cells of its row. *)
Definition rows (df : DataFrame) : list (Timestamp * list cell) :=
  zip (index df) (transpose_rows None (length (index df)) (snd <$> columns df)).

End Frames.

(** * The indicator engine *)

Module Indicators.

Import Pandas Frames.
Local Open Scope R_scope.

(** [s.ewm(span=span, adjust=False).mean()]; pandas rejects a span below 1. *)
Definition ewm_mean (span : Z) (xs : Series) : result Series :=
  if (span <? 1)%Z then Raise (ValueError "span must satisfy: span >= 1")
  else Ok (ewm_from (span_alpha span) None 1 xs).

(** [def bollinger_bands(df, window=20, no_of_std=2)] *)
Definition bollinger_bands (df : DataFrame) (window : nat) (no_of_std : R)
  : result (Series * Series * Series) :=
  c1 ← getitem df "Close";
  let ma := rolling_mean window c1 in
  c2 ← getitem df "Close";
  let std := rolling_std window c2 in
  let upper := sadd ma (smul_scalar std no_of_std) in
  let lower := ssub ma (smul_scalar std no_of_std) in
  mret (ma, upper, lower).

(** [def macd(df, short=12, long=26, signal=9)] *)
Definition macd (df : DataFrame) (short long signal : Z)
  : result (Series * Series * Series) :=
  c1 ← getitem df "Close";
  exp1 ← ewm_mean short c1;
  c2 ← getitem df "Close";
  exp2 ← ewm_mean long c2;
  let macd_line := ssub exp1 exp2 in
  signal_line ← ewm_mean signal macd_line;
  let hist := ssub macd_line signal_line in
  mret (macd_line, signal_line, hist).

(** The defaults of the two signatures, as the script's calls
    [bollinger_bands(data)] and [macd(data)] take them. *)
Definition default_window : nat := 20.
Definition default_no_of_std : R := 2.
Definition default_short : Z := 12.
Definition default_long : Z := 26.
Definition default_signal : Z := 9.

End Indicators.

(** * The PDF report *)

Module Report.

Import Pandas Frames.

(** A plotly figure: its title and its traces. *)
Inductive trace_kind : Type := Scatter | Bar | Line.

Record trace : Type := Trace {
  tr_kind : trace_kind;
  tr_name : string;
  tr_x : list Timestamp;
  tr_y : Series
}.

Record Figure : Type := Fig {
  fig_title : string;
  fig_traces : list trace
}.

(** The calls made on the [FPDF] object, in order: the document as it is
    drawn.  FPDF's own layout is not modelled. *)
Inductive pdf_op : Type :=
| SetAutoPageBreak (margin : nat)
| AddPage
| SetFont (family style : string) (size : nat)
| Cell (w h : nat) (txt : string) (border ln : bool) (align : string)
| Ln (h : option nat)
| MultiCell (w h : nat) (txt : string)
| Image (png : string) (x w : nat).

(** What [create_pdf] needs from outside the script: the kaleido export
    [fig.to_image(format="png", scale=2)], FPDF's [image] call on the
    temporary file holding those bytes, the clock
    [datetime.now().strftime('%Y-%m-%d %H:%M:%S')], Python's [str] on a
    table value, and [str(e)] of the [UnicodeEncodeError] that encoding a
    document raises (it names the character and its position in FPDF's page
    buffer). *)
Record Environment : Type := Env {
  to_image : Figure -> result string;
  pdf_image : string -> result unit;
  now : string;
  str_value : value -> string;
  encode_error : list pdf_op -> string
}.

(** Lines 281-283: [txt = str(val)], cut to 15 characters and ["..."] when
    longer than 18. *)
Definition cell_txt (txt : string) : string :=
  if 18 <? String.length txt then String.substring 0 15 txt +:+ "..." else txt.

Definition image_unavailable : string :=
  "Chart image not available (kaleido may be missing). The data summary follows.".

(** Lines 271-285: the header cells, then one line of cells per row. *)
Definition summary_table (env : Environment) (df : DataFrame) : list pdf_op :=
  let last_rows := reset_index (df_tail 5 df) in
  let headers := fmap fst (o_columns last_rows) in
  fmap (fun h => Cell 28 6 h true false "") headers ++ [Ln None]
    ++ concat (fmap (fun row =>
                      fmap (fun val => Cell 28 6 (cell_txt (str_value env val)) true false "") row
                        ++ [Ln None])
                   (iterrows last_rows)).

(** Lines 246-264: the chart image, or the note that there is none. *)
Definition chart_part (env : Environment) (img_bytes : option string) : list pdf_op :=
  match img_bytes with
  | Some png =>
      match pdf_image env png with
      | Ok _ => [Image png 10 190]
      | Raise _ => []
      end ++ [Ln (Some 6)]
  | None =>
      [SetFont "Arial" "I" 10; MultiCell 0 5 image_unavailable; Ln (Some 6)]
  end.

(** The strings of this development hold UTF-8 bytes.  A character up to
    U+00FF, which Latin-1 can encode, is one byte below 0x80 or two bytes
    of which the first is 0xC2 or 0xC3; a byte from 0xC4 on starts a
    character beyond U+00FF. *)
Definition latin1 (txt : string) : bool :=
  forallb (fun c => Ascii.nat_of_ascii c <? 196) (String.list_ascii_of_string txt).

(** The text a call writes to the page. *)
Definition written (op : pdf_op) : list string :=
  match op with
  | Cell _ _ txt _ _ _ => [txt]
  | MultiCell _ _ txt => [txt]
  | _ => []
  end.

(** Line 287: [pdf.output(dest="S").encode("latin-1")].  With the built-in
    font Arial the page is Latin-1 text: a character beyond U+00FF in a
    text written to it raises [UnicodeEncodeError].  Nothing [create_pdf]
    does before is visible to the script, so it does not matter to the model
    whether FPDF raises on encoding the page or already in [cell]. *)
Definition output (env : Environment) (doc : list pdf_op) : result (list pdf_op) :=
  if forallb latin1 (concat (written <$> doc)) then Ok doc
  else Raise (UnicodeEncodeError (encode_error env doc)).

(** Lines 229-285 of [create_pdf]: the calls made on the [FPDF] object. *)
Definition pdf_calls (env : Environment) (fig : Figure) (df : DataFrame)
    (ticker_sym : string) : list pdf_op :=
  let img_bytes :=
    match to_image env fig with
    | Ok png => Some png
    | Raise _ => None
    end in
  [SetAutoPageBreak 15; AddPage;
   SetFont "Arial" "B" 14;
   Cell 0 8 ("Stock Report — " +:+ ticker_sym) false true "C";
   Ln (Some 4);
   SetFont "Arial" "" 10;
   Cell 0 6 ("Generated: " +:+ now env) false true "";
   Ln (Some 6)]
    ++ chart_part env img_bytes
    ++ [SetFont "Arial" "B" 12;
        Cell 0 8 "Data summary (last 5 rows):" false true "";
        SetFont "Arial" "" 9]
    ++ summary_table env df.

(** [def create_pdf(fig, df, ticker_sym) -> bytes] *)
Definition create_pdf (env : Environment) (fig : Figure) (df : DataFrame)
    (ticker_sym : string) : result (list pdf_op) :=
  output env (pdf_calls env fig df ticker_sym).

End Report.

(** * The Streamlit script *)

Module App.

Import Pandas Frames Indicators Report.

(** [df.to_csv()] and [df.to_excel(writer, sheet_name="data", index=True)]:
    a header line, the index label first, then one line per row.  The text
    of a cell is pandas' business and is not modelled. *)
Record sheet : Type := Sheet {
  sh_header : list string;
  sh_rows : list (Timestamp * list cell)
}.

Definition to_csv (df : DataFrame) : sheet :=
  Sheet (default "" (index_name df) :: fmap fst (columns df)) (rows df).

Definition df_to_excel_bytes (df : DataFrame) : string * sheet :=
  ("data", to_csv df).

Inductive payload : Type :=
| CsvBytes (c : sheet)
| XlsxBytes (x : string * sheet)
| PdfBytes (doc : list pdf_op).

(** The calls on [st] that show data or messages.  Static text (title,
    headers, captions, explanatory markdown) is left out. *)
Inductive ui_event : Type :=
| Warning (msg : string)
| Error (msg : string)
| Success (msg : string)
| Info (msg : string)
| ShowDataframe (df : DataFrame)
| PlotlyChart (fig : Figure)
| DownloadButton (label : string) (data : payload) (file_name mime : string).

(** The store of frames, by location, and the page built so far. *)
Record state : Type := State {
  frames : gmap nat DataFrame;
  log : list ui_event
}.

(** A run ends normally, at [st.stop()], or with an uncaught exception. *)
Inductive outcome (A : Type) : Type :=
| Done (a : A)
| Stopped
| Uncaught (e : exn).
Arguments Done {A} a.
Arguments Stopped {A}.
Arguments Uncaught {A} e.

Definition script (A : Type) : Type := state -> outcome A * state.

#[global] Instance script_ret : MRet script := fun A a σ => (Done a, σ).
#[global] Instance script_bind : MBind script := fun A B k m σ =>
  match m σ with
  | (Done a, σ') => k a σ'
  | (Stopped, σ') => (Stopped, σ')
  | (Uncaught e, σ') => (Uncaught e, σ')
  end.

Definition emit (ev : ui_event) : script unit :=
  fun σ => (Done tt, State (frames σ) (log σ ++ [ev])).

Definition st_stop {A : Type} : script A :=
  fun σ => (Stopped, σ).

Definition lift {A : Type} (r : result A) : script A :=
  fun σ => match r with
           | Ok a => (Done a, σ)
           | Raise e => (Uncaught e, σ)
           end.

(** A new frame object, at a location not in use. *)
Definition alloc (df : DataFrame) : script nat :=
  fun σ => let l := fresh (dom (frames σ)) in
           (Done l, State (<[l := df]> (frames σ)) (log σ)).

Definition read (l : nat) : script DataFrame :=
  fun σ => match frames σ !! l with
           | Some df => (Done df, σ)
           | None => (Uncaught (OtherException "NameError"), σ)
           end.

Definition write (l : nat) (df : DataFrame) : script unit :=
  fun σ => (Done tt, State (<[l := df]> (frames σ)) (log σ)).

(** [try: body except Exception as e: handler(e)]; [st.stop()] is not an
    [Exception] and passes through. *)
Definition try_except {A : Type} (body : script A) (handler : exn -> script A)
  : script A :=
  fun σ => match body σ with
           | (Uncaught e, σ') => handler e σ'
           | r => r
           end.

(** The widget values of one run. *)
Inductive view : Type :=
| SingleMetric (metric : string)
| MultiMetric (metrics : list string).

Record widgets : Type := Widgets {
  ticker : string;
  start_date : date;
  end_date : date;
  show_raw : bool;
  view_type : view;
  show_bollinger : bool;
  show_macd : bool;
  pdf_request : bool;
  excel_request : bool
}.

(** Lines 69-74.  [fetched] is what [get_stock_data(ticker, period)]
    returned, column labels already flattened. *)
Definition fetch_data (fetched : option DataFrame) : script nat :=
  match fetched with
  | None =>
      emit (Warning "No data found for this ticker & period. Check the symbol (e.g., INFY.BO) and try again.");;
      st_stop
  | Some df =>
      raw_data ← alloc df;
      if df_empty df then
        emit (Warning "No data found for this ticker & period. Check the symbol (e.g., INFY.BO) and try again.");;
        st_stop
      else mret raw_data
  end.

(** Line 98: the mask
    [(raw_data.index.date >= start_date) & (raw_data.index.date <= end_date)]. *)
Definition date_mask (df : DataFrame) (start_date end_date : date) : list bool :=
  zip_with andb
    (fmap (fun t => date_ge (ts_date t) start_date) (index df))
    (fmap (fun t => date_le (ts_date t) end_date) (index df)).

(** Lines 93-98.  The selection [raw_data.loc[...]] is a temporary; its
    [.copy()] is the new object bound to [data]. *)
Definition filter_range (raw_data : nat) (w : widgets) : script nat :=
  if date_gt (start_date w) (end_date w) then
    emit (Error "Start Date must be before or equal to End Date.");;
    st_stop
  else
    raw ← read raw_data;
    alloc (loc_mask raw (date_mask raw (start_date w) (end_date w))).

(** Lines 117-119. *)
Definition add_indicators (data : nat) : script unit :=
  df ← read data;
  if negb (df_empty df) then
    '(ma, upper, lower) ← lift (bollinger_bands df default_window default_no_of_std);
    write data (setitem (setitem (setitem df "BB_MA" ma) "BB_upper" upper) "BB_lower" lower);;
    df ← read data;
    '(macd_line, signal_line, hist) ← lift (macd df default_short default_long default_signal);
    write data (setitem (setitem (setitem df "MACD" macd_line) "Signal" signal_line) "Histogram" hist)
  else mret tt.

(** [go.Scatter(x=data.index, y=data[col], name=name, ...)] *)
Definition scatter_of (df : DataFrame) (col name : string) : result trace :=
  y ← getitem df col;
  mret (Trace Scatter name (index df) y).

(** [px.line(df, x=df.index, y=y, title=title, ...)] with one column name:
    one unnamed line; plotly rejects a name that is no column. *)
Definition px_column (df : DataFrame) (y : string) : result Series :=
  match lookup_col y (columns df) with
  | Some s => Ok s
  | None => Raise (ValueError "Value of 'y' is not the name of a column in 'data_frame'")
  end.

Definition px_line (df : DataFrame) (y title : string) : result Figure :=
  s ← px_column df y;
  mret (Fig title [Trace Line "" (index df) s]).

(** [px.line] with a list of column names: one line per name, named after
    its column. *)
Definition px_line_wide (df : DataFrame) (ys : list string) (title : string)
  : result Figure :=
  traces ← mapM (fun y => s ← px_column df y; mret (Trace Line y (index df) s)) ys;
  mret (Fig title traces).

(** [fig.for_each_trace(lambda t: t.update(name=legend_names.get(t.name, t.name)))] *)
Definition rename_traces (legend_names : list (string * string)) (fig : Figure) : Figure :=
  Fig (fig_title fig)
      (fmap (fun t =>
              Trace (tr_kind t)
                    (default (tr_name t)
                             (snd <$> find (fun p => String.eqb (fst p) (tr_name t)) legend_names))
                    (tr_x t) (tr_y t))
           (fig_traces fig)).

(** Lines 150-163: the Close chart.  It adds the columns MA50 and MA200 to
    [data] itself. *)
Definition close_chart (w : widgets) (data : nat) : script Figure :=
  df ← read data;
  t_close ← lift (scatter_of df "Close" "Close");
  c ← lift (getitem df "Close");
  write data (setitem df "MA50" (rolling_mean 50 c));;
  df ← read data;
  c ← lift (getitem df "Close");
  write data (setitem df "MA200" (rolling_mean 200 c));;
  df ← read data;
  t_ma50 ← lift (scatter_of df "MA50" "MA50");
  t_ma200 ← lift (scatter_of df "MA200" "MA200");
  bands ← (if show_bollinger w then
             t_up ← lift (scatter_of df "BB_upper" "BB Upper");
             t_lo ← lift (scatter_of df "BB_lower" "BB Lower");
             t_ma ← lift (scatter_of df "BB_MA" "BB MA (20)");
             mret [t_up; t_lo; t_ma]
           else mret []);
  let fig := Fig (ticker w +:+ " — Close") ([t_close; t_ma50; t_ma200] ++ bands) in
  emit (PlotlyChart fig);;
  mret fig.

(** Lines 178-189: the multi-metric chart, drawn from a copy of [data]. *)
Definition multi_chart (w : widgets) (data : nat) (metrics : list string)
  : script Figure :=
  df ← read data;
  df_plot ← alloc df;
  '(legend_names, metrics) ←
    (if existsb (String.eqb "Volume") metrics then
       p ← read df_plot;
       c ← lift (getitem p "Close");
       o ← lift (getitem p "Open");
       h ← lift (getitem p "High");
       l ← lift (getitem p "Low");
       let max_price := smax [smax c; smax o; smax h; smax l] in
       v ← lift (getitem p "Volume");
       write df_plot (setitem p "Volume_scaled"
                        (smul_cell (sdiv_scalar v (smax v)) max_price));;
       mret ([("Volume_scaled", "Volume")],
             fmap (fun m => if negb (String.eqb m "Volume") then m else "Volume_scaled")
                 metrics)
     else mret ([], metrics));
  p ← read df_plot;
  fig ← lift (px_line_wide p metrics (ticker w +:+ " — Multiple metrics"));
  let fig := rename_traces legend_names fig in
  emit (PlotlyChart fig);;
  mret fig.

(** Lines 192-198: the MACD chart. *)
Definition macd_chart (w : widgets) (data : nat) : script unit :=
  df ← read data;
  if show_macd w && negb (df_empty df) then
    m ← lift (getitem df "MACD");
    s ← lift (getitem df "Signal");
    h ← lift (getitem df "Histogram");
    emit (PlotlyChart (Fig (ticker w +:+ " — MACD")
                           [Trace Scatter "MACD" (index df) m;
                            Trace Scatter "Signal" (index df) s;
                            Trace Bar "Histogram" (index df) h]))
  else mret tt.

(** Lines 141-203.  The result is the binding of [fig_main]: [None] when the
    name was never bound. *)
Definition show_charts (w : widgets) (data : nat) : script (option Figure) :=
  df ← read data;
  if df_empty df then
    emit (Warning "No data in selected date range.");;
    mret None
  else
    fig ← match view_type w with
          | SingleMetric metric =>
              if String.eqb metric "Close" then close_chart w data
              else
                fig ← lift (px_line df metric (ticker w +:+ " — " +:+ metric));
                emit (PlotlyChart fig);;
                mret fig
          | MultiMetric metrics => multi_chart w data metrics
          end;
    macd_chart w data;;
    mret (Some fig).

(** Lines 212-310: the downloads. *)
Definition export_downloads (env : Environment) (w : widgets) (data : nat)
    (fig_main : option Figure) : script unit :=
  df ← read data;
  let csv_bytes := CsvBytes (to_csv df) in
  emit (DownloadButton "Download CSV (filtered)" csv_bytes
          (ticker w +:+ "_filtered.csv") "text/csv");;
  let excel_bytes := XlsxBytes (df_to_excel_bytes df) in
  emit (DownloadButton "Download Excel (filtered)" excel_bytes
          (ticker w +:+ "_filtered.xlsx")
          "application/vnd.openxmlformats-officedocument.spreadsheetml.sheet");;
  exported ← (if excel_request w then
                emit (Success "Excel export prepared — click the button below to download.");;
                emit (DownloadButton "Download prepared Excel (.xlsx)" excel_bytes
                        (ticker w +:+ "_filtered.xlsx")
                        "application/vnd.openxmlformats-officedocument.spreadsheetml.sheet");;
                mret true
              else mret false);
  exported ← (if pdf_request w then
                match fig_main with
                | Some fig =>
                    try_except
                      (pdf_bytes ← lift (create_pdf env fig df (ticker w));
                       emit (Success "PDF report prepared — click the button below to download.");;
                       emit (DownloadButton "Download PDF report" (PdfBytes pdf_bytes)
                               (ticker w +:+ "_report.pdf") "application/pdf");;
                       mret true)
                      (fun e =>
                         emit (Error ("Failed to create PDF: " +:+ exn_str e));;
                         mret exported)
                | None =>
                    emit (Error "No main chart available to include in PDF. Generate a chart first.");;
                    mret exported
                end
              else mret exported);
  if negb exported then
    emit (Info "Use the Download buttons above to get CSV/Excel or click 'Create PDF Report' in the sidebar to prepare a PDF (includes current main chart).")
  else mret tt.

(** The whole script, from the fetch to the downloads.  It returns the
    location bound to [data] and the binding of [fig_main]. *)
Definition run (env : Environment) (w : widgets) (fetched : option DataFrame)
  : script (nat * option Figure) :=
  raw_data ← fetch_data fetched;
  data ← filter_range raw_data w;
  add_indicators data;;
  (if show_raw w then df ← read data; emit (ShowDataframe df) else mret tt);;
  fig_main ← show_charts w data;
  export_downloads env w data fig_main;;
  mret (data, fig_main).

Definition initial : state := State ∅ [].

End App.

(** * The specification's vocabulary *)

Module Spec.

Import Pandas Frames Indicators Report App.
Local Open Scope R_scope.

(** [close[lo..hi]], both ends included. *)
Definition spec_window (close : list R) (lo hi : nat) : list R :=
  fmap (fun j => nth j close 0) (seq lo (S hi - lo)).

(** The arithmetic mean. *)
Definition spec_mean (w : list R) : R := Rsum w / INR (length w).

(** The sample standard deviation: denominator [n - 1]. *)
Definition spec_sample_std (w : list R) : R :=
  sqrt (Rsum (fmap (fun x => Rsqr (x - spec_mean w)) w) / (INR (length w) - 1)).

(** The exponential moving average as the specification writes it:
    EMA[0] = x[0] and EMA[i] = alpha * x[i] + (1 - alpha) * EMA[i-1]. *)
Fixpoint spec_ema_from (alpha prev : R) (xs : list R) : list R :=
  match xs with
  | [] => []
  | x :: xs' =>
      let e := alpha * x + (1 - alpha) * prev in
      e :: spec_ema_from alpha e xs'
  end.

Definition spec_ema (alpha : R) (xs : list R) : list R :=
  match xs with
  | [] => []
  | x :: xs' => x :: spec_ema_from alpha x xs'
  end.

(** The smoothing factor of a span. *)
Definition spec_alpha (span : Z) : R := 2 / (IZR span + 1).

(** Calendar order on dates: by year, then month, then day. *)
Definition spec_date_lt (a b : date) : Prop :=
  (year a < year b)%Z ∨
  (year a = year b ∧
   ((month a < month b)%Z ∨ (month a = month b ∧ (day a < day b)%Z))).

Definition spec_date_le (a b : date) : Prop := a = b ∨ spec_date_lt a b.

(** A timestamp lies in the inclusive interval when its date does, whatever
    its time of day. *)
Definition spec_within (start_date end_date : date) (t : Timestamp) : bool :=
  date_le start_date (ts_date t) && date_le (ts_date t) end_date.

(** The last [n] entries of a list. *)
Definition spec_last {A : Type} (n : nat) (l : list A) : list A :=
  drop (length l - n) l.

(** The rows of a frame with the index reinstated as the first column. *)
Definition spec_rows_with_index (df : DataFrame) : list (list value) :=
  (fun r : Timestamp * list cell => VTimestamp (fst r) :: (VFloat <$> snd r)) <$> rows df.

(** The texts in the fixed-width cells (width 28) of a report: the table. *)
Definition table_texts (doc : list pdf_op) : list string :=
  omap (fun op => match op with
                  | Cell 28 _ txt _ _ _ => Some txt
                  | _ => None
                  end) doc.

(** The reports offered for download on a page. *)
Definition reports (shown : list ui_event) : list (list pdf_op) :=
  omap (fun ev => match ev with
                  | DownloadButton _ (PdfBytes doc) _ _ => Some doc
                  | _ => None
                  end) shown.

(** The error messages shown on a page. *)
Definition errors (shown : list ui_event) : list string :=
  omap (fun ev => match ev with
                  | Error msg => Some msg
                  | _ => None
                  end) shown.

(** The price columns of a fetched table. *)
Definition ohlcv : list string := ["Open"; "High"; "Low"; "Close"; "Volume"].

(** [b] has the index and the price columns of [a]. *)
Definition same_prices (a b : DataFrame) : Prop :=
  index b = index a ∧
  index_name b = index_name a ∧
  ∀ k : string, k ∈ ohlcv -> lookup_col k (columns b) = lookup_col k (columns a).

(** [post m σ Q E]: running [m] from [σ] ends normally in a value and state
    satisfying [Q], or ends at [st.stop()] or an exception in a state
    satisfying [E]. *)
Definition post {A : Type} (m : script A) (σ : state)
    (Q : A -> state -> Prop) (E : state -> Prop) : Prop :=
  match m σ with
  | (Done a, σ') => Q a σ'
  | (_, σ') => E σ'
  end.

(** The state keeps the fetched table at [raw_data] as it was, and the frame
    at [data] has the index and the price columns of [base]. *)
Definition prices_kept (raw_data data : nat) (raw base : DataFrame) (σ : state) : Prop :=
  frames σ !! raw_data = Some raw ∧
  ∃ d : DataFrame, frames σ !! data = Some d ∧ same_prices base d.

End Spec.

(** * Sample data *)

Module Samples.

Import Pandas Frames Indicators Report App.
Local Open Scope R_scope.

(** Consecutive days of January 2024, at midnight. *)
Definition days (n : nat) : list Timestamp :=
  (fun d => Stamp (Date 2024 1 (Z.of_nat d)) 0) <$> seq 1 n.

(** The close prices 10, 11, ..., 30. *)
Definition ascending_close : list R := INR <$> seq 10 21.

Definition ascending_frame : DataFrame :=
  Frame (Some "Date") (days 21) [("Close", Some <$> ascending_close)].

(** Four trading days with times of day, and their prices. *)
Definition sample_index : list Timestamp :=
  [Stamp (Date 2024 1 2) 34200000000000;
   Stamp (Date 2024 1 3) 57600000000000;
   Stamp (Date 2024 1 4) 0;
   Stamp (Date 2024 1 5) 43200000000000].

Definition sample_prices : DataFrame :=
  Frame (Some "Date") sample_index
        [("Open", Some <$> [10; 11; 12; 13]);
         ("High", Some <$> [12; 13; 14; 15]);
         ("Low", Some <$> [9; 10; 11; 12]);
         ("Close", Some <$> [11; 12; 13; 14]);
         ("Volume", Some <$> [1000; 1100; 1200; 1300])].

Definition sample_widgets (start_date end_date : date) : widgets :=
  Widgets "INFY.BO" start_date end_date false (SingleMetric "Close")
          true true true false.

(** An environment without kaleido: the image export raises. *)
Definition sample_env : Environment :=
  Env (fun _ => Raise (OtherException "kaleido is not installed"))
      (fun _ => Ok tt)
      "2024-01-06 10:00:00"
      (fun v => match v with
                | VTimestamp _ => "2024-01-05 12:00:00"
                | VFloat _ => "13.0"
                end)
      (fun _ => "'latin-1' codec can't encode character '\u2014' in position 59: ordinal not in range(256)").

(** A store that already holds the fetched prices at location 0. *)
Definition sample_state : state := State {[0%nat := sample_prices]} [].

(** Six sessions, to see only five of them in the report. *)
Definition six_sessions : DataFrame :=
  Frame (Some "Date")
        ((fun d => Stamp (Date 2024 1 d) 0) <$> [1; 2; 3; 4; 5; 8]%Z)
        [("Open", Some <$> [10; 11; 12; 13; 14; 15]);
         ("High", Some <$> [12; 13; 14; 15; 16; 17]);
         ("Low", Some <$> [9; 10; 11; 12; 13; 14]);
         ("Close", Some <$> [11; 12; 13; 14; 15; 16]);
         ("Volume", Some <$> [1000; 1100; 1200; 1300; 1400; 1500])].

(** A frame without rows. *)
Definition no_rows : DataFrame := Frame (Some "Date") [] [("Close", [])].

End Samples.

(** * The sidebar buttons *)

Module Sidebar.

(** Streamlit runs the script again after every interaction.  [st.button]
    is [True] only in the run that the click on this very button started;
    [clicked] is the label of that button, [None] when the run has another
    cause. *)
Definition st_button (clicked : option string) (label : string) : bool :=
  match clicked with
  | Some l => String.eqb l label
  | None => false
  end.

Inductive sidebar_action : Type :=
| ClearCache
| Rerun.

(** Lines 46-57: the refresh button clears the cache of [get_stock_data];
    the button nested under it calls [st.rerun()]. *)
Definition sidebar_refresh (clicked : option string) : list sidebar_action :=
  if st_button clicked "🔄 Refresh Data (fetch latest)" then
    ClearCache :: (if st_button clicked "🔄 Refresh Data" then [Rerun] else [])
  else [].

(** Lines 61-62: [pdf_request] and [excel_request]. *)
Definition sidebar_requests (clicked : option string) : bool * bool :=
  (st_button clicked "📄 Create PDF Report",
   st_button clicked "📥 Prepare Excel export").

End Sidebar.

(** * The fetch *)

Module Fetch.

Import Pandas Frames.

(** The column labels of what [yf.download] returns: plain names, or the
    tuples of a [MultiIndex], each with its first level and the others. *)
Inductive labels : Type :=
| FlatIndex (names : list string)
| MultiIndex (tuples : list (string * list string)).

Record Download : Type := Downloaded {
  dl_index_name : option string;
  dl_index : list Timestamp;
  dl_labels : labels;
  dl_data : list Series
}.

(** Lines 23-29, on the downloaded table: a [MultiIndex] is replaced by its
    first level, [[c[0] for c in df.columns]]. *)
Definition get_stock_data (dl : Download) : DataFrame :=
  let names :=
    match dl_labels dl with
    | FlatIndex names => names
    | MultiIndex tuples => fst <$> tuples
    end in
  Frame (dl_index_name dl) (dl_index dl) (zip names (dl_data dl)).

End Fetch.

(** * The default date range *)

Module Defaults.

Import Pandas Frames.

(** Timestamps are ordered by date, then by time of day. *)
Definition ts_leb (a b : Timestamp) : bool :=
  match date_cmp (ts_date a) (ts_date b) with
  | Lt => true
  | Eq => (ts_nanos a <=? ts_nanos b)%Z
  | Gt => false
  end.

(** [index.min()] and [index.max()]; nothing on an empty index. *)
Definition index_min (idx : list Timestamp) : option Timestamp :=
  match idx with
  | [] => None
  | t :: ts => Some (foldl (fun m x => if ts_leb x m then x else m) t ts)
  end.

Definition index_max (idx : list Timestamp) : option Timestamp :=
  match idx with
  | [] => None
  | t :: ts => Some (foldl (fun m x => if ts_leb m x then x else m) t ts)
  end.

(** Lines 82-83: [raw_data.index.min().date()] and
    [raw_data.index.max().date()], the defaults of the two date pickers. *)
Definition min_date (raw_data : DataFrame) : option date :=
  ts_date <$> index_min (index raw_data).

Definition max_date (raw_data : DataFrame) : option date :=
  ts_date <$> index_max (index raw_data).

End Defaults.

(** * Vocabulary for the charts *)

Module ChartSpec.

Import Pandas Frames.

(** The series drawn for a selected metric of the multi-metric chart: the
    scaled volume for Volume, the column itself for a price. *)
Definition plotted_series (d : DataFrame) (scaled : Series) (m : string) : Series :=
  if String.eqb m "Volume" then scaled else default [] (lookup_col m (columns d)).

End ChartSpec.

(** * More sample data *)

Module MoreSamples.

Import Pandas Frames Indicators Report App Fetch Samples.
Local Open Scope R_scope.

(** The first two days of the sample prices. *)
Definition two_days_prices : DataFrame :=
  Frame (Some "Date") (take 2 sample_index)
        [("Close", Some <$> [11; 12])].

(** The sample close prices quoted in cents, from a level of 5. *)
Definition rescaled_prices : DataFrame :=
  Frame (Some "Date") sample_index
        [("Close", Some <$> ((fun x => 100 * x + 5) <$> [11; 12; 13; 14]))].

(** Twenty-five days at the price 7. *)
Definition flat_prices : DataFrame :=
  Frame (Some "Date") (days 25) [("Close", Some <$> replicate 25 7)].

(** A table without a Close column. *)
Definition no_close_prices : DataFrame :=
  Frame (Some "Date") sample_index [("Open", Some <$> [10; 11; 12; 13])].

(** An environment with kaleido, whose image FPDF refuses. *)
Definition refusing_env : Environment :=
  Env (fun _ => Ok "PNG")
      (fun _ => Raise (OtherException "Unsupported image type"))
      "2024-01-06 10:00:00"
      (fun v => match v with
                | VTimestamp _ => "2024-01-05 12:00:00"
                | VFloat _ => "13.0"
                end)
      (fun _ => "'latin-1' codec can't encode character '\u2014' in position 59: ordinal not in range(256)").

(** A single-ticker download with two-level labels. *)
Definition infy_download : Download :=
  Downloaded (Some "Date") sample_index
    (MultiIndex [("Close", ["INFY.BO"]); ("High", ["INFY.BO"]);
                 ("Low", ["INFY.BO"]); ("Open", ["INFY.BO"]);
                 ("Volume", ["INFY.BO"])])
    [Some <$> [11; 12; 13; 14]; Some <$> [12; 13; 14; 15];
     Some <$> [9; 10; 11; 12]; Some <$> [10; 11; 12; 13];
     Some <$> [1000; 1100; 1200; 1300]].

(** A download of two tickers: every price label comes once per ticker. *)
Definition two_tickers : Download :=
  Downloaded (Some "Date") sample_index
    (MultiIndex [("Close", ["AAPL"]); ("Close", ["MSFT"]);
                 ("High", ["AAPL"]); ("High", ["MSFT"]);
                 ("Low", ["AAPL"]); ("Low", ["MSFT"]);
                 ("Open", ["AAPL"]); ("Open", ["MSFT"]);
                 ("Volume", ["AAPL"]); ("Volume", ["MSFT"])])
    [Some <$> [11; 12; 13; 14]; Some <$> [21; 22; 23; 24];
     Some <$> [12; 13; 14; 15]; Some <$> [22; 23; 24; 25];
     Some <$> [9; 10; 11; 12]; Some <$> [19; 20; 21; 22];
     Some <$> [10; 11; 12; 13]; Some <$> [20; 21; 22; 23];
     Some <$> [1000; 1100; 1200; 1300]; Some <$> [2000; 2100; 2200; 2300]].

(** The sample prices with their indicator columns, as [add_indicators]
    leaves them. *)
Definition sample_derived : DataFrame :=
  let close : Series := Some <$> [11; 12; 13; 14] in
  let ma := rolling_mean 20 close in
  let std := rolling_std 20 close in
  let e12 := ewm_from (span_alpha 12) None 1 close in
  let e26 := ewm_from (span_alpha 26) None 1 close in
  let macd_line := ssub e12 e26 in
  let signal_line := ewm_from (span_alpha 9) None 1 macd_line in
  Frame (Some "Date") sample_index
        (columns sample_prices
           ++ [("BB_MA", ma);
               ("BB_upper", sadd ma (smul_scalar std 2));
               ("BB_lower", ssub ma (smul_scalar std 2));
               ("MACD", macd_line);
               ("Signal", signal_line);
               ("Histogram", ssub macd_line signal_line)]).

(** A store holding the derived sample at location 0. *)
Definition derived_state : state := State {[0%nat := sample_derived]} [].

End MoreSamples.

(** * Proof tactics *)

(** Membership in a literal list of other constructors is absurd. *)
Ltac not_listed H :=
  repeat (apply elem_of_cons in H as [H|H]; [discriminate H|]);
  by apply elem_of_nil in H.

(** A label that is none of the price columns. *)
Ltac not_price := let H := fresh "H" in intros H; not_listed H.

(** A hypothesis places an event in a list that does not hold it. *)
Ltac shown_absurd :=
  match goal with
  | H : _ ∈ _ |- _ => not_listed H
  | H : ∃ _, _ ∈ _ |- _ => destruct H as [? H]; not_listed H
  end.

(** The cases of a membership in a literal list, the absurd ones closed. *)
Ltac listed_cases H :=
  repeat (apply elem_of_cons in H as [H|H]; [try (simpl in H; discriminate H)|]);
  try (by apply elem_of_nil in H).

(** Membership in a literal list. *)
Ltac listed := rewrite !elem_of_cons; by eauto 10.

(** * Verified properties *)

Import Pandas Frames Indicators Report App Spec Samples.

Section SeriesFacts.

Local Open Scope R_scope.

Lemma observations_numeric (l : list R) : observations (fmap Some l) = l.
Proof.
  unfold observations. induction l as [|x l IH]; [done|].
  cbn. by f_equal.
Qed.

Lemma window_at_numeric (W : nat) (l : list R) (i : nat) :
  window_at W (fmap Some l) i = fmap Some (drop (S i - W) (take (S i) l)).
Proof.
  unfold window_at. by rewrite <- fmap_take, <- fmap_drop.
Qed.

Lemma length_rolling (W : nat) (agg : list R -> cell) (xs : Series) :
  length (rolling W agg xs) = length xs.
Proof. unfold rolling. by rewrite length_map, length_seq. Qed.

Lemma lookup_rolling (W : nat) (agg : list R -> cell) (xs : Series) (i : nat) :
  (i < length xs)%nat ->
  rolling W agg xs !! i =
    Some (let obs := observations (window_at W xs i) in
          if (length obs <? W)%nat then None else agg obs).
Proof.
  intros Hi. unfold rolling.
  rewrite list_lookup_fmap, lookup_seq_lt by done. reflexivity.
Qed.

(** The cells under a full window are the slice [close[i-W+1..i]]. *)
Lemma full_window_slice (W : nat) (l : list R) (i : nat) :
  (0 < W)%nat -> (W <= S i)%nat -> (i < length l)%nat ->
  drop (S i - W) (take (S i) l) = spec_window l (S i - W) i.
Proof.
  intros HW HWi Hi. unfold spec_window.
  apply list_eq. intros j.
  rewrite lookup_drop, list_lookup_fmap.
  destruct (decide (j < W)%nat) as [Hj|Hj].
  - rewrite lookup_take_lt by lia.
    rewrite lookup_seq_lt by lia. simpl.
    assert (S i - W + j < length l)%nat as Hlt by lia.
    destruct (lookup_lt_is_Some_2 l _ Hlt) as [x Hx].
    rewrite Hx. f_equal. symmetry. by apply nth_lookup_Some with (d := 0) in Hx.
  - rewrite lookup_take_ge by lia.
    rewrite lookup_seq_ge by lia. done.
Qed.

Lemma short_window_length (W : nat) (l : list R) (i : nat) :
  (S i < W)%nat -> (i < length l)%nat ->
  length (drop (S i - W) (take (S i) l)) = S i.
Proof.
  intros H1 H2. rewrite length_drop, length_take. lia.
Qed.

End SeriesFacts.

Section Bollinger.

Local Open Scope R_scope.

Lemma length_spec_window (close : list R) (lo hi : nat) :
  length (spec_window close lo hi) = (S hi - lo)%nat.
Proof. unfold spec_window. by rewrite length_fmap, length_seq. Qed.

(** Before the window fills, a rolling aggregate is NaN. *)
Lemma rolling_early (W : nat) (agg : list R -> cell) (close : list R) (i : nat) :
  (S i < W)%nat -> (i < length close)%nat ->
  rolling W agg (Some <$> close) !! i = Some None.
Proof.
  intros HiW Hi.
  rewrite lookup_rolling by (by rewrite length_fmap).
  cbv zeta. rewrite window_at_numeric, observations_numeric.
  rewrite short_window_length by done.
  by destruct (Nat.ltb_spec (S i) W); [|lia].
Qed.

(** Once it has filled, the aggregate is taken over [close[i-W+1..i]]. *)
Lemma rolling_full (W : nat) (agg : list R -> cell) (close : list R) (i : nat) :
  (0 < W)%nat -> (W <= S i)%nat -> (i < length close)%nat ->
  rolling W agg (Some <$> close) !! i = Some (agg (spec_window close (S i - W) i)).
Proof.
  intros HW HiW Hi.
  rewrite lookup_rolling by (by rewrite length_fmap).
  cbv zeta. rewrite window_at_numeric, observations_numeric.
  rewrite full_window_slice by done.
  rewrite length_spec_window.
  by destruct (Nat.ltb_spec (S i - (S i - W)) W); [lia|].
Qed.

Lemma agg_mean_spec (w : list R) : agg_mean w = Some (spec_mean w).
Proof. reflexivity. Qed.

Lemma agg_std_spec (w : list R) :
  (1 < length w)%nat -> agg_std w = Some (spec_sample_std w).
Proof.
  intros Hw. unfold agg_std.
  by destruct (Nat.leb_spec (length w) 1); [lia|].
Qed.

Lemma lookup_smul_scalar (s : Series) (k : R) (i : nat) :
  smul_scalar s k !! i = (fun x => lift2 Rmult x (Some k)) <$> s !! i.
Proof. unfold smul_scalar. by rewrite list_lookup_fmap. Qed.

Lemma lookup_sadd (a b : Series) (i : nat) (x y : cell) :
  a !! i = Some x -> b !! i = Some y -> sadd a b !! i = Some (lift2 Rplus x y).
Proof. intros Ha Hb. unfold sadd. rewrite lookup_zip_with, Ha, Hb. done. Qed.

Lemma lookup_ssub (a b : Series) (i : nat) (x y : cell) :
  a !! i = Some x -> b !! i = Some y -> ssub a b !! i = Some (lift2 Rminus x y).
Proof. intros Ha Hb. unfold ssub. rewrite lookup_zip_with, Ha, Hb. done. Qed.

Lemma length_sadd (a b : Series) :
  length a = length b -> length (sadd a b) = length a.
Proof. intros H. unfold sadd. rewrite length_zip_with. lia. Qed.

Lemma length_ssub (a b : Series) :
  length a = length b -> length (ssub a b) = length a.
Proof. intros H. unfold ssub. rewrite length_zip_with. lia. Qed.

Lemma length_smul_scalar (s : Series) (k : R) : length (smul_scalar s k) = length s.
Proof. unfold smul_scalar. by rewrite length_fmap. Qed.

(** What [bollinger_bands] returns on a frame whose Close column is [close]. *)
Lemma bollinger_bands_unfold (df : DataFrame) (c : Series) (W : nat) (k : R) :
  getitem df "Close" = Ok c ->
  bollinger_bands df W k =
    Ok (rolling_mean W c,
        sadd (rolling_mean W c) (smul_scalar (rolling_std W c) k),
        ssub (rolling_mean W c) (smul_scalar (rolling_std W c) k)).
Proof. intros H. unfold bollinger_bands. rewrite H. reflexivity. Qed.

(** The four series at an index whose window is full. *)
Lemma bands_at_full_window (W : nat) (k : R) (close : list R) (i : nat) :
  (1 < W)%nat -> (W <= S i)%nat -> (i < length close)%nat ->
  let c : Series := Some <$> close in
  let w := spec_window close (S i - W) i in
  rolling_mean W c !! i = Some (Some (spec_mean w)) ∧
  rolling_std W c !! i = Some (Some (spec_sample_std w)) ∧
  sadd (rolling_mean W c) (smul_scalar (rolling_std W c) k) !! i
    = Some (Some (spec_mean w + spec_sample_std w * k)) ∧
  ssub (rolling_mean W c) (smul_scalar (rolling_std W c) k) !! i
    = Some (Some (spec_mean w - spec_sample_std w * k)).
Proof.
  intros HW HWi Hi c w.
  assert (length w = W) as Hw by (unfold w; rewrite length_spec_window; lia).
  assert (rolling_mean W c !! i = Some (Some (spec_mean w))) as Hma.
  { unfold rolling_mean, c. rewrite rolling_full by lia. by rewrite agg_mean_spec. }
  assert (rolling_std W c !! i = Some (Some (spec_sample_std w))) as Hsd.
  { unfold rolling_std, c. rewrite rolling_full by lia.
    fold w. by rewrite agg_std_spec by lia. }
  assert (smul_scalar (rolling_std W c) k !! i = Some (Some (spec_sample_std w * k))) as Hk.
  { by rewrite lookup_smul_scalar, Hsd. }
  split; [done|]. split; [done|]. split.
  - by rewrite (lookup_sadd _ _ _ _ _ Hma Hk).
  - by rewrite (lookup_ssub _ _ _ _ _ Hma Hk).
Qed.

(** The same series before the window has filled. *)
Lemma bands_at_short_window (W : nat) (k : R) (close : list R) (i : nat) :
  (S i < W)%nat -> (i < length close)%nat ->
  let c : Series := Some <$> close in
  rolling_mean W c !! i = Some None ∧
  sadd (rolling_mean W c) (smul_scalar (rolling_std W c) k) !! i = Some None ∧
  ssub (rolling_mean W c) (smul_scalar (rolling_std W c) k) !! i = Some None.
Proof.
  intros HiW Hi c.
  assert (rolling_mean W c !! i = Some None) as Hma
    by (by apply rolling_early).
  assert (smul_scalar (rolling_std W c) k !! i = Some None) as Hstd.
  { rewrite lookup_smul_scalar. unfold rolling_std, c.
    by rewrite rolling_early. }
  split; [done|]. split.
  - by rewrite (lookup_sadd _ _ _ _ _ Hma Hstd).
  - by rewrite (lookup_ssub _ _ _ _ _ Hma Hstd).
Qed.

Lemma spec_sample_std_nonneg (w : list R) : 0 <= spec_sample_std w.
Proof. unfold spec_sample_std. apply sqrt_pos. Qed.

End Bollinger.

Section BollingerBands.

Local Open Scope R_scope.

(** C1.  On a close-price sequence of length N, [bollinger_bands] with
    window 20 and multiplier 2 returns three series of length N.  At every
    index below 19 the moving average and both bands are NaN.  At every index
    i from 19 on, the moving average is the arithmetic mean of
    close[i-19..i], the rolling deviation is the sample standard deviation
    (denominator 19) of that window, and the bands are the mean plus and
    minus twice the deviation. *)
Theorem bollinger_bands_window (df : DataFrame) (close : list R) :
  getitem df "Close" = Ok (Some <$> close) ->
  ∃ ma upper lower : Series,
    bollinger_bands df 20 2 = Ok (ma, upper, lower) ∧
    length ma = length close ∧
    length upper = length close ∧
    length lower = length close ∧
    ∀ i : nat, (i < length close)%nat ->
      ((i < 19)%nat ->
         ma !! i = Some None ∧ upper !! i = Some None ∧ lower !! i = Some None) ∧
      ((19 <= i)%nat ->
         let w := spec_window close (i - 19) i in
         length w = 20%nat ∧
         ma !! i = Some (Some (spec_mean w)) ∧
         rolling_std 20 (Some <$> close) !! i = Some (Some (spec_sample_std w)) ∧
         upper !! i = Some (Some (spec_mean w + 2 * spec_sample_std w)) ∧
         lower !! i = Some (Some (spec_mean w - 2 * spec_sample_std w))).
Proof.
  intros Hclose.
  rewrite (bollinger_bands_unfold _ _ _ _ Hclose).
  eexists _, _, _. split; [reflexivity|].
  assert (length (rolling_mean 20 (Some <$> close)) = length close) as Lma
    by (unfold rolling_mean; by rewrite length_rolling, length_fmap).
  assert (length (rolling_std 20 (Some <$> close)) = length close) as Lstd
    by (unfold rolling_std; by rewrite length_rolling, length_fmap).
  split; [done|].
  split; [rewrite length_sadd; rewrite ?length_smul_scalar; congruence|].
  split; [rewrite length_ssub; rewrite ?length_smul_scalar; congruence|].
  intros i Hi. split.
  - intros Hearly.
    apply (bands_at_short_window 20 2 close i); lia.
  - intros Hfull. cbv zeta.
    destruct (bands_at_full_window 20 2 close i) as (Hma & Hsd & Hup & Hlo);
      [lia..|].
    replace (S i - 20)%nat with (i - 19)%nat in * by lia.
    split; [rewrite length_spec_window; lia|].
    split; [done|]. split; [done|]. split.
    + rewrite Hup. do 2 f_equal. lra.
    + rewrite Hlo. do 2 f_equal. lra.
Qed.

(** The 21 ascending prices 10..30: index 19 is the first with a moving
    average. *)
Lemma bollinger_bands_window_ascending :
  ∃ ma upper lower : Series,
    bollinger_bands ascending_frame 20 2 = Ok (ma, upper, lower) ∧
    length ma = length ascending_close ∧
    length upper = length ascending_close ∧
    length lower = length ascending_close ∧
    ∀ i : nat, (i < length ascending_close)%nat ->
      ((i < 19)%nat ->
         ma !! i = Some None ∧ upper !! i = Some None ∧ lower !! i = Some None) ∧
      ((19 <= i)%nat ->
         let w := spec_window ascending_close (i - 19) i in
         length w = 20%nat ∧
         ma !! i = Some (Some (spec_mean w)) ∧
         rolling_std 20 (Some <$> ascending_close) !! i = Some (Some (spec_sample_std w)) ∧
         upper !! i = Some (Some (spec_mean w + 2 * spec_sample_std w)) ∧
         lower !! i = Some (Some (spec_mean w - 2 * spec_sample_std w))).
Proof.
  apply (bollinger_bands_window ascending_frame ascending_close).
  reflexivity.
Defined.

(** C9.  Wherever the bands are defined (from index 19 on) they are
    symmetric about the moving average and ordered: upper + lower is twice
    the moving average, and lower <= moving average <= upper. *)
Theorem bollinger_bands_symmetric (df : DataFrame) (close : list R) :
  getitem df "Close" = Ok (Some <$> close) ->
  ∃ ma upper lower : Series,
    bollinger_bands df 20 2 = Ok (ma, upper, lower) ∧
    ∀ i : nat, (19 <= i)%nat -> (i < length close)%nat ->
      ∃ m u l : R,
        ma !! i = Some (Some m) ∧
        upper !! i = Some (Some u) ∧
        lower !! i = Some (Some l) ∧
        u + l = 2 * m ∧ l <= m ∧ m <= u.
Proof.
  intros Hclose.
  rewrite (bollinger_bands_unfold _ _ _ _ Hclose).
  eexists _, _, _. split; [reflexivity|].
  intros i Hfull Hi.
  destruct (bands_at_full_window 20 2 close i) as (Hma & _ & Hup & Hlo);
    [lia..|].
  eexists _, _, _.
  split; [exact Hma|]. split; [exact Hup|]. split; [exact Hlo|].
  pose proof (spec_sample_std_nonneg (spec_window close (S i - 20) i)).
  repeat split; lra.
Qed.

Lemma bollinger_bands_symmetric_ascending :
  ∃ ma upper lower : Series,
    bollinger_bands ascending_frame 20 2 = Ok (ma, upper, lower) ∧
    ∀ i : nat, (19 <= i)%nat -> (i < length ascending_close)%nat ->
      ∃ m u l : R,
        ma !! i = Some (Some m) ∧
        upper !! i = Some (Some u) ∧
        lower !! i = Some (Some l) ∧
        u + l = 2 * m ∧ l <= m ∧ m <= u.
Proof.
  apply (bollinger_bands_symmetric ascending_frame ascending_close).
  reflexivity.
Defined.

End BollingerBands.

Section ExponentialAverage.

Local Open Scope R_scope.

Lemma length_spec_ema_from (alpha prev : R) (xs : list R) :
  length (spec_ema_from alpha prev xs) = length xs.
Proof.
  revert prev. induction xs as [|x xs IH]; intros prev; simpl; [done|].
  by rewrite IH.
Qed.

Lemma length_spec_ema (alpha : R) (xs : list R) :
  length (spec_ema alpha xs) = length xs.
Proof. destruct xs; simpl; [done|]. by rewrite length_spec_ema_from. Qed.

(** The recurrence, read by index. *)
Lemma spec_ema_from_step (alpha prev : R) (xs : list R) (i : nat) (x e : R) :
  xs !! S i = Some x ->
  spec_ema_from alpha prev xs !! i = Some e ->
  spec_ema_from alpha prev xs !! S i = Some (alpha * x + (1 - alpha) * e).
Proof.
  revert prev i. induction xs as [|y xs IH]; intros prev i Hx He; [done|].
  destruct i as [|i]; simpl in *.
  - destruct xs as [|z xs]; simpl in *; [done|]. congruence.
  - by apply IH.
Qed.

Lemma spec_ema_head (alpha : R) (xs : list R) : spec_ema alpha xs !! 0%nat = xs !! 0%nat.
Proof. by destruct xs. Qed.

Lemma spec_ema_step (alpha : R) (xs : list R) (i : nat) (x e : R) :
  xs !! S i = Some x ->
  spec_ema alpha xs !! i = Some e ->
  spec_ema alpha xs !! S i = Some (alpha * x + (1 - alpha) * e).
Proof.
  destruct xs as [|y xs]; [done|]. simpl. intros Hx He.
  destruct i as [|i]; simpl in *.
  - destruct xs as [|z xs]; simpl in *; [done|]. congruence.
  - by apply spec_ema_from_step.
Qed.

(** On numbers, the running average of pandas follows the recurrence: the
    weight of the past is [1 - alpha], the weights sum to one. *)
Lemma ewm_from_running (alpha wv : R) (xs : list R) :
  ewm_from alpha (Some wv) 1 (Some <$> xs) = Some <$> spec_ema_from alpha wv xs.
Proof.
  revert wv. induction xs as [|x xs IH]; intros wv; [done|].
  cbn [fmap list_fmap ewm_from spec_ema_from].
  rewrite IH. cbn [fmap list_fmap].
  do 3 f_equal; field; lra.
Qed.

Lemma ewm_from_numeric (alpha : R) (xs : list R) :
  ewm_from alpha None 1 (Some <$> xs) = Some <$> spec_ema alpha xs.
Proof.
  destruct xs as [|x xs]; [done|].
  cbn [fmap list_fmap ewm_from spec_ema].
  by rewrite ewm_from_running.
Qed.

Lemma ewm_mean_numeric (span : Z) (xs : list R) :
  (0 < span)%Z ->
  ewm_mean span (Some <$> xs) = Ok (Some <$> spec_ema (spec_alpha span) xs).
Proof.
  intros Hs. unfold ewm_mean.
  destruct (Z.ltb_spec span 1); [lia|].
  by rewrite ewm_from_numeric.
Qed.

Lemma ssub_numeric (a b : list R) :
  ssub (Some <$> a) (Some <$> b) = Some <$> zip_with Rminus a b.
Proof.
  unfold ssub. revert b. induction a as [|x a IH]; intros [|y b]; simpl; try done.
  by rewrite IH.
Qed.

(** What [macd] returns on a numeric Close column. *)
Lemma macd_numeric (df : DataFrame) (close : list R) (short long signal : Z) :
  (0 < short)%Z -> (0 < long)%Z -> (0 < signal)%Z ->
  getitem df "Close" = Ok (Some <$> close) ->
  let macd_line := zip_with Rminus (spec_ema (spec_alpha short) close)
                                   (spec_ema (spec_alpha long) close) in
  let signal_line := spec_ema (spec_alpha signal) macd_line in
  macd df short long signal =
    Ok (Some <$> macd_line, Some <$> signal_line,
        Some <$> zip_with Rminus macd_line signal_line).
Proof.
  intros H1 H2 H3 Hclose. cbv zeta. unfold macd.
  rewrite Hclose. cbn [mbind result_bind].
  rewrite !ewm_mean_numeric by done. cbn [mbind result_bind].
  rewrite ssub_numeric, ewm_mean_numeric by done. cbn [mbind result_bind].
  by rewrite ssub_numeric.
Qed.

End ExponentialAverage.

Section Macd.

Local Open Scope R_scope.

(** C2.  For a span S > 0 the average that [macd] takes of a close-price
    sequence starts at close[0] and follows
    EMA[i] = alpha * close[i] + (1 - alpha) * EMA[i-1] with
    alpha = 2 / (S + 1); the MACD line is the span-12 average minus the
    span-26 average; the three series [macd] returns have a number at every
    index. *)
Theorem macd_ema_recurrence (df : DataFrame) (close : list R) (S : Z) :
  (0 < S)%Z ->
  getitem df "Close" = Ok (Some <$> close) ->
  (∃ ema : list R,
     ewm_mean S (Some <$> close) = Ok (Some <$> ema) ∧
     length ema = length close ∧
     ema !! 0%nat = close !! 0%nat ∧
     ∀ (i : nat) (x e : R),
       close !! (i + 1)%nat = Some x -> ema !! i = Some e ->
       ema !! (i + 1)%nat = Some (2 / (IZR S + 1) * x + (1 - 2 / (IZR S + 1)) * e)) ∧
  (∃ ema_short ema_long macd_line signal_line hist : list R,
     ewm_mean 12 (Some <$> close) = Ok (Some <$> ema_short) ∧
     ewm_mean 26 (Some <$> close) = Ok (Some <$> ema_long) ∧
     macd df 12 26 9 = Ok (Some <$> macd_line, Some <$> signal_line, Some <$> hist) ∧
     length macd_line = length close ∧
     length signal_line = length close ∧
     length hist = length close ∧
     ∀ (i : nat) (s l : R),
       ema_short !! i = Some s -> ema_long !! i = Some l ->
       macd_line !! i = Some (s - l)).
Proof.
  intros HS Hclose. split.
  - exists (spec_ema (spec_alpha S) close).
    split; [by apply ewm_mean_numeric|].
    split; [apply length_spec_ema|].
    split; [apply spec_ema_head|].
    intros i x e Hx He. rewrite Nat.add_1_r in *.
    by apply spec_ema_step.
  - eexists (spec_ema (spec_alpha 12) close), (spec_ema (spec_alpha 26) close), _, _, _.
    split; [by apply ewm_mean_numeric|].
    split; [by apply ewm_mean_numeric|].
    split; [by apply macd_numeric|].
    assert (length (zip_with Rminus (spec_ema (spec_alpha 12) close)
                                    (spec_ema (spec_alpha 26) close)) = length close) as Lm.
    { rewrite length_zip_with, !length_spec_ema. lia. }
    split; [done|].
    split; [by rewrite length_spec_ema|].
    split; [rewrite length_zip_with, length_spec_ema; lia|].
    intros i s l Hs Hl. by rewrite lookup_zip_with, Hs, Hl.
Qed.

Lemma macd_ema_recurrence_ascending :
  (∃ ema : list R,
     ewm_mean 12 (Some <$> ascending_close) = Ok (Some <$> ema) ∧
     length ema = length ascending_close ∧
     ema !! 0%nat = ascending_close !! 0%nat ∧
     ∀ (i : nat) (x e : R),
       ascending_close !! (i + 1)%nat = Some x -> ema !! i = Some e ->
       ema !! (i + 1)%nat = Some (2 / (IZR 12 + 1) * x + (1 - 2 / (IZR 12 + 1)) * e)) ∧
  (∃ ema_short ema_long macd_line signal_line hist : list R,
     ewm_mean 12 (Some <$> ascending_close) = Ok (Some <$> ema_short) ∧
     ewm_mean 26 (Some <$> ascending_close) = Ok (Some <$> ema_long) ∧
     macd ascending_frame 12 26 9
       = Ok (Some <$> macd_line, Some <$> signal_line, Some <$> hist) ∧
     length macd_line = length ascending_close ∧
     length signal_line = length ascending_close ∧
     length hist = length ascending_close ∧
     ∀ (i : nat) (s l : R),
       ema_short !! i = Some s -> ema_long !! i = Some l ->
       macd_line !! i = Some (s - l)).
Proof.
  apply (macd_ema_recurrence ascending_frame ascending_close 12).
  - lia.
  - reflexivity.
Defined.

(** C3.  The histogram is the MACD line minus the signal line at every
    index, and the signal line is the span-9 average of the MACD line, by
    the same recurrence. *)
Theorem macd_histogram (df : DataFrame) (close : list R) :
  getitem df "Close" = Ok (Some <$> close) ->
  ∃ macd_line signal_line hist : list R,
    macd df 12 26 9 = Ok (Some <$> macd_line, Some <$> signal_line, Some <$> hist) ∧
    length hist = length close ∧
    (∀ i : nat, (i < length close)%nat ->
       ∃ m s : R, macd_line !! i = Some m ∧ signal_line !! i = Some s ∧
                  hist !! i = Some (m - s)) ∧
    ewm_mean 9 (Some <$> macd_line) = Ok (Some <$> signal_line) ∧
    signal_line !! 0%nat = macd_line !! 0%nat ∧
    ∀ (i : nat) (m s : R),
      macd_line !! (i + 1)%nat = Some m -> signal_line !! i = Some s ->
      signal_line !! (i + 1)%nat = Some (2 / (9 + 1) * m + (1 - 2 / (9 + 1)) * s).
Proof.
  intros Hclose.
  eexists _, _, _.
  split; [by apply macd_numeric|].
  set (macd_line := zip_with Rminus (spec_ema (spec_alpha 12) close)
                                    (spec_ema (spec_alpha 26) close)).
  assert (length macd_line = length close) as Lm.
  { unfold macd_line. rewrite length_zip_with, !length_spec_ema. lia. }
  split; [rewrite length_zip_with, length_spec_ema; lia|].
  split.
  - intros i Hi.
    destruct (lookup_lt_is_Some_2 macd_line i) as [m Hm]; [lia|].
    destruct (lookup_lt_is_Some_2 (spec_ema (spec_alpha 9) macd_line) i) as [s Hs];
      [rewrite length_spec_ema; lia|].
    exists m, s. split; [done|]. split; [done|].
    by rewrite lookup_zip_with, Hm, Hs.
  - split; [by apply ewm_mean_numeric|].
    split; [apply spec_ema_head|].
    intros i m s Hm Hs. rewrite Nat.add_1_r in *.
    by apply spec_ema_step.
Qed.

Lemma macd_histogram_ascending :
  ∃ macd_line signal_line hist : list R,
    macd ascending_frame 12 26 9
      = Ok (Some <$> macd_line, Some <$> signal_line, Some <$> hist) ∧
    length hist = length ascending_close ∧
    (∀ i : nat, (i < length ascending_close)%nat ->
       ∃ m s : R, macd_line !! i = Some m ∧ signal_line !! i = Some s ∧
                  hist !! i = Some (m - s)) ∧
    ewm_mean 9 (Some <$> macd_line) = Ok (Some <$> signal_line) ∧
    signal_line !! 0%nat = macd_line !! 0%nat ∧
    ∀ (i : nat) (m s : R),
      macd_line !! (i + 1)%nat = Some m -> signal_line !! i = Some s ->
      signal_line !! (i + 1)%nat = Some (2 / (9 + 1) * m + (1 - 2 / (9 + 1)) * s).
Proof.
  apply (macd_histogram ascending_frame ascending_close).
  reflexivity.
Defined.

End Macd.

Section Dates.

Lemma date_cmp_opp (a b : date) : date_cmp b a = CompOpp (date_cmp a b).
Proof.
  unfold date_cmp.
  rewrite (Z.compare_antisym (year a) (year b)).
  rewrite (Z.compare_antisym (month a) (month b)).
  rewrite (Z.compare_antisym (day a) (day b)).
  destruct (year a ?= year b)%Z; simpl; try done.
  destruct (month a ?= month b)%Z; simpl; done.
Qed.

(** [d >= s] on dates is [s <= d]. *)
Lemma date_ge_le (d s : date) : date_ge d s = date_le s d.
Proof.
  unfold date_ge, date_le. rewrite (date_cmp_opp d s).
  by destruct (date_cmp d s).
Qed.

Lemma date_gt_spec (a b : date) : date_gt a b = true <-> spec_date_lt b a.
Proof.
  unfold date_gt, spec_date_lt. rewrite (date_cmp_opp b a). unfold date_cmp.
  destruct (Z.compare_spec (year b) (year a)) as [Hy|Hy|Hy]; simpl.
  - destruct (Z.compare_spec (month b) (month a)) as [Hm|Hm|Hm]; simpl.
    + destruct (Z.compare_spec (day b) (day a)); simpl;
        split; try done; try (intros _; right; split; [done|]; right; done);
        intros [?|[_ [?|[_ ?]]]]; lia.
    + split; [intros _; right; split; [done|]; by left|done].
    + split; [done|]. intros [?|[_ [?|[? _]]]]; lia.
  - split; [intros _; by left|done].
  - split; [done|]. intros [?|[? _]]; lia.
Qed.

Lemma date_le_spec (a b : date) : date_le a b = true <-> spec_date_le a b.
Proof.
  unfold spec_date_le.
  destruct (date_gt a b) eqn:Hgt.
  - assert (date_le a b = false) as ->.
    { unfold date_le, date_gt in *. by destruct (date_cmp a b). }
    apply date_gt_spec in Hgt. split; [done|].
    intros [->|Hlt]; unfold spec_date_lt in *; lia.
  - assert (date_le a b = true) as ->.
    { unfold date_le, date_gt in *. by destruct (date_cmp a b). }
    split; [intros _|done].
    destruct (date_gt b a) eqn:Hgt'.
    + right. by apply date_gt_spec.
    + left. unfold date_gt in *. rewrite (date_cmp_opp a b) in Hgt'.
      unfold date_cmp in *. destruct a as [ya ma da], b as [yb mb db]. simpl in *.
      destruct (Z.compare_spec ya yb); simpl in *; try done.
      destruct (Z.compare_spec ma mb); simpl in *; try done.
      destruct (Z.compare_spec da db); simpl in *; try done.
      by subst.
Qed.

End Dates.

Section Selection.

Context {A B : Type}.

Lemma select_nil_r (mask : list bool) : select mask (@nil A) = [].
Proof. by destruct mask. Qed.

Lemma select_fmap_filter (f : A -> bool) (xs : list A) :
  select (f <$> xs) xs = List.filter f xs.
Proof.
  induction xs as [|x xs IH]; [done|].
  cbn [fmap list_fmap select List.filter]. rewrite IH. by destruct (f x).
Qed.

Lemma select_zip (mask : list bool) (xs : list A) (ys : list B) :
  select mask (zip xs ys) = zip (select mask xs) (select mask ys).
Proof.
  revert xs ys. induction mask as [|b mask IH]; intros [|x xs] [|y ys];
    simpl; try done.
  all: destruct b; rewrite ?IH, ?select_nil_r; simpl; try done.
  all: try by destruct (select mask xs).
Qed.

Lemma select_key_filter (f : A -> bool) (xs : list A) (ys : list B) :
  select (f <$> xs) (zip xs ys) = List.filter (fun r => f (fst r)) (zip xs ys).
Proof.
  revert ys. induction xs as [|x xs IH]; intros [|y ys]; try done.
  cbn [fmap list_fmap zip zip_with select List.filter fst].
  fold (zip xs ys). rewrite IH. by destruct (f x).
Qed.

Lemma select_transpose (d : A) (mask : list bool) (idx : list B)
    (cols : list (list A)) :
  length mask = length idx ->
  transpose_rows d (length (select mask idx)) (select mask <$> cols)
  = select mask (transpose_rows d (length idx) cols).
Proof.
  revert idx cols. induction mask as [|b mask IH]; intros [|t idx] cols Hlen;
    simpl in Hlen; try done.
  destruct b.
  - cbn [select length transpose_rows]. f_equal.
    + rewrite <- list_fmap_compose. apply list_fmap_ext. intros _ c _. by destruct c.
    + rewrite <- IH by lia. f_equal.
      rewrite <- !list_fmap_compose. apply list_fmap_ext. intros _ c _.
      destruct c; simpl; by rewrite ?select_nil_r.
  - cbn [select length transpose_rows].
    rewrite <- IH by lia. f_equal.
    rewrite <- !list_fmap_compose. apply list_fmap_ext. intros _ c _.
    destruct c; simpl; by rewrite ?select_nil_r.
Qed.

End Selection.

Section RangeFilter.

Lemma date_mask_within (df : DataFrame) (start_date end_date : date) :
  date_mask df start_date end_date = spec_within start_date end_date <$> index df.
Proof.
  unfold date_mask, spec_within.
  induction (index df) as [|t idx IH]; [done|].
  cbn [fmap list_fmap zip_with]. f_equal; [by rewrite date_ge_le|exact IH].
Qed.

Lemma length_transpose_rows {A : Type} (d : A) (n : nat) (cols : list (list A)) :
  length (transpose_rows d n cols) = n.
Proof. revert cols. induction n as [|n IH]; intros cols; simpl; [done|]. by rewrite IH. Qed.

(** Selecting by a mask selects the rows. *)
Lemma rows_loc_mask (df : DataFrame) (mask : list bool) :
  length mask = length (index df) ->
  rows (loc_mask df mask) = select mask (rows df).
Proof.
  intros Hlen. unfold rows, loc_mask. cbn [index columns].
  rewrite select_zip. f_equal.
  rewrite <- select_transpose by done. f_equal.
  rewrite <- !list_fmap_compose. by apply list_fmap_ext.
Qed.

(** The range filter keeps the rows whose date lies in the interval. *)
Lemma rows_date_filter (df : DataFrame) (start_date end_date : date) :
  rows (loc_mask df (date_mask df start_date end_date))
  = List.filter (fun r => spec_within start_date end_date (fst r)) (rows df).
Proof.
  rewrite rows_loc_mask by (by rewrite date_mask_within, length_fmap).
  rewrite date_mask_within. unfold rows. apply select_key_filter.
Qed.

Lemma spec_within_interval (start_date end_date : date) (t : Timestamp) :
  spec_within start_date end_date t = true <->
  spec_date_le start_date (ts_date t) ∧ spec_date_le (ts_date t) end_date.
Proof.
  unfold spec_within. rewrite andb_true_iff, !date_le_spec. done.
Qed.

End RangeFilter.

Section RunGuards.

Lemma run_invalid_range (env : Environment) (w : widgets) (df : DataFrame) (σ : state) :
  df_empty df = false ->
  date_gt (start_date w) (end_date w) = true ->
  run env w (Some df) σ
  = (Stopped,
     State (<[fresh (dom (frames σ)) := df]> (frames σ))
           (log σ ++ [Error "Start Date must be before or equal to End Date."])).
Proof.
  intros He Hgt. unfold run, fetch_data, filter_range. rewrite He, Hgt.
  reflexivity.
Qed.

Lemma filter_range_valid (w : widgets) (raw_data : nat) (df : DataFrame) (σ : state) :
  frames σ !! raw_data = Some df ->
  date_gt (start_date w) (end_date w) = false ->
  filter_range raw_data w σ
  = (Done (fresh (dom (frames σ))),
     State (<[fresh (dom (frames σ)) :=
              loc_mask df (date_mask df (start_date w) (end_date w))]> (frames σ))
           (log σ)).
Proof.
  intros Hraw Hgt. unfold filter_range. rewrite Hgt.
  unfold mbind, script_bind, read. rewrite Hraw. reflexivity.
Qed.

End RunGuards.

Section RangeFilterClaim.

Lemma fresh_location (σ : state) : frames σ !! fresh (dom (frames σ)) = None.
Proof. apply not_elem_of_dom, is_fresh. Qed.

Lemma run_empty_fetch (env : Environment) (w : widgets) (df : DataFrame) (σ : state) :
  df_empty df = true ->
  run env w (Some df) σ
  = (Stopped,
     State (<[fresh (dom (frames σ)) := df]> (frames σ))
           (log σ ++ [Warning "No data found for this ticker & period. Check the symbol (e.g., INFY.BO) and try again."])).
Proof.
  intros He. unfold run, fetch_data. rewrite He. reflexivity.
Qed.

(** C4.  With the start date after the end date the script reports the
    invalid range and stops: no frame is created or changed, so no indicator
    is computed.  Otherwise the filter binds [data] to a new frame holding
    exactly the rows whose date, time of day ignored, lies between the start
    and the end date, both included. *)
Theorem range_filter_inclusive (env : Environment) (w : widgets)
    (raw : DataFrame) (σ : state) (raw_data : nat) :
  frames σ !! raw_data = Some raw ->
  (spec_date_lt (end_date w) (start_date w) ∧
   filter_range raw_data w σ
   = (Stopped,
      State (frames σ)
            (log σ ++ [Error "Start Date must be before or equal to End Date."])) ∧
   ∀ σ0 : state,
     run env w (Some raw) σ0
     = (Stopped,
        State (<[fresh (dom (frames σ0)) := raw]> (frames σ0))
              (log σ0 ++
                 [if df_empty raw
                  then Warning "No data found for this ticker & period. Check the symbol (e.g., INFY.BO) and try again."
                  else Error "Start Date must be before or equal to End Date."])))
  ∨
  (spec_date_le (start_date w) (end_date w) ∧
   ∃ (data : nat) (d : DataFrame),
     filter_range raw_data w σ
     = (Done data, State (<[data := d]> (frames σ)) (log σ)) ∧
     frames σ !! data = None ∧
     index_name d = index_name raw ∧
     fst <$> columns d = fst <$> columns raw ∧
     rows d = List.filter (fun r => spec_within (start_date w) (end_date w) (fst r))
                          (rows raw) ∧
     ∀ r : Timestamp * list cell,
       r ∈ rows d <->
       r ∈ rows raw ∧
       spec_date_le (start_date w) (ts_date (fst r)) ∧
       spec_date_le (ts_date (fst r)) (end_date w)).
Proof.
  intros Hraw.
  destruct (date_gt (start_date w) (end_date w)) eqn:Hgt.
  - left. split; [by apply date_gt_spec|]. split.
    + unfold filter_range. by rewrite Hgt.
    + intros σ0. destruct (df_empty raw) eqn:He.
      * by apply run_empty_fetch.
      * by apply run_invalid_range.
  - right. split.
    { apply date_le_spec. unfold date_le, date_gt in *.
      by destruct (date_cmp (start_date w) (end_date w)). }
    eexists _, _. split; [by apply filter_range_valid|].
    split; [apply fresh_location|].
    split; [done|].
    split.
    { unfold loc_mask. cbn [columns]. rewrite <- list_fmap_compose.
      by apply list_fmap_ext. }
    split; [apply rows_date_filter|].
    intros r. rewrite rows_date_filter.
    rewrite list_elem_of_In, filter_In, <- list_elem_of_In, spec_within_interval.
    done.
Qed.

(** Between 3 and 4 January the sample keeps the 16:00 row of the 3rd and
    the midnight row of the 4th. *)
Lemma range_filter_inclusive_sample :
  ∃ (data : nat) (d : DataFrame),
    filter_range 0 (sample_widgets (Date 2024 1 3) (Date 2024 1 4)) sample_state
    = (Done data, State (<[data := d]> (frames sample_state)) []) ∧
    fst <$> rows d = [Stamp (Date 2024 1 3) 57600000000000; Stamp (Date 2024 1 4) 0].
Proof.
  destruct (range_filter_inclusive sample_env
              (sample_widgets (Date 2024 1 3) (Date 2024 1 4))
              sample_prices sample_state 0)
    as [(Hlt & _)|(_ & data & d & Hrun & _ & _ & _ & Hrows & _)].
  - reflexivity.
  - exfalso. unfold spec_date_lt in Hlt. simpl in Hlt. lia.
  - exists data, d. split; [exact Hrun|]. rewrite Hrows. reflexivity.
Defined.

End RangeFilterClaim.

Section Transposition.

Context {A B : Type}.

Lemma transpose_rows_cons (d : A) (n : nat) (c : list A) (cols : list (list A)) :
  length c = n ->
  transpose_rows d n (c :: cols) = zip_with cons c (transpose_rows d n cols).
Proof.
  revert c cols. induction n as [|n IH]; intros [|x c] cols Hlen;
    simpl in *; try done.
  f_equal. apply IH. lia.
Qed.

Lemma transpose_rows_fmap (f : A -> B) (d : A) (n : nat) (cols : list (list A)) :
  transpose_rows (f d) n ((fun c : list A => f <$> c) <$> cols)
  = (fun r : list A => f <$> r) <$> transpose_rows d n cols.
Proof.
  revert cols. induction n as [|n IH]; intros cols; [done|].
  cbn [transpose_rows fmap list_fmap]. f_equal.
  - rewrite <- !list_fmap_compose. apply list_fmap_ext. intros _ c _.
    by destruct c.
  - rewrite <- IH. f_equal.
    rewrite <- !list_fmap_compose. apply list_fmap_ext. intros _ c _.
    by destruct c.
Qed.

Lemma transpose_rows_drop (d : A) (k n : nat) (cols : list (list A)) :
  transpose_rows d (n - k) (drop k <$> cols) = drop k (transpose_rows d n cols).
Proof.
  revert n cols. induction k as [|k IH]; intros n cols.
  - rewrite Nat.sub_0_r, drop_0. f_equal.
    rewrite <- (list_fmap_id cols) at 2. by apply list_fmap_ext.
  - destruct n as [|n]; [done|].
    cbn [transpose_rows drop]. rewrite <- IH. simpl. f_equal.
    rewrite <- !list_fmap_compose. apply list_fmap_ext. intros _ c _.
    by destruct c; simpl; rewrite ?drop_nil.
Qed.

End Transposition.

Section SummaryTable.

Lemma rows_with_index_zip (idx : list Timestamp) (body : list (list cell)) :
  (fun r : Timestamp * list cell => VTimestamp (fst r) :: (VFloat <$> snd r)) <$> zip idx body
  = zip_with cons (VTimestamp <$> idx) ((fun r : list cell => VFloat <$> r) <$> body).
Proof.
  revert body. induction idx as [|t idx IH]; intros [|r body]; try done.
  cbn [zip zip_with fmap list_fmap]. f_equal. apply IH.
Qed.

(** The rows the report iterates over are the last five rows of the frame,
    each with its timestamp first. *)
Lemma iterrows_last_rows (df : DataFrame) :
  wf_frame df ->
  iterrows (reset_index (df_tail 5 df)) = spec_last 5 (spec_rows_with_index df).
Proof.
  intros Hwf. unfold iterrows, reset_index, df_tail, spec_last, spec_rows_with_index, rows.
  cbn [o_len o_columns index columns index_name fmap list_fmap snd].
  set (n := length (index df)).
  set (body := transpose_rows None n (snd <$> columns df)).
  assert (length body = n) as Hbody by apply length_transpose_rows.
  rewrite length_fmap, length_zip_with, Hbody, Nat.min_id.
  set (k := (n - 5)%nat).
  rewrite transpose_rows_cons by (by rewrite length_fmap).
  rewrite <- fmap_drop, zip_with_drop, rows_with_index_zip. f_equal.
  rewrite length_drop. fold n. fold k.
  unfold body. rewrite <- transpose_rows_drop, <- (transpose_rows_fmap VFloat).
  f_equal. rewrite <- !list_fmap_compose.
  apply Forall_fmap_ext. eapply Forall_impl; [exact Hwf|].
  intros [name c] Hc. simpl in *. by rewrite Hc.
Qed.

Lemma length_append (a b : string) :
  String.length (a +:+ b) = String.length a + String.length b.
Proof. induction a as [|c a IH]; simpl; [done|]. by rewrite IH. Qed.

Lemma length_prefix (n : nat) (s : string) :
  String.length (String.substring 0 n s) = n `min` String.length s.
Proof.
  revert s. induction n as [|n IH]; intros [|c s]; simpl; try done.
  by rewrite IH.
Qed.

Lemma prefix_append (n : nat) (s : string) :
  ∃ rest : string, s = String.substring 0 n s +:+ rest.
Proof.
  revert s. induction n as [|n IH]; intros [|c s]; simpl.
  - by exists "".
  - by exists (String c s).
  - by exists "".
  - destruct (IH s) as [rest Hrest]. exists rest.
    rewrite Hrest at 1. reflexivity.
Qed.

(** A cell text never exceeds 18 characters: a short text is kept, a long
    one is cut to its first 15 characters and three dots. *)
Lemma cell_txt_cases (txt : string) :
  String.length (cell_txt txt) <= 18 ∧
  (String.length txt <= 18 -> cell_txt txt = txt) ∧
  (18 < String.length txt ->
     cell_txt txt = String.substring 0 15 txt +:+ "..." ∧
     String.length (String.substring 0 15 txt) = 15 ∧
     ∃ rest : string, txt = String.substring 0 15 txt +:+ rest).
Proof.
  unfold cell_txt. destruct (Nat.ltb_spec 18 (String.length txt)) as [Hlong|Hshort].
  - split.
    { rewrite length_append, length_prefix.
      change (String.length "...") with 3. lia. }
    split; [lia|]. intros _. split; [done|].
    split; [rewrite length_prefix; lia|]. apply prefix_append.
  - split; [done|]. split; [done|]. lia.
Qed.

Lemma summary_table_unfold (env : Environment) (df : DataFrame) :
  wf_frame df ->
  summary_table env df
  = ((fun h => Cell 28 6 h true false "")
       <$> (default "index" (index_name df) :: (fst <$> columns df)))
      ++ [Ln None]
      ++ concat ((fun row : list value =>
                    ((fun v => Cell 28 6 (cell_txt (str_value env v)) true false "") <$> row)
                      ++ [Ln None])
                   <$> spec_last 5 (spec_rows_with_index df)).
Proof.
  intros Hwf. unfold summary_table. cbv zeta.
  rewrite (iterrows_last_rows df Hwf). f_equal.
  unfold reset_index, df_tail. cbn [o_columns columns index_name fmap list_fmap fst].
  do 2 f_equal. rewrite <- !list_fmap_compose. by apply list_fmap_ext.
Qed.

Lemma length_rows (df : DataFrame) : length (rows df) = length (index df).
Proof.
  unfold rows. rewrite length_zip_with, length_transpose_rows. lia.
Qed.

End SummaryTable.

Section Serialisation.

(** The title line holds U+2014, which Latin-1 cannot encode, whatever the
    ticker symbol is. *)
Lemma title_beyond_latin1 (ticker_sym : string) :
  latin1 ("Stock Report — " +:+ ticker_sym) = false.
Proof. reflexivity. Qed.

(** Every call of [create_pdf] raises: the title is the first text written
    to the page. *)
Lemma create_pdf_raises (env : Environment) (fig : Figure) (df : DataFrame)
    (ticker_sym : string) :
  create_pdf env fig df ticker_sym
  = Raise (UnicodeEncodeError (encode_error env (pdf_calls env fig df ticker_sym))).
Proof.
  unfold create_pdf, output.
  assert (forallb latin1 (concat (written <$> pdf_calls env fig df ticker_sym)) = false)
    as ->; [|done].
  unfold pdf_calls. cbv zeta.
  cbn [app fmap list_fmap written concat forallb].
  by rewrite title_beyond_latin1.
Qed.

Lemma table_texts_app (a b : list pdf_op) :
  table_texts (a ++ b) = table_texts a ++ table_texts b.
Proof. unfold table_texts. apply omap_app. Qed.

Lemma table_texts_cells {A : Type} (g : A -> string) (l : list A) :
  table_texts ((fun v => Cell 28 6 (g v) true false "") <$> l) = g <$> l.
Proof.
  unfold table_texts. induction l as [|v l IH]; [done|].
  cbn [fmap list_fmap omap list_omap]. by rewrite IH.
Qed.

(** The texts of the rows of the table have at most 18 characters. *)
Lemma table_texts_rows (env : Environment) (shown : list (list value)) :
  Forall (fun txt => String.length txt <= 18)
         (table_texts
            (concat ((fun row : list value =>
                        ((fun v => Cell 28 6 (cell_txt (str_value env v)) true false "")
                           <$> row) ++ [Ln None])
                       <$> shown))).
Proof.
  induction shown as [|row shown IH]; [constructor|].
  cbn [fmap list_fmap concat].
  rewrite !table_texts_app, (table_texts_cells (fun v => cell_txt (str_value env v))).
  rewrite !Forall_app. split; [split|exact IH].
  - apply Forall_fmap, Forall_forall. intros v _. apply cell_txt_cases.
  - constructor.
Qed.

End Serialisation.

Section PdfReport.

(** C6.  The table [create_pdf] draws is the table of the claim: the
    column labels, the index label first, then the last five rows of the
    frame, the timestamp first; every value is rendered in at most 18
    characters, a longer text being cut to its first 15 characters followed
    by three dots; a label is written as it is, so that every text of the
    table has at most 18 characters when the labels have.  The report
    holding this table never leaves [create_pdf]: every call raises the
    [UnicodeEncodeError] of the title line. *)
Theorem pdf_summary_table (env : Environment) (df : DataFrame) :
  wf_frame df ->
  let shown := spec_last 5 (spec_rows_with_index df) in
  let labels := default "index" (index_name df) :: (fst <$> columns df) in
  summary_table env df
  = ((fun h => Cell 28 6 h true false "") <$> labels)
      ++ [Ln None]
      ++ concat ((fun row : list value =>
                    ((fun v => Cell 28 6 (cell_txt (str_value env v)) true false "") <$> row)
                      ++ [Ln None])
                   <$> shown) ∧
  length shown = 5 `min` length (index df) ∧
  (∀ v : value,
     let txt := str_value env v in
     String.length (cell_txt txt) <= 18 ∧
     (String.length txt <= 18 -> cell_txt txt = txt) ∧
     (18 < String.length txt ->
        cell_txt txt = String.substring 0 15 txt +:+ "..." ∧
        String.length (String.substring 0 15 txt) = 15 ∧
        ∃ rest : string, txt = String.substring 0 15 txt +:+ rest)) ∧
  (Forall (fun h => String.length h <= 18) labels ->
   Forall (fun txt => String.length txt <= 18) (table_texts (summary_table env df))) ∧
  ∀ (fig : Figure) (ticker_sym : string),
    (∃ front : list pdf_op,
       pdf_calls env fig df ticker_sym = front ++ summary_table env df) ∧
    create_pdf env fig df ticker_sym
    = Raise (UnicodeEncodeError (encode_error env (pdf_calls env fig df ticker_sym))).
Proof.
  intros Hwf shown labels.
  pose proof (summary_table_unfold env df Hwf) as Htable.
  split; [exact Htable|]. split.
  { unfold shown, spec_last, spec_rows_with_index.
    rewrite length_drop, length_fmap, length_rows. lia. }
  split; [intros v; apply cell_txt_cases|]. split.
  - intros Hlabels.
    rewrite Htable, !table_texts_app, (table_texts_cells (fun h : string => h)).
    rewrite list_fmap_id.
    rewrite !Forall_app. repeat split; [exact Hlabels|constructor|apply table_texts_rows].
  - intros fig ticker_sym. split; [|apply create_pdf_raises].
    eexists. unfold pdf_calls. cbv zeta. rewrite !app_assoc. reflexivity.
Qed.

(** Of six sessions the table shows the last five, no text of it is longer
    than 18 characters, and the report is not delivered. *)
Lemma pdf_summary_table_six_sessions :
  length (spec_last 5 (spec_rows_with_index six_sessions)) = 5 ∧
  Forall (fun txt => String.length txt <= 18)
         (table_texts (summary_table sample_env six_sessions)) ∧
  create_pdf sample_env (Fig "INFY.BO — Close" []) six_sessions "INFY.BO"
  = Raise (UnicodeEncodeError "'latin-1' codec can't encode character '\u2014' in position 59: ordinal not in range(256)").
Proof.
  destruct (pdf_summary_table sample_env six_sessions) as (_ & Hlen & _ & Hall & Hpdf).
  - repeat constructor.
  - split; [exact Hlen|]. split.
    + apply Hall. repeat (constructor; [simpl; lia|]). constructor.
    + exact (proj2 (Hpdf (Fig "INFY.BO — Close" []) "INFY.BO")).
Defined.

End PdfReport.

Section ScriptSteps.

Lemma bind_read {A : Type} (l : nat) (df : DataFrame) (k : DataFrame -> script A) (σ : state) :
  frames σ !! l = Some df -> (read l ≫= k) σ = k df σ.
Proof. intros H. unfold mbind, script_bind, read. by rewrite H. Qed.

Lemma bind_emit {A : Type} (ev : ui_event) (k : unit -> script A) (σ : state) :
  (emit ev ≫= k) σ = k tt (State (frames σ) (log σ ++ [ev])).
Proof. reflexivity. Qed.

Lemma bind_ret {A B : Type} (a : A) (k : A -> script B) (σ : state) :
  (mret a ≫= k) σ = k a σ.
Proof. reflexivity. Qed.

Lemma bind_lift_ok {A B : Type} (a : A) (k : A -> script B) (σ : state) :
  (lift (Ok a) ≫= k) σ = k a σ.
Proof. reflexivity. Qed.

Lemma bind_write {A : Type} (l : nat) (df : DataFrame) (k : unit -> script A) (σ : state) :
  (write l df ≫= k) σ = k tt (State (<[l := df]> (frames σ)) (log σ)).
Proof. reflexivity. Qed.

Lemma bind_alloc {A : Type} (df : DataFrame) (k : nat -> script A) (σ : state) :
  (alloc df ≫= k) σ
  = k (fresh (dom (frames σ))) (State (<[fresh (dom (frames σ)) := df]> (frames σ)) (log σ)).
Proof. reflexivity. Qed.

Lemma bind_assoc {A B C : Type} (m : script A) (f : A -> script B) (g : B -> script C)
    (σ : state) :
  ((m ≫= f) ≫= g) σ = (m ≫= (fun a => f a ≫= g)) σ.
Proof.
  unfold mbind, script_bind. by destruct (m σ) as [[a| |e] σ'].
Qed.

End ScriptSteps.

Section PdfFallback.

Lemma pdf_calls_no_image (env : Environment) (fig : Figure) (df : DataFrame)
    (ticker_sym : string) (e : exn) :
  to_image env fig = Raise e ->
  pdf_calls env fig df ticker_sym
  = [SetAutoPageBreak 15; AddPage;
     SetFont "Arial" "B" 14;
     Cell 0 8 ("Stock Report — " +:+ ticker_sym) false true "C";
     Ln (Some 4);
     SetFont "Arial" "" 10;
     Cell 0 6 ("Generated: " +:+ now env) false true "";
     Ln (Some 6)]
      ++ [SetFont "Arial" "I" 10; MultiCell 0 5 image_unavailable; Ln (Some 6)]
      ++ [SetFont "Arial" "B" 12;
          Cell 0 8 "Data summary (last 5 rows):" false true "";
          SetFont "Arial" "" 9]
      ++ summary_table env df.
Proof. intros H. unfold pdf_calls. by rewrite H. Qed.

Lemma summary_table_no_image (env : Environment) (df : DataFrame) (png : string) (x w : nat) :
  Image png x w ∉ summary_table env df.
Proof.
  unfold summary_table. cbv zeta.
  rewrite !elem_of_app, list_elem_of_fmap, list_elem_of_singleton.
  intros [(h & Hh & _)|[Hln|Hrows]]; [done|done|].
  apply list_elem_of_In, in_concat in Hrows as (ops & Hops & Hin).
  apply list_elem_of_In in Hops, Hin.
  apply list_elem_of_fmap in Hops as (row & -> & _).
  rewrite elem_of_app, list_elem_of_fmap, list_elem_of_singleton in Hin.
  by destruct Hin as [(v & Hv & _)|Hln].
Qed.

(** The table begins with the cell of the index label. *)
Lemma summary_table_head (env : Environment) (df : DataFrame) :
  ∃ rest : list pdf_op,
    summary_table env df
    = Cell 28 6 (default "index" (index_name df)) true false "" :: rest.
Proof. unfold summary_table, reset_index, df_tail. cbv zeta. by eexists. Qed.

(** The downloads of a run that asks for the report and has a main chart:
    the message of the exception that left [create_pdf] is shown, no report
    is offered, and the request does not count as an export. *)
Lemma export_downloads_failed_pdf (env : Environment) (w : widgets) (data : nat)
    (df : DataFrame) (fig : Figure) (σ : state) :
  frames σ !! data = Some df ->
  pdf_request w = true ->
  export_downloads env w data (Some fig) σ
  = (Done tt,
     State (frames σ)
           (log σ
              ++ [DownloadButton "Download CSV (filtered)" (CsvBytes (to_csv df))
                    (ticker w +:+ "_filtered.csv") "text/csv";
                  DownloadButton "Download Excel (filtered)"
                    (XlsxBytes (df_to_excel_bytes df))
                    (ticker w +:+ "_filtered.xlsx")
                    "application/vnd.openxmlformats-officedocument.spreadsheetml.sheet"]
              ++ (if excel_request w then
                    [Success "Excel export prepared — click the button below to download.";
                     DownloadButton "Download prepared Excel (.xlsx)"
                       (XlsxBytes (df_to_excel_bytes df))
                       (ticker w +:+ "_filtered.xlsx")
                       "application/vnd.openxmlformats-officedocument.spreadsheetml.sheet"]
                  else [])
              ++ [Error ("Failed to create PDF: "
                           +:+ encode_error env (pdf_calls env fig df (ticker w)))]
              ++ (if excel_request w then []
                  else [Info "Use the Download buttons above to get CSV/Excel or click 'Create PDF Report' in the sidebar to prepare a PDF (includes current main chart)."]))).
Proof.
  intros Hdata Hpdf. unfold export_downloads.
  rewrite (bind_read _ _ _ _ Hdata). rewrite Hpdf, create_pdf_raises.
  destruct (excel_request w);
    unfold mbind, script_bind, try_except, lift, emit, mret, script_ret;
    cbn [frames log negb exn_str]; by rewrite <- ?app_assoc.
Qed.

(** C7.  When the export of the chart to an image raises, [create_pdf]
    takes the path of the claim: it draws the title, the generation time,
    the note that the image is unavailable, then the table of the last rows,
    and no image.  The document does not leave [create_pdf] all the same:
    the call raises the [UnicodeEncodeError] of the title line, as every
    call does.  The script shows that message as an error and offers no
    report. *)
Theorem pdf_without_image (env : Environment) (w : widgets) (fig : Figure)
    (df : DataFrame) (e : exn) (data : nat) (σ : state) :
  to_image env fig = Raise e ->
  frames σ !! data = Some df ->
  pdf_request w = true ->
  let doc := pdf_calls env fig df (ticker w) in
  doc = [SetAutoPageBreak 15; AddPage;
         SetFont "Arial" "B" 14;
         Cell 0 8 ("Stock Report — " +:+ ticker w) false true "C";
         Ln (Some 4);
         SetFont "Arial" "" 10;
         Cell 0 6 ("Generated: " +:+ now env) false true "";
         Ln (Some 6)]
          ++ [SetFont "Arial" "I" 10; MultiCell 0 5 image_unavailable; Ln (Some 6)]
          ++ [SetFont "Arial" "B" 12;
              Cell 0 8 "Data summary (last 5 rows):" false true "";
              SetFont "Arial" "" 9]
          ++ summary_table env df ∧
  Cell 28 6 (default "index" (index_name df)) true false "" ∈ summary_table env df ∧
  (∀ (png : string) (x wd : nat), Image png x wd ∉ doc) ∧
  create_pdf env fig df (ticker w) = Raise (UnicodeEncodeError (encode_error env doc)) ∧
  ∃ shown : list ui_event,
    export_downloads env w data (Some fig) σ
    = (Done tt, State (frames σ) (log σ ++ shown)) ∧
    Error ("Failed to create PDF: " +:+ encode_error env doc) ∈ shown ∧
    reports shown = [].
Proof.
  intros Himg Hdata Hpdf doc.
  pose proof (pdf_calls_no_image env fig df (ticker w) e Himg) as Hdoc. fold doc in Hdoc.
  split; [exact Hdoc|]. split.
  { destruct (summary_table_head env df) as [rest ->]. by left. }
  split.
  { intros png x wd. rewrite Hdoc, !elem_of_app. intros [Hin|[Hin|[Hin|Hin]]].
    - not_listed Hin.
    - not_listed Hin.
    - not_listed Hin.
    - by apply summary_table_no_image in Hin. }
  split; [apply create_pdf_raises|].
  eexists. split; [by apply export_downloads_failed_pdf|]. split.
  - rewrite !elem_of_app. right. right. left. by left.
  - by destruct (excel_request w).
Qed.

(** Without kaleido the sample draws the note and gets no report. *)
Lemma pdf_without_image_sample :
  MultiCell 0 5 image_unavailable
    ∈ pdf_calls sample_env (Fig "INFY.BO — Close" []) sample_prices "INFY.BO" ∧
  create_pdf sample_env (Fig "INFY.BO — Close" []) sample_prices "INFY.BO"
  = Raise (UnicodeEncodeError "'latin-1' codec can't encode character '\u2014' in position 59: ordinal not in range(256)") ∧
  ∃ shown : list ui_event,
    export_downloads sample_env (sample_widgets (Date 2024 1 2) (Date 2024 1 5)) 0
      (Some (Fig "INFY.BO — Close" [])) sample_state
    = (Done tt, State (frames sample_state) (log sample_state ++ shown)) ∧
    Error "Failed to create PDF: 'latin-1' codec can't encode character '\u2014' in position 59: ordinal not in range(256)"
      ∈ shown ∧
    reports shown = [].
Proof.
  destruct (pdf_without_image sample_env
              (sample_widgets (Date 2024 1 2) (Date 2024 1 5))
              (Fig "INFY.BO — Close" []) sample_prices
              (OtherException "kaleido is not installed") 0 sample_state)
    as (Heq & _ & _ & Hraise & shown & Hrun & Herr & Hnone).
  - reflexivity.
  - reflexivity.
  - reflexivity.
  - split.
    + cbv zeta in Heq.
      assert (MultiCell 0 5 image_unavailable
                ∈ pdf_calls sample_env (Fig "INFY.BO — Close" []) sample_prices
                    (ticker (sample_widgets (Date 2024 1 2) (Date 2024 1 5)))) as Hin.
      { rewrite Heq. rewrite !elem_of_app. right. left.
        apply elem_of_cons. right. apply elem_of_cons. by left. }
      exact Hin.
    + split; [exact Hraise|].
      exists shown. split; [exact Hrun|]. split; [exact Herr|exact Hnone].
Defined.

(** A whole run on six sessions with the report requested, kaleido
    missing: the page offers no report and shows the one error. *)
Example run_with_pdf_request :
  let page := log (snd (run sample_env (sample_widgets (Date 2024 1 2) (Date 2024 1 5))
                            (Some six_sessions) initial)) in
  reports page = [] ∧
  errors page
  = ["Failed to create PDF: 'latin-1' codec can't encode character '\u2014' in position 59: ordinal not in range(256)"].
Proof. split; vm_compute; reflexivity. Qed.

End PdfFallback.

Section Stages.

Lemma bind_done {A B : Type} (m : script A) (k : A -> script B) (a : A) (σ σ' : state) :
  m σ = (Done a, σ') -> (m ≫= k) σ = k a σ'.
Proof. intros H. unfold mbind, script_bind. by rewrite H. Qed.

Lemma fetch_data_ok (df : DataFrame) (σ : state) :
  df_empty df = false ->
  fetch_data (Some df) σ
  = (Done (fresh (dom (frames σ))),
     State (<[fresh (dom (frames σ)) := df]> (frames σ)) (log σ)).
Proof. intros He. unfold fetch_data. rewrite bind_alloc, He. reflexivity. Qed.

Lemma add_indicators_empty (data : nat) (d : DataFrame) (σ : state) :
  frames σ !! data = Some d -> df_empty d = true ->
  add_indicators data σ = (Done tt, σ).
Proof.
  intros Hd He. unfold add_indicators.
  rewrite (bind_read _ _ _ _ Hd), He. reflexivity.
Qed.

Lemma show_charts_empty (w : widgets) (data : nat) (d : DataFrame) (σ : state) :
  frames σ !! data = Some d -> df_empty d = true ->
  show_charts w data σ
  = (Done None, State (frames σ) (log σ ++ [Warning "No data in selected date range."])).
Proof.
  intros Hd He. unfold show_charts.
  rewrite (bind_read _ _ _ _ Hd), He. reflexivity.
Qed.

(** The downloads when no chart was drawn. *)
Lemma export_downloads_no_chart (env : Environment) (w : widgets) (data : nat)
    (df : DataFrame) (σ : state) :
  frames σ !! data = Some df ->
  export_downloads env w data None σ
  = (Done tt,
     State (frames σ)
           (log σ
              ++ [DownloadButton "Download CSV (filtered)" (CsvBytes (to_csv df))
                    (ticker w +:+ "_filtered.csv") "text/csv";
                  DownloadButton "Download Excel (filtered)"
                    (XlsxBytes (df_to_excel_bytes df))
                    (ticker w +:+ "_filtered.xlsx")
                    "application/vnd.openxmlformats-officedocument.spreadsheetml.sheet"]
              ++ (if excel_request w then
                    [Success "Excel export prepared — click the button below to download.";
                     DownloadButton "Download prepared Excel (.xlsx)"
                       (XlsxBytes (df_to_excel_bytes df))
                       (ticker w +:+ "_filtered.xlsx")
                       "application/vnd.openxmlformats-officedocument.spreadsheetml.sheet"]
                  else [])
              ++ (if pdf_request w then
                    [Error "No main chart available to include in PDF. Generate a chart first."]
                  else [])
              ++ (if excel_request w then []
                  else [Info "Use the Download buttons above to get CSV/Excel or click 'Create PDF Report' in the sidebar to prepare a PDF (includes current main chart)."]))).
Proof.
  intros Hdata. unfold export_downloads.
  rewrite (bind_read _ _ _ _ Hdata).
  destruct (excel_request w), (pdf_request w);
    unfold mbind, script_bind, emit, mret, script_ret;
    cbn [frames log negb]; by rewrite <- ?app_assoc, ?app_nil_r.
Qed.

Lemma select_none {A : Type} (f : A -> bool) (xs : list A) :
  Forall (fun x => f x = false) xs -> select (f <$> xs) xs = [].
Proof.
  induction 1 as [|x xs Hx _ IH]; [done|].
  cbn [fmap list_fmap select]. by rewrite Hx.
Qed.

End Stages.

Section EmptyData.

Local Open Scope R_scope.

Lemma indicators_of_no_rows (df : DataFrame) :
  getitem df "Close" = Ok [] ->
  bollinger_bands df 20 2 = Ok ([], [], []) ∧ macd df 12 26 9 = Ok ([], [], []).
Proof.
  intros H. split.
  - by rewrite (bollinger_bands_unfold _ _ _ _ H).
  - unfold macd. rewrite H. reflexivity.
Qed.

(** The run whose date range holds no row. *)
Lemma run_empty_range (env : Environment) (w : widgets) (raw : DataFrame) (σ : state) :
  df_empty raw = false ->
  date_gt (start_date w) (end_date w) = false ->
  Forall (fun t => spec_within (start_date w) (end_date w) t = false) (index raw) ->
  let filtered := loc_mask raw (date_mask raw (start_date w) (end_date w)) in
  let raw_data := fresh (dom (frames σ)) in
  let data := fresh (dom (<[raw_data := raw]> (frames σ))) in
  df_empty filtered = true ∧
  run env w (Some raw) σ
  = (Done (data, None),
     State (<[data := filtered]> (<[raw_data := raw]> (frames σ)))
           (log σ
              ++ (if show_raw w then [ShowDataframe filtered] else [])
              ++ [Warning "No data in selected date range."]
              ++ [DownloadButton "Download CSV (filtered)" (CsvBytes (to_csv filtered))
                    (ticker w +:+ "_filtered.csv") "text/csv";
                  DownloadButton "Download Excel (filtered)"
                    (XlsxBytes (df_to_excel_bytes filtered))
                    (ticker w +:+ "_filtered.xlsx")
                    "application/vnd.openxmlformats-officedocument.spreadsheetml.sheet"]
              ++ (if excel_request w then
                    [Success "Excel export prepared — click the button below to download.";
                     DownloadButton "Download prepared Excel (.xlsx)"
                       (XlsxBytes (df_to_excel_bytes filtered))
                       (ticker w +:+ "_filtered.xlsx")
                       "application/vnd.openxmlformats-officedocument.spreadsheetml.sheet"]
                  else [])
              ++ (if pdf_request w then
                    [Error "No main chart available to include in PDF. Generate a chart first."]
                  else [])
              ++ (if excel_request w then []
                  else [Info "Use the Download buttons above to get CSV/Excel or click 'Create PDF Report' in the sidebar to prepare a PDF (includes current main chart)."]))).
Proof.
  intros Hraw Hgt Hnone filtered raw_data data.
  assert (df_empty filtered = true) as He.
  { unfold df_empty, filtered, loc_mask. cbn [index].
    by rewrite date_mask_within, select_none. }
  split; [done|].
  unfold run.
  rewrite (bind_done _ _ _ _ _ (fetch_data_ok raw σ Hraw)).
  fold raw_data.
  set (σ1 := State (<[raw_data := raw]> (frames σ)) (log σ)).
  assert (frames σ1 !! raw_data = Some raw) as Hr by apply lookup_insert_eq.
  rewrite (bind_done _ _ _ _ _ (filter_range_valid w raw_data raw σ1 Hr Hgt)).
  cbn [frames log σ1]. fold data. fold filtered.
  set (σ2 := State (<[data := filtered]> (<[raw_data := raw]> (frames σ))) (log σ)).
  assert (frames σ2 !! data = Some filtered) as Hd by apply lookup_insert_eq.
  rewrite (bind_done _ _ _ _ _ (add_indicators_empty data filtered σ2 Hd He)).
  assert (((if show_raw w then df ← read data; emit (ShowDataframe df) else mret tt) : script unit) σ2
          = (Done tt, State (frames σ2)
                            (log σ2 ++ (if show_raw w then [ShowDataframe filtered] else []))))
    as Hshow.
  { destruct (show_raw w).
    - by rewrite (bind_read _ _ _ _ Hd).
    - cbn. by rewrite app_nil_r. }
  rewrite (bind_done _ _ _ _ _ Hshow).
  set (σ3 := State (frames σ2) _).
  rewrite (bind_done _ _ _ _ _ (show_charts_empty w data filtered σ3 Hd He)).
  set (σ4 := State (frames σ3) _).
  rewrite (bind_done _ _ _ _ _ (export_downloads_no_chart env w data filtered σ4 Hd)).
  cbn [mret script_ret frames log σ4 σ3 σ2]. by rewrite <- !app_assoc.
Qed.

(** C5.  On a table without rows both indicator functions return empty
    series and raise nothing.  When no row falls in the date range the run
    ends normally: [data] is an empty frame with no indicator column, the
    page shows the notice that the range holds no data and no chart, and
    [fig_main] stays unbound. *)
Theorem empty_data_degrades (env : Environment) (w : widgets)
    (no_data raw : DataFrame) (σ : state) :
  getitem no_data "Close" = Ok [] ->
  df_empty raw = false ->
  spec_date_le (start_date w) (end_date w) ->
  Forall (fun t => spec_within (start_date w) (end_date w) t = false) (index raw) ->
  (bollinger_bands no_data 20 2 = Ok ([], [], []) ∧
   macd no_data 12 26 9 = Ok ([], [], [])) ∧
  ∃ (data : nat) (d : DataFrame) (shown : list ui_event),
    run env w (Some raw) σ
    = (Done (data, None),
       State (<[data := d]> (<[fresh (dom (frames σ)) := raw]> (frames σ)))
             (log σ ++ shown)) ∧
    df_empty d = true ∧
    rows d = [] ∧
    fst <$> columns d = fst <$> columns raw ∧
    Warning "No data in selected date range." ∈ shown ∧
    ∀ fig : Figure, PlotlyChart fig ∉ shown.
Proof.
  intros Hclose Hraw Hle Hnone.
  split; [by apply indicators_of_no_rows|].
  assert (date_gt (start_date w) (end_date w) = false) as Hgt.
  { apply date_le_spec in Hle. unfold date_le, date_gt in *.
    by destruct (date_cmp (start_date w) (end_date w)). }
  destruct (run_empty_range env w raw σ Hraw Hgt Hnone) as [He Hrun].
  eexists _, _, _. split; [exact Hrun|].
  split; [exact He|]. split.
  { rewrite rows_loc_mask by (by rewrite date_mask_within, length_fmap).
    rewrite date_mask_within. unfold rows.
    by rewrite select_zip, select_none. }
  split.
  { unfold loc_mask. cbn [columns]. rewrite <- list_fmap_compose.
    by apply list_fmap_ext. }
  split.
  - rewrite !elem_of_app. right. left. apply elem_of_cons. by left.
  - intros fig. rewrite !elem_of_app.
    intros [Hin|[Hin|[Hin|[Hin|[Hin|Hin]]]]].
    + destruct (show_raw w); not_listed Hin.
    + not_listed Hin.
    + not_listed Hin.
    + destruct (excel_request w); not_listed Hin.
    + destruct (pdf_request w); not_listed Hin.
    + destruct (excel_request w); not_listed Hin.
Qed.

(** Over a weekend the sample has no row. *)
Lemma empty_data_degrades_weekend :
  (bollinger_bands no_rows 20 2 = Ok ([], [], []) ∧
   macd no_rows 12 26 9 = Ok ([], [], [])) ∧
  ∃ (data : nat) (d : DataFrame) (shown : list ui_event),
    run sample_env (sample_widgets (Date 2024 1 6) (Date 2024 1 7))
        (Some sample_prices) initial
    = (Done (data, None),
       State (<[data := d]> (<[fresh (dom (frames initial)) := sample_prices]>
                               (frames initial)))
             (log initial ++ shown)) ∧
    df_empty d = true ∧
    rows d = [] ∧
    fst <$> columns d = fst <$> columns sample_prices ∧
    Warning "No data in selected date range." ∈ shown ∧
    ∀ fig : Figure, PlotlyChart fig ∉ shown.
Proof.
  apply (empty_data_degrades sample_env
           (sample_widgets (Date 2024 1 6) (Date 2024 1 7))
           no_rows sample_prices initial).
  - reflexivity.
  - reflexivity.
  - right. unfold spec_date_lt. simpl. lia.
  - repeat constructor.
Defined.

End EmptyData.

Section PostRules.

Context {A B : Type}.

Lemma post_ret (a : A) (σ : state) (Q : A -> state -> Prop) (E : state -> Prop) :
  Q a σ -> post (mret a) σ Q E.
Proof. done. Qed.

Lemma post_bind (m : script A) (k : A -> script B) (σ : state)
    (Q : B -> state -> Prop) (E : state -> Prop) :
  post m σ (fun a σ' => post (k a) σ' Q E) E -> post (m ≫= k) σ Q E.
Proof.
  unfold post, mbind, script_bind. by destruct (m σ) as [[a| |e] σ'].
Qed.

Lemma post_mono (m : script A) (σ : state) (Q Q' : A -> state -> Prop)
    (E E' : state -> Prop) :
  post m σ Q E ->
  (∀ a σ', Q a σ' -> Q' a σ') -> (∀ σ', E σ' -> E' σ') ->
  post m σ Q' E'.
Proof.
  unfold post. destruct (m σ) as [[a| |e] σ']; auto.
Qed.

Lemma post_stop (σ : state) (Q : A -> state -> Prop) (E : state -> Prop) :
  E σ -> post st_stop σ Q E.
Proof. done. Qed.

Lemma post_lift (r : result A) (σ : state) (Q : A -> state -> Prop) (E : state -> Prop) :
  (∀ a, r = Ok a -> Q a σ) -> E σ -> post (lift r) σ Q E.
Proof. intros HQ HE. unfold post, lift. destruct r; auto. Qed.

Lemma post_try_except (body : script A) (handler : exn -> script A) (σ : state)
    (Q : A -> state -> Prop) (E : state -> Prop) :
  post body σ Q (fun σ' => E σ' ∧ ∀ e, post (handler e) σ' Q E) ->
  post (try_except body handler) σ Q E.
Proof.
  unfold post, try_except. destruct (body σ) as [[a| |e] σ']; [done|by intros [? _]|].
  intros [_ H]. apply H.
Qed.

End PostRules.

Section PostPrimitives.

Lemma post_emit (ev : ui_event) (σ : state) (Q : unit -> state -> Prop) (E : state -> Prop) :
  Q tt (State (frames σ) (log σ ++ [ev])) -> post (emit ev) σ Q E.
Proof. done. Qed.

Lemma post_read (l : nat) (σ : state) (Q : DataFrame -> state -> Prop) (E : state -> Prop) :
  (∀ df, frames σ !! l = Some df -> Q df σ) -> E σ -> post (read l) σ Q E.
Proof. intros HQ HE. unfold post, read. destruct (frames σ !! l); auto. Qed.

Lemma post_write (l : nat) (df : DataFrame) (σ : state)
    (Q : unit -> state -> Prop) (E : state -> Prop) :
  Q tt (State (<[l := df]> (frames σ)) (log σ)) -> post (write l df) σ Q E.
Proof. done. Qed.

Lemma post_alloc (df : DataFrame) (σ : state) (Q : nat -> state -> Prop) (E : state -> Prop) :
  Q (fresh (dom (frames σ))) (State (<[fresh (dom (frames σ)) := df]> (frames σ)) (log σ)) ->
  post (alloc df) σ Q E.
Proof. done. Qed.

End PostPrimitives.

Section Columns.

Lemma lookup_assign_col_ne (k k' : string) (s : Series) (cols : list (string * Series)) :
  k ≠ k' -> lookup_col k' (assign_col k s cols) = lookup_col k' cols.
Proof.
  intros Hne. induction cols as [|[n s0] cols IH]; simpl.
  - by destruct (String.eqb_spec k k').
  - destruct (String.eqb_spec n k) as [->|Hnk]; simpl.
    + by destruct (String.eqb_spec k k').
    + destruct (String.eqb_spec n k'); [done|]. exact IH.
Qed.

Lemma lookup_assign_col_eq (k : string) (s : Series) (cols : list (string * Series)) :
  lookup_col k (assign_col k s cols) = Some s.
Proof.
  induction cols as [|[n s0] cols IH]; simpl.
  - by rewrite String.eqb_refl.
  - destruct (String.eqb_spec n k) as [->|Hnk]; simpl.
    + by rewrite String.eqb_refl.
    + by destruct (String.eqb_spec n k).
Qed.

(** Assigning a column that is no price column keeps the prices. *)
Lemma same_prices_setitem (a d : DataFrame) (k : string) (s : Series) :
  k ∉ ohlcv -> same_prices a d -> same_prices a (setitem d k s).
Proof.
  intros Hk (Hidx & Hname & Hcols). split; [done|]. split; [done|].
  intros k' Hk'. cbn [setitem columns].
  rewrite lookup_assign_col_ne; [by apply Hcols|].
  intros ->. done.
Qed.

Lemma same_prices_refl (a : DataFrame) : same_prices a a.
Proof. by repeat split. Qed.

End Columns.

Section PricesKept.

Variables (raw_data data : nat) (raw base : DataFrame).
Hypothesis raw_is_not_data : raw_data ≠ data.

Lemma kept_log (σ : state) (l : list ui_event) : (prices_kept raw_data data raw base) σ -> (prices_kept raw_data data raw base) (State (frames σ) l).
Proof. done. Qed.

Lemma kept_read (σ : state) (df : DataFrame) :
  (prices_kept raw_data data raw base) σ -> frames σ !! data = Some df -> same_prices base df.
Proof. intros (_ & d & Hd & Hsame) Hdf. congruence. Qed.

Lemma kept_write (σ : state) (d : DataFrame) (l : list ui_event) :
  (prices_kept raw_data data raw base) σ -> same_prices base d -> (prices_kept raw_data data raw base) (State (<[data := d]> (frames σ)) l).
Proof.
  intros (Hraw & _) Hsame. split; cbn [frames].
  - by rewrite lookup_insert_ne.
  - exists d. by rewrite lookup_insert_eq.
Qed.

Lemma kept_other (σ : state) (l : nat) (x : DataFrame) (lg : list ui_event) :
  (prices_kept raw_data data raw base) σ -> l ≠ raw_data -> l ≠ data -> (prices_kept raw_data data raw base) (State (<[l := x]> (frames σ)) lg).
Proof.
  intros (Hraw & d & Hd & Hsame) H1 H2. split; cbn [frames].
  - by rewrite lookup_insert_ne.
  - exists d. by rewrite lookup_insert_ne.
Qed.

Lemma kept_fresh (σ : state) :
  (prices_kept raw_data data raw base) σ -> fresh (dom (frames σ)) ≠ raw_data ∧ fresh (dom (frames σ)) ≠ data.
Proof.
  intros (Hraw & d & Hd & _).
  pose proof (fresh_location σ) as Hf.
  split; intros Heq; rewrite Heq in Hf; congruence.
Qed.

Lemma add_indicators_kept (σ : state) :
  (prices_kept raw_data data raw base) σ -> post (add_indicators data) σ (fun _ => (prices_kept raw_data data raw base)) (prices_kept raw_data data raw base).
Proof.
  intros HJ. unfold add_indicators.
  apply post_bind, post_read; [intros df Hdf|done].
  pose proof (kept_read _ _ HJ Hdf) as Hsame.
  destruct (df_empty df); cbn [negb]; [by apply post_ret|].
  apply post_bind, post_lift; [intros [[ma upper] lower] _|done].
  apply post_bind, post_write.
  match goal with |- post _ ?s _ _ => set (σ1 := s) end.
  assert ((prices_kept raw_data data raw base) σ1) as HJ1.
  { apply kept_write; [done|].
    repeat apply same_prices_setitem; try done; not_price. }
  apply post_bind, post_read; [intros df1 Hdf1|done].
  pose proof (kept_read _ _ HJ1 Hdf1) as Hsame1.
  apply post_bind, post_lift; [intros [[macd_line signal_line] hist] _|done].
  apply post_write. apply kept_write; [done|].
  repeat apply same_prices_setitem; try done; not_price.
Qed.

Lemma post_bind_kept {A B : Type} (m : script A) (k : A -> script B) (σ : state)
    (Q : B -> state -> Prop) :
  post m σ (fun _ => (prices_kept raw_data data raw base)) (prices_kept raw_data data raw base) ->
  (∀ a σ', (prices_kept raw_data data raw base) σ' -> post (k a) σ' Q (prices_kept raw_data data raw base)) ->
  post (m ≫= k) σ Q (prices_kept raw_data data raw base).
Proof.
  intros Hm Hk. apply post_bind.
  eapply post_mono; [exact Hm| |done]. intros a σ' HJ. by apply Hk.
Qed.

Lemma close_chart_kept (w : widgets) (σ : state) :
  (prices_kept raw_data data raw base) σ -> post (close_chart w data) σ (fun _ => (prices_kept raw_data data raw base)) (prices_kept raw_data data raw base).
Proof.
  intros HJ. unfold close_chart.
  apply post_bind, post_read; [intros df Hdf|done].
  pose proof (kept_read _ _ HJ Hdf) as Hsame.
  apply post_bind, post_lift; [intros t_close _|done].
  apply post_bind, post_lift; [intros c _|done].
  apply post_bind, post_write.
  match goal with |- post _ ?s _ _ => set (σ1 := s) end.
  assert ((prices_kept raw_data data raw base) σ1) as HJ1.
  { apply kept_write; [done|]. apply same_prices_setitem; [not_price|done]. }
  apply post_bind, post_read; [intros df1 Hdf1|done].
  pose proof (kept_read _ _ HJ1 Hdf1) as Hsame1.
  apply post_bind, post_lift; [intros c1 _|done].
  apply post_bind, post_write.
  match goal with |- post _ ?s _ _ => set (σ2 := s) end.
  assert ((prices_kept raw_data data raw base) σ2) as HJ2.
  { apply kept_write; [done|]. apply same_prices_setitem; [not_price|done]. }
  apply post_bind, post_read; [intros df2 Hdf2|done].
  apply post_bind, post_lift; [intros t_ma50 _|done].
  apply post_bind, post_lift; [intros t_ma200 _|done].
  apply post_bind.
  destruct (show_bollinger w).
  - apply post_bind, post_lift; [intros t_up _|done].
    apply post_bind, post_lift; [intros t_lo _|done].
    apply post_bind, post_lift; [intros t_ma _|done].
    apply post_ret. cbv zeta. apply post_bind, post_emit. by apply post_ret.
  - apply post_ret. cbv zeta. apply post_bind, post_emit. by apply post_ret.
Qed.

Lemma multi_chart_kept (w : widgets) (metrics : list string) (σ : state) :
  (prices_kept raw_data data raw base) σ -> post (multi_chart w data metrics) σ (fun _ => (prices_kept raw_data data raw base)) (prices_kept raw_data data raw base).
Proof.
  intros HJ. unfold multi_chart.
  apply post_bind, post_read; [intros df Hdf|done].
  apply post_bind, post_alloc.
  destruct (kept_fresh σ HJ) as [Hf1 Hf2].
  set (df_plot := fresh (dom (frames σ))) in *.
  match goal with |- post _ ?s _ _ => set (σ1 := s) end.
  assert ((prices_kept raw_data data raw base) σ1) as HJ1 by (by apply kept_other).
  apply post_bind.
  assert (∀ (legend_names : list (string * string)) (ms : list string) (σ' : state),
            (prices_kept raw_data data raw base) σ' ->
            post (p ← read df_plot;
                  fig ← lift (px_line_wide p ms (ticker w +:+ " — Multiple metrics"));
                  let fig := rename_traces legend_names fig in
                  emit (PlotlyChart fig);;
                  mret fig) σ' (fun _ => (prices_kept raw_data data raw base)) (prices_kept raw_data data raw base)) as Hrest.
  { intros legend_names ms σ' HJ'.
    apply post_bind, post_read; [intros p Hp|done].
    apply post_bind, post_lift; [intros fig _|done].
    cbv zeta. apply post_bind, post_emit. by apply post_ret. }
  destruct (existsb (String.eqb "Volume") metrics).
  - apply post_bind, post_read; [intros p Hp|done].
    apply post_bind, post_lift; [intros c _|done].
    apply post_bind, post_lift; [intros o _|done].
    apply post_bind, post_lift; [intros h _|done].
    apply post_bind, post_lift; [intros l _|done].
    cbv zeta.
    apply post_bind, post_lift; [intros v _|done].
    apply post_bind, post_write. apply post_ret.
    apply Hrest. by apply kept_other.
  - apply post_ret. by apply Hrest.
Qed.

Lemma macd_chart_kept (w : widgets) (σ : state) :
  (prices_kept raw_data data raw base) σ -> post (macd_chart w data) σ (fun _ => (prices_kept raw_data data raw base)) (prices_kept raw_data data raw base).
Proof.
  intros HJ. unfold macd_chart.
  apply post_bind, post_read; [intros df Hdf|done].
  destruct (show_macd w && negb (df_empty df)); [|by apply post_ret].
  apply post_bind, post_lift; [intros m _|done].
  apply post_bind, post_lift; [intros s _|done].
  apply post_bind, post_lift; [intros h _|done].
  by apply post_emit.
Qed.

Lemma show_charts_kept (w : widgets) (σ : state) :
  (prices_kept raw_data data raw base) σ -> post (show_charts w data) σ (fun _ => (prices_kept raw_data data raw base)) (prices_kept raw_data data raw base).
Proof.
  intros HJ. unfold show_charts.
  apply post_bind, post_read; [intros df Hdf|done].
  destruct (df_empty df).
  { apply post_bind, post_emit. by apply post_ret. }
  apply post_bind_kept.
  - destruct (view_type w) as [metric|metrics].
    + destruct (String.eqb metric "Close"); [by apply close_chart_kept|].
      apply post_bind, post_lift; [intros fig _|done].
      apply post_bind, post_emit. by apply post_ret.
    + by apply multi_chart_kept.
  - intros fig σ1 HJ1. apply post_bind_kept; [by apply macd_chart_kept|].
    intros _ σ2 HJ2. by apply post_ret.
Qed.

Lemma export_downloads_kept (env : Environment) (w : widgets)
    (fig_main : option Figure) (σ : state) :
  (prices_kept raw_data data raw base) σ -> post (export_downloads env w data fig_main) σ (fun _ => (prices_kept raw_data data raw base)) (prices_kept raw_data data raw base).
Proof.
  intros HJ. unfold export_downloads.
  apply post_bind, post_read; [intros df Hdf|done].
  cbv zeta. apply post_bind, post_emit. apply post_bind, post_emit.
  apply post_bind.
  assert (∀ (exported : bool) (σ' : state),
            (prices_kept raw_data data raw base) σ' ->
            post (exported ← (if pdf_request w then
                    match fig_main with
                    | Some fig =>
                        try_except
                          (pdf_bytes ← lift (create_pdf env fig df (ticker w));
                           emit (Success "PDF report prepared — click the button below to download.");;
                           emit (DownloadButton "Download PDF report" (PdfBytes pdf_bytes)
                                   (ticker w +:+ "_report.pdf") "application/pdf");;
                           mret true)
                          (fun e =>
                             emit (Error ("Failed to create PDF: " +:+ exn_str e));;
                             mret exported)
                    | None =>
                        emit (Error "No main chart available to include in PDF. Generate a chart first.");;
                        mret exported
                    end
                  else mret exported);
                  if negb exported then
                    emit (Info "Use the Download buttons above to get CSV/Excel or click 'Create PDF Report' in the sidebar to prepare a PDF (includes current main chart).")
                  else mret tt) σ' (fun _ => (prices_kept raw_data data raw base)) (prices_kept raw_data data raw base)) as Hrest.
  { intros exported σ' HJ'.
    assert (∀ (b : bool) (σ'' : state), (prices_kept raw_data data raw base) σ'' ->
              post (if negb b then
                      emit (Info "Use the Download buttons above to get CSV/Excel or click 'Create PDF Report' in the sidebar to prepare a PDF (includes current main chart).")
                    else mret tt) σ'' (fun _ => (prices_kept raw_data data raw base)) (prices_kept raw_data data raw base)) as Hinfo.
    { intros b σ'' HJ''. destruct b; cbn [negb]; [by apply post_ret|by apply post_emit]. }
    apply post_bind.
    destruct (pdf_request w); [|apply post_ret; by apply Hinfo].
    destruct fig_main as [fig|].
    - apply post_try_except.
      apply post_bind, post_lift.
      + intros pdf_bytes _. apply post_bind, post_emit. apply post_bind, post_emit.
        apply post_ret. by apply Hinfo.
      + split; [done|]. intros e. apply post_bind, post_emit. apply post_ret.
        by apply Hinfo.
    - apply post_bind, post_emit. apply post_ret. by apply Hinfo. }
  destruct (excel_request w).
  - apply post_bind, post_emit. apply post_bind, post_emit. apply post_ret.
    by apply Hrest.
  - apply post_ret. by apply Hrest.
Qed.

End PricesKept.

Section IndicatorsFrame.

(** Attaching the indicator columns changes the frame at [data] only, and
    there neither the index nor a price column. *)
Lemma add_indicators_frame (data : nat) (d : DataFrame) (σ : state) :
  frames σ !! data = Some d ->
  let changed σ' :=
    ∃ d' : DataFrame, frames σ' = <[data := d']> (frames σ) ∧ same_prices d d' in
  post (add_indicators data) σ (fun _ => changed) changed.
Proof.
  intros Hd changed.
  assert (changed σ) as H0.
  { exists d. split; [by rewrite insert_id|apply same_prices_refl]. }
  unfold add_indicators.
  apply post_bind, post_read; [intros df Hdf|done].
  assert (df = d) as -> by congruence.
  destruct (df_empty d); cbn [negb]; [by apply post_ret|].
  apply post_bind, post_lift; [intros [[ma upper] lower] _|done].
  apply post_bind, post_write.
  match goal with |- post _ ?s _ _ => set (σ1 := s) end.
  assert (changed σ1) as H1.
  { eexists. split; [reflexivity|].
    repeat apply same_prices_setitem; try apply same_prices_refl; not_price. }
  apply post_bind, post_read; [intros df1 Hdf1|done].
  assert (same_prices d df1) as Hsame1.
  { unfold σ1 in Hdf1. cbn [frames] in Hdf1. rewrite lookup_insert_eq in Hdf1.
    injection Hdf1 as <-.
    repeat apply same_prices_setitem; try apply same_prices_refl; not_price. }
  apply post_bind, post_lift; [intros [[macd_line signal_line] hist] _|done].
  apply post_write. eexists. split.
  - cbn [frames σ1]. by rewrite insert_insert_eq.
  - repeat apply same_prices_setitem; try done; not_price.
Qed.

(** C10.  Attaching the indicator columns changes only the frame bound to
    [data], and in it neither the index nor the Open, High, Low, Close and
    Volume columns.  Over a whole run the fetched table stays as it was
    fetched, however the run ends, and when it ends normally the frame bound
    to [data] has the index and the price columns of the filtered input. *)
Theorem indicators_keep_prices (env : Environment) (w : widgets) (raw : DataFrame)
    (σ : state) (data0 : nat) (d0 : DataFrame) (σ0 : state) :
  frames σ0 !! data0 = Some d0 ->
  post (add_indicators data0) σ0
       (fun _ σ' => ∃ d' : DataFrame,
                      frames σ' = <[data0 := d']> (frames σ0) ∧ same_prices d0 d')
       (fun σ' => ∃ d' : DataFrame,
                    frames σ' = <[data0 := d']> (frames σ0) ∧ same_prices d0 d') ∧
  post (run env w (Some raw)) σ
       (fun r σ' =>
          frames σ' !! fresh (dom (frames σ)) = Some raw ∧
          ∃ d : DataFrame,
            frames σ' !! fst r = Some d ∧
            same_prices (loc_mask raw (date_mask raw (start_date w) (end_date w))) d)
       (fun σ' => frames σ' !! fresh (dom (frames σ)) = Some raw).
Proof.
  intros Hd0. split; [by apply add_indicators_frame|].
  set (raw_data := fresh (dom (frames σ))).
  set (filtered := loc_mask raw (date_mask raw (start_date w) (end_date w))).
  destruct (df_empty raw) eqn:He.
  { unfold post. rewrite (run_empty_fetch env w raw σ He).
    cbn [frames]. apply lookup_insert_eq. }
  destruct (date_gt (start_date w) (end_date w)) eqn:Hgt.
  { unfold post. rewrite (run_invalid_range env w raw σ He Hgt).
    cbn [frames]. apply lookup_insert_eq. }
  unfold run.
  unfold post at 1.
  rewrite (bind_done _ _ _ _ _ (fetch_data_ok raw σ He)). fold raw_data.
  set (σ1 := State (<[raw_data := raw]> (frames σ)) (log σ)).
  assert (frames σ1 !! raw_data = Some raw) as Hr by apply lookup_insert_eq.
  rewrite (bind_done _ _ _ _ _ (filter_range_valid w raw_data raw σ1 Hr Hgt)).
  fold filtered.
  set (data := fresh (dom (frames σ1))).
  set (σ2 := State (<[data := filtered]> (frames σ1)) (log σ1)).
  assert (raw_data ≠ data) as Hne.
  { intros Heq. pose proof (fresh_location σ1) as Hf. fold data in Hf.
    rewrite <- Heq in Hf. congruence. }
  assert (prices_kept raw_data data raw filtered σ2) as HJ.
  { split; cbn [frames σ2].
    - by rewrite lookup_insert_ne.
    - exists filtered. rewrite lookup_insert_eq. split; [done|apply same_prices_refl]. }
  change (post (add_indicators data ≫= fun _ =>
                (if show_raw w then df ← read data; emit (ShowDataframe df) else mret tt) ≫= fun _ =>
                show_charts w data ≫= fun fig_main =>
                export_downloads env w data fig_main ≫= fun _ =>
                mret (data, fig_main)) σ2
               (fun r σ' => frames σ' !! raw_data = Some raw ∧
                            ∃ d, frames σ' !! fst r = Some d ∧ same_prices filtered d)
               (fun σ' => frames σ' !! raw_data = Some raw)).
  eapply post_mono with (E := prices_kept raw_data data raw filtered);
    [|intros a σ' H; exact H|by intros σ' [? _]].
  apply post_bind_kept; [by apply add_indicators_kept|].
  intros _ σ3 HJ3. apply post_bind_kept.
  { destruct (show_raw w); [|by apply post_ret].
    apply post_bind, post_read; [intros df Hdf|done]. by apply post_emit. }
  intros _ σ4 HJ4. apply post_bind_kept; [by apply show_charts_kept|].
  intros fig_main σ5 HJ5.
  apply post_bind_kept; [by apply export_downloads_kept|].
  intros _ σ6 HJ6. apply post_ret. exact HJ6.
Qed.

(** On the sample: the indicators on the stored prices, and a whole run
    from the empty store. *)
Lemma indicators_keep_prices_sample :
  post (add_indicators 0) sample_state
       (fun _ σ' => ∃ d' : DataFrame,
                      frames σ' = <[0%nat := d']> (frames sample_state) ∧
                      same_prices sample_prices d')
       (fun σ' => ∃ d' : DataFrame,
                    frames σ' = <[0%nat := d']> (frames sample_state) ∧
                    same_prices sample_prices d') ∧
  post (run sample_env (sample_widgets (Date 2024 1 3) (Date 2024 1 4))
            (Some sample_prices)) initial
       (fun r σ' =>
          frames σ' !! fresh (dom (frames initial)) = Some sample_prices ∧
          ∃ d : DataFrame,
            frames σ' !! fst r = Some d ∧
            same_prices (loc_mask sample_prices
                           (date_mask sample_prices (Date 2024 1 3) (Date 2024 1 4))) d)
       (fun σ' => frames σ' !! fresh (dom (frames initial)) = Some sample_prices).
Proof.
  apply (indicators_keep_prices sample_env
           (sample_widgets (Date 2024 1 3) (Date 2024 1 4))
           sample_prices initial 0 sample_prices sample_state).
  reflexivity.
Defined.

(** The columns of the derived table of that run, in order. *)
Example derived_columns_sample :
  (fun df => fst <$> columns df)
    <$> frames (snd (run sample_env (sample_widgets (Date 2024 1 3) (Date 2024 1 4))
                         (Some sample_prices) initial)) !! 1%nat
  = Some ["Open"; "High"; "Low"; "Close"; "Volume";
          "BB_MA"; "BB_upper"; "BB_lower"; "MACD"; "Signal"; "Histogram";
          "MA50"; "MA200"].
Proof. vm_compute. reflexivity. Qed.

Example derived_index_sample :
  index <$> frames (snd (run sample_env (sample_widgets (Date 2024 1 3) (Date 2024 1 4))
                             (Some sample_prices) initial)) !! 1%nat
  = Some [Stamp (Date 2024 1 3) 57600000000000; Stamp (Date 2024 1 4) 0].
Proof. vm_compute. reflexivity. Qed.

End IndicatorsFrame.

Section Attached.

Local Open Scope R_scope.

Lemma count_assign_col_ne (k k' : string) (s : Series) (cols : list (string * Series)) :
  k ≠ k' -> count_col k' (assign_col k s cols) = count_col k' cols.
Proof.
  intros Hne. induction cols as [|[n s0] cols IH]; cbn [assign_col count_col].
  - by destruct (String.eqb_spec k k').
  - destruct (String.eqb_spec n k) as [->|Hnk]; cbn [count_col]; [done|].
    by rewrite IH.
Qed.

Lemma count_assign_col_eq (k : string) (s : Series) (cols : list (string * Series)) :
  (count_col k cols <= 1)%nat -> count_col k (assign_col k s cols) = 1%nat.
Proof.
  induction cols as [|[n s0] cols IH]; cbn [assign_col count_col].
  - rewrite String.eqb_refl. lia.
  - destruct (String.eqb_spec n k) as [->|Hnk]; cbn [count_col].
    + rewrite String.eqb_refl. lia.
    + destruct (String.eqb_spec n k); [done|]. cbn [Nat.add]. exact IH.
Qed.

Lemma count_col_absent (k : string) (cols : list (string * Series)) :
  k ∉ fst <$> cols -> count_col k cols = 0%nat.
Proof.
  induction cols as [|[n s0] cols IH]; [done|].
  cbn [fmap list_fmap fst count_col]. rewrite not_elem_of_cons. intros [Hne Hin].
  destruct (String.eqb_spec n k) as [->|_]; [done|]. by apply IH.
Qed.

(** Distinct labels: no label is on two columns. *)
Lemma count_col_NoDup (k : string) (cols : list (string * Series)) :
  NoDup (fst <$> cols) -> (count_col k cols <= 1)%nat.
Proof.
  induction cols as [|[n s0] cols IH]; [cbn; lia|].
  cbn [fmap list_fmap fst count_col]. intros [Hn Hnd]%NoDup_cons.
  destruct (String.eqb_spec n k) as [->|_]; [|by apply IH].
  rewrite (count_col_absent k cols Hn). lia.
Qed.

Lemma lookup_col_counted (k : string) (s : Series) (cols : list (string * Series)) :
  lookup_col k cols = Some s -> (1 <= count_col k cols)%nat.
Proof.
  induction cols as [|[n s0] cols IH]; [done|]. cbn [lookup_col count_col].
  destruct (String.eqb n k); [lia|]. intros H. apply IH in H. lia.
Qed.

Lemma labels_assign_col (k : string) (s : Series) (cols : list (string * Series)) :
  NoDup (fst <$> cols) -> NoDup (fst <$> assign_col k s cols).
Proof.
  induction cols as [|[n s0] cols IH]; cbn [assign_col fmap list_fmap fst].
  - intros _. apply NoDup_singleton.
  - intros [Hn Hnd]%NoDup_cons.
    destruct (String.eqb_spec n k) as [->|Hnk]; cbn [fmap list_fmap fst].
    + by apply NoDup_cons.
    + apply NoDup_cons. split; [|by apply IH].
      intros Hin. apply Hn. clear IH Hnd Hn.
      induction cols as [|[m s1] cols IH]; cbn [assign_col fmap list_fmap fst] in *.
      * apply list_elem_of_singleton in Hin. by subst.
      * destruct (String.eqb_spec m k) as [->|Hmk]; cbn [fmap list_fmap fst] in Hin.
        -- exact Hin.
        -- apply elem_of_cons in Hin as [->|Hin]; [by left|]. right. by apply IH.
Qed.

Lemma labels_setitem (df : DataFrame) (k : string) (s : Series) :
  NoDup (fst <$> columns df) -> NoDup (fst <$> columns (setitem df k s)).
Proof. apply labels_assign_col. Qed.

(** On a frame with distinct labels [df[k]] is the column labelled [k]. *)
Lemma getitem_unique (df : DataFrame) (k : string) (s : Series) :
  NoDup (fst <$> columns df) ->
  lookup_col k (columns df) = Some s -> getitem df k = Ok s.
Proof.
  intros Hnd Hs. unfold getitem. rewrite Hs.
  pose proof (count_col_NoDup k _ Hnd). pose proof (lookup_col_counted k s _ Hs).
  by replace (count_col k (columns df)) with 1%nat by lia.
Qed.

Lemma getitem_lookup (df : DataFrame) (k : string) (s : Series) :
  getitem df k = Ok s ->
  lookup_col k (columns df) = Some s ∧ count_col k (columns df) = 1%nat.
Proof.
  unfold getitem. destruct (lookup_col k (columns df)) as [s'|]; [|done].
  destruct (Nat.eqb_spec (count_col k (columns df)) 1); [|done].
  by intros [= ->].
Qed.

Lemma getitem_setitem_ne (df : DataFrame) (k k' : string) (s : Series) :
  k ≠ k' -> getitem (setitem df k s) k' = getitem df k'.
Proof.
  intros Hne. unfold getitem, setitem. cbn [columns].
  by rewrite lookup_assign_col_ne, count_assign_col_ne.
Qed.

Lemma getitem_setitem_eq (df : DataFrame) (k : string) (s : Series) :
  (count_col k (columns df) <= 1)%nat ->
  getitem (setitem df k s) k = Ok s.
Proof.
  intros Hk. unfold getitem, setitem. cbn [columns].
  by rewrite lookup_assign_col_eq, count_assign_col_eq.
Qed.

(** On a frame with rows and a numeric Close column the six indicator
    columns are attached to the frame bound to [data]. *)
Lemma add_indicators_attaches (data : nat) (d : DataFrame) (close : list R) (σ : state) :
  frames σ !! data = Some d ->
  df_empty d = false ->
  NoDup (fst <$> columns d) ->
  getitem d "Close" = Ok (Some <$> close) ->
  ∃ (d' : DataFrame) (ma upper lower macd_line signal_line hist : Series),
    add_indicators data σ = (Done tt, State (<[data := d']> (frames σ)) (log σ)) ∧
    bollinger_bands d 20 2 = Ok (ma, upper, lower) ∧
    macd d 12 26 9 = Ok (macd_line, signal_line, hist) ∧
    getitem d' "BB_MA" = Ok ma ∧
    getitem d' "BB_upper" = Ok upper ∧
    getitem d' "BB_lower" = Ok lower ∧
    getitem d' "MACD" = Ok macd_line ∧
    getitem d' "Signal" = Ok signal_line ∧
    getitem d' "Histogram" = Ok hist ∧
    NoDup (fst <$> columns d').
Proof.
  intros Hd He Hnd Hclose.
  pose proof (bollinger_bands_unfold d _ 20 2 Hclose) as Hbb.
  pose proof (macd_numeric d close 12 26 9 eq_refl eq_refl eq_refl Hclose) as Hm.
  cbv zeta in Hm.
  set (d1 := setitem (setitem (setitem d "BB_MA" (rolling_mean 20 (Some <$> close)))
                        "BB_upper" (sadd (rolling_mean 20 (Some <$> close))
                                         (smul_scalar (rolling_std 20 (Some <$> close)) 2)))
               "BB_lower" (ssub (rolling_mean 20 (Some <$> close))
                                (smul_scalar (rolling_std 20 (Some <$> close)) 2))).
  assert (getitem d1 "Close" = Ok (Some <$> close)) as Hclose1.
  { unfold d1. by rewrite !getitem_setitem_ne. }
  pose proof (macd_numeric d1 close 12 26 9 eq_refl eq_refl eq_refl Hclose1) as Hm1.
  cbv zeta in Hm1.
  eexists _, _, _, _, _, _, _.
  split.
  { unfold add_indicators.
    rewrite (bind_read _ _ _ _ Hd), He. cbn [negb].
    unfold default_window, default_no_of_std, default_short, default_long, default_signal.
    rewrite Hbb, bind_lift_ok. cbv beta iota. rewrite bind_write.
    rewrite bind_read with (df := d1) by apply lookup_insert_eq.
    rewrite Hm1, bind_lift_ok. cbv beta iota. unfold write. cbn [frames log].
    by rewrite insert_insert_eq. }
  split; [exact Hbb|]. split; [exact Hm|].
  unfold d1. repeat split;
    try (by repeat apply labels_setitem);
    repeat first [ by rewrite getitem_setitem_eq
                     by (apply count_col_NoDup; repeat apply labels_setitem; exact Hnd)
                 | rewrite getitem_setitem_ne by done ].
Qed.

End Attached.

Section Examples.

Local Open Scope R_scope.

Example ascending_first_average :
  rolling_mean 20 (Some <$> ascending_close) !! 18%nat = Some None ∧
  rolling_mean 20 (Some <$> ascending_close) !! 19%nat = Some (Some (39 / 2)).
Proof.
  split.
  - apply (rolling_early 20 agg_mean ascending_close 18); simpl; lia.
  - unfold rolling_mean.
    rewrite (rolling_full 20 agg_mean ascending_close 19) by (simpl; lia).
    rewrite agg_mean_spec. do 2 f_equal.
    unfold spec_mean, spec_window, ascending_close.
    cbn [seq fmap list_fmap Nat.sub length nth Rsum foldr INR]. lra.
Qed.

Example ema_two_steps :
  ewm_mean 3 (Some <$> [1; 3; 5]) = Ok (Some <$> [1; 2; 7 / 2]).
Proof.
  rewrite (ewm_mean_numeric 3 [1; 3; 5]) by lia.
  unfold spec_ema, spec_ema_from, spec_alpha.
  repeat f_equal; lra.
Qed.

Example ema_carries_over_gap :
  ewm_mean 3 [None; Some 1; None; Some 3] = Ok [None; Some 1; Some 1; Some (7 / 3)].
Proof.
  unfold ewm_mean, span_alpha. cbn [Z.ltb Z.compare Pos.compare Pos.compare_cont ewm_from].
  do 6 f_equal. field.
Qed.

(** The layout of the CSV and Excel sheets: the index label first, then the
    column labels in order; one line per row. *)
Lemma to_csv_layout (df : DataFrame) :
  sh_header (to_csv df) = default "" (index_name df) :: (fst <$> columns df) ∧
  length (sh_rows (to_csv df)) = length (index df) ∧
  fst <$> sh_rows (to_csv df) = index df.
Proof.
  unfold to_csv. cbn [sh_header sh_rows]. split; [done|].
  split; [apply length_rows|].
  unfold rows. apply fst_zip. by rewrite length_transpose_rows.
Qed.

Example sample_rows_in_range :
  rows (loc_mask sample_prices (date_mask sample_prices (Date 2024 1 3) (Date 2024 1 4)))
  = [(Stamp (Date 2024 1 3) 57600000000000, [Some 11; Some 13; Some 10; Some 12; Some 1100]);
     (Stamp (Date 2024 1 4) 0, [Some 12; Some 14; Some 11; Some 13; Some 1200])].
Proof. reflexivity. Qed.

End Examples.

(** * Further properties of the script *)

Import Sidebar Fetch Defaults ChartSpec MoreSamples.

Section Causality.

Local Open Scope R_scope.

Lemma window_at_app (W : nat) (xs ys : Series) (i : nat) :
  (i < length xs)%nat -> window_at W (xs ++ ys) i = window_at W xs i.
Proof.
  intros Hi. unfold window_at. by rewrite take_app_le by lia.
Qed.

(** A rolling aggregate never looks ahead. *)
Lemma rolling_prefix (W : nat) (agg : list R -> cell) (xs ys : Series) :
  take (length xs) (rolling W agg (xs ++ ys)) = rolling W agg xs.
Proof.
  apply list_eq. intros i.
  destruct (decide (i < length xs)%nat) as [Hi|Hi].
  - rewrite lookup_take_lt by done.
    rewrite !lookup_rolling by (rewrite ?length_app; lia).
    cbv zeta. by rewrite window_at_app.
  - rewrite lookup_take_ge by lia.
    symmetry. apply lookup_ge_None. rewrite length_rolling. lia.
Qed.

Lemma ewm_from_prefix (alpha : R) (w : cell) (old_wt : R) (xs ys : Series) :
  take (length xs) (ewm_from alpha w old_wt (xs ++ ys)) = ewm_from alpha w old_wt xs.
Proof.
  revert w old_wt. induction xs as [|x xs IH]; intros w old_wt; [done|].
  cbn [app length ewm_from].
  destruct w as [wv|]; [destruct x as [c|]|]; cbn [take]; by rewrite IH.
Qed.

Lemma length_ewm_from (alpha : R) (w : cell) (old_wt : R) (xs : Series) :
  length (ewm_from alpha w old_wt xs) = length xs.
Proof.
  revert w old_wt. induction xs as [|x xs IH]; intros w old_wt; [done|].
  cbn [length ewm_from].
  destruct w as [wv|]; [destruct x as [c|]|]; cbn [length]; by rewrite IH.
Qed.

Lemma ewm_from_take (alpha : R) (w : cell) (old_wt : R) (n : nat) (xs : Series) :
  take n (ewm_from alpha w old_wt xs) = ewm_from alpha w old_wt (take n xs).
Proof.
  destruct (decide (n <= length xs)%nat) as [Hn|Hn].
  - rewrite <- (take_drop n xs) at 1.
    rewrite <- (ewm_from_prefix alpha w old_wt (take n xs) (drop n xs)).
    by rewrite length_take_le.
  - rewrite !take_ge by (rewrite ?length_ewm_from; lia). done.
Qed.

Lemma ewm_mean_take (span : Z) (n : nat) (xs out : Series) :
  ewm_mean span xs = Ok out -> ewm_mean span (take n xs) = Ok (take n out).
Proof.
  unfold ewm_mean. destruct (span <? 1)%Z; [done|].
  intros [= <-]. by rewrite ewm_from_take.
Qed.

Lemma ssub_take (n : nat) (a b : Series) : take n (ssub a b) = ssub (take n a) (take n b).
Proof. apply zip_with_take. Qed.

Lemma sadd_take (n : nat) (a b : Series) : take n (sadd a b) = sadd (take n a) (take n b).
Proof. apply zip_with_take. Qed.

Lemma smul_scalar_take (n : nat) (a : Series) (k : R) :
  take n (smul_scalar a k) = smul_scalar (take n a) k.
Proof. unfold smul_scalar. by rewrite fmap_take. Qed.

(** X1.  The indicators of a table do not change when later rows are appended:
    on the first rows, the series computed from the longer table are the
    series computed from the shorter one. *)
Theorem indicators_never_look_ahead (df df' : DataFrame) (xs ys : Series) :
  getitem df "Close" = Ok (xs ++ ys) ->
  getitem df' "Close" = Ok xs ->
  ∃ ma upper lower macd_line signal_line hist : Series,
    bollinger_bands df 20 2 = Ok (ma, upper, lower) ∧
    macd df 12 26 9 = Ok (macd_line, signal_line, hist) ∧
    bollinger_bands df' 20 2
    = Ok (take (length xs) ma, take (length xs) upper, take (length xs) lower) ∧
    macd df' 12 26 9
    = Ok (take (length xs) macd_line, take (length xs) signal_line,
          take (length xs) hist).
Proof.
  intros Hlong Hshort.
  rewrite (bollinger_bands_unfold _ _ 20 2 Hlong).
  rewrite (bollinger_bands_unfold _ _ 20 2 Hshort).
  unfold macd. rewrite Hlong, Hshort. cbn [mbind result_bind].
  unfold ewm_mean. cbn [Z.ltb Z.compare Pos.compare Pos.compare_cont mbind result_bind].
  eexists _, _, _, _, _, _.
  split; [reflexivity|]. split; [reflexivity|]. split.
  - rewrite sadd_take, ssub_take, !smul_scalar_take.
    unfold rolling_mean, rolling_std. by rewrite !rolling_prefix.
  - rewrite !ssub_take, !ewm_from_take, !ssub_take, !ewm_from_take.
    by rewrite take_app_length.
Qed.

Lemma indicators_never_look_ahead_sample :
  ∃ ma upper lower macd_line signal_line hist : Series,
    bollinger_bands sample_prices 20 2 = Ok (ma, upper, lower) ∧
    macd sample_prices 12 26 9 = Ok (macd_line, signal_line, hist) ∧
    bollinger_bands two_days_prices 20 2 = Ok (take 2 ma, take 2 upper, take 2 lower) ∧
    macd two_days_prices 12 26 9
    = Ok (take 2 macd_line, take 2 signal_line, take 2 hist).
Proof.
  destruct (indicators_never_look_ahead sample_prices two_days_prices
              (Some <$> [11; 12]) (Some <$> [13; 14]))
    as (ma & upper & lower & macd_line & signal_line & hist & Hbb & Hmacd & Hbb2 & Hmacd2).
  - reflexivity.
  - reflexivity.
  - exists ma, upper, lower, macd_line, signal_line, hist.
    split; [exact Hbb|]. split; [exact Hmacd|]. split; [exact Hbb2|exact Hmacd2].
Defined.

End Causality.

Section PriceLevel.

Local Open Scope R_scope.

Lemma spec_ema_from_affine (alpha a b prev : R) (xs : list R) :
  spec_ema_from alpha (a * prev + b) ((fun x => a * x + b) <$> xs)
  = (fun x => a * x + b) <$> spec_ema_from alpha prev xs.
Proof.
  revert prev. induction xs as [|x xs IH]; intros prev; [done|].
  cbn [fmap list_fmap spec_ema_from].
  replace (alpha * (a * x + b) + (1 - alpha) * (a * prev + b))
    with (a * (alpha * x + (1 - alpha) * prev) + b) by ring.
  by rewrite IH.
Qed.

(** The average of rescaled and shifted prices is the rescaled and shifted
    average. *)
Lemma spec_ema_affine (alpha a b : R) (xs : list R) :
  spec_ema alpha ((fun x => a * x + b) <$> xs) = (fun x => a * x + b) <$> spec_ema alpha xs.
Proof.
  destruct xs as [|x xs]; [done|].
  cbn [fmap list_fmap spec_ema]. by rewrite spec_ema_from_affine.
Qed.

Lemma spec_ema_from_scale (alpha a prev : R) (xs : list R) :
  spec_ema_from alpha (a * prev) (Rmult a <$> xs) = Rmult a <$> spec_ema_from alpha prev xs.
Proof.
  revert prev. induction xs as [|x xs IH]; intros prev; [done|].
  cbn [fmap list_fmap spec_ema_from].
  replace (alpha * (a * x) + (1 - alpha) * (a * prev))
    with (a * (alpha * x + (1 - alpha) * prev)) by ring.
  by rewrite IH.
Qed.

Lemma spec_ema_scale (alpha a : R) (xs : list R) :
  spec_ema alpha (Rmult a <$> xs) = Rmult a <$> spec_ema alpha xs.
Proof.
  destruct xs as [|x xs]; [done|].
  cbn [fmap list_fmap spec_ema]. by rewrite spec_ema_from_scale.
Qed.

Lemma minus_affine (a b : R) (xs ys : list R) :
  zip_with Rminus ((fun x => a * x + b) <$> xs) ((fun x => a * x + b) <$> ys)
  = Rmult a <$> zip_with Rminus xs ys.
Proof.
  revert ys. induction xs as [|x xs IH]; intros [|y ys]; try done.
  cbn [fmap list_fmap zip_with]. rewrite IH. f_equal. ring.
Qed.

Lemma minus_scale (a : R) (xs ys : list R) :
  zip_with Rminus (Rmult a <$> xs) (Rmult a <$> ys) = Rmult a <$> zip_with Rminus xs ys.
Proof.
  revert ys. induction xs as [|x xs IH]; intros [|y ys]; try done.
  cbn [fmap list_fmap zip_with]. rewrite IH. f_equal. ring.
Qed.

(** X2.  Quoting the prices in another unit and from another level, close' =
    a * close + b, multiplies the three MACD series by [a]: the level [b]
    has no effect. *)
Theorem macd_of_rescaled_prices (df df' : DataFrame) (close : list R) (a b : R) :
  getitem df "Close" = Ok (Some <$> close) ->
  getitem df' "Close" = Ok (Some <$> ((fun x => a * x + b) <$> close)) ->
  ∃ macd_line signal_line hist : list R,
    macd df 12 26 9 = Ok (Some <$> macd_line, Some <$> signal_line, Some <$> hist) ∧
    macd df' 12 26 9
    = Ok (Some <$> (Rmult a <$> macd_line), Some <$> (Rmult a <$> signal_line),
          Some <$> (Rmult a <$> hist)).
Proof.
  intros Hclose Hclose'.
  rewrite (macd_numeric df close 12 26 9 eq_refl eq_refl eq_refl Hclose).
  rewrite (macd_numeric df' _ 12 26 9 eq_refl eq_refl eq_refl Hclose').
  eexists _, _, _. split; [reflexivity|].
  by rewrite !spec_ema_affine, minus_affine, spec_ema_scale, minus_scale.
Qed.

Lemma macd_of_rescaled_prices_sample :
  ∃ macd_line signal_line hist : list R,
    macd sample_prices 12 26 9
    = Ok (Some <$> macd_line, Some <$> signal_line, Some <$> hist) ∧
    macd rescaled_prices 12 26 9
    = Ok (Some <$> (Rmult 100 <$> macd_line), Some <$> (Rmult 100 <$> signal_line),
          Some <$> (Rmult 100 <$> hist)).
Proof.
  apply (macd_of_rescaled_prices sample_prices rescaled_prices [11; 12; 13; 14] 100 5).
  - reflexivity.
  - reflexivity.
Defined.

End PriceLevel.

Section Bounds.

Local Open Scope R_scope.

Lemma spec_ema_from_between (alpha lo hi prev : R) (xs : list R) :
  0 <= alpha <= 1 -> lo <= prev <= hi ->
  Forall (fun x => lo <= x <= hi) xs ->
  Forall (fun x => lo <= x <= hi) (spec_ema_from alpha prev xs).
Proof.
  intros Ha Hprev Hxs. revert prev Hprev.
  induction Hxs as [|x xs Hx _ IH]; intros prev Hprev; [constructor|].
  cbn [spec_ema_from].
  assert (lo <= alpha * x + (1 - alpha) * prev <= hi) as He by nra.
  constructor; [done|]. by apply IH.
Qed.

(** An average stays between the lowest and the highest price. *)
Lemma spec_ema_between (alpha lo hi : R) (xs : list R) :
  0 <= alpha <= 1 ->
  Forall (fun x => lo <= x <= hi) xs ->
  Forall (fun x => lo <= x <= hi) (spec_ema alpha xs).
Proof.
  intros Ha Hxs. destruct Hxs as [|x xs Hx Hxs]; [constructor|].
  cbn [spec_ema]. constructor; [done|]. by apply spec_ema_from_between.
Qed.

Lemma minus_between (lo1 hi1 lo2 hi2 : R) (xs ys : list R) :
  Forall (fun x => lo1 <= x <= hi1) xs ->
  Forall (fun y => lo2 <= y <= hi2) ys ->
  Forall (fun z => lo1 - hi2 <= z <= hi1 - lo2) (zip_with Rminus xs ys).
Proof.
  intros Hxs. revert ys. induction Hxs as [|x xs Hx _ IH]; intros ys Hys; [constructor|].
  destruct Hys as [|y ys Hy Hys]; [constructor|].
  cbn [zip_with]. constructor; [lra|]. by apply IH.
Qed.

Lemma span_alpha_unit (span : Z) : (1 <= span)%Z -> 0 <= spec_alpha span <= 1.
Proof.
  intros Hs. unfold spec_alpha.
  assert (1 <= IZR span) as H1 by (by apply IZR_le).
  split.
  - apply Rlt_le, Rdiv_lt_0_compat; lra.
  - unfold Rdiv. apply Rmult_le_reg_r with (IZR span + 1); [lra|].
    rewrite Rmult_assoc, Rinv_l by lra. lra.
Qed.

(** X3.  With every close price between [lo] and [hi], the MACD line and the
    signal line lie within [hi - lo] of zero, and the histogram within twice
    that. *)
Theorem macd_within_price_range (df : DataFrame) (close : list R) (lo hi : R) :
  getitem df "Close" = Ok (Some <$> close) ->
  Forall (fun x => lo <= x <= hi) close ->
  ∃ macd_line signal_line hist : list R,
    macd df 12 26 9 = Ok (Some <$> macd_line, Some <$> signal_line, Some <$> hist) ∧
    Forall (fun x => - (hi - lo) <= x <= hi - lo) macd_line ∧
    Forall (fun x => - (hi - lo) <= x <= hi - lo) signal_line ∧
    Forall (fun x => - (2 * (hi - lo)) <= x <= 2 * (hi - lo)) hist.
Proof.
  intros Hclose Hrange.
  rewrite (macd_numeric df close 12 26 9 eq_refl eq_refl eq_refl Hclose).
  eexists _, _, _. split; [reflexivity|].
  assert (Forall (fun x => - (hi - lo) <= x <= hi - lo)
            (zip_with Rminus (spec_ema (spec_alpha 12) close)
                             (spec_ema (spec_alpha 26) close))) as Hm.
  { eapply Forall_impl.
    - apply (minus_between lo hi lo hi);
        apply spec_ema_between; try done; by apply span_alpha_unit.
    - intros z Hz. simpl in Hz. lra. }
  assert (Forall (fun x => - (hi - lo) <= x <= hi - lo)
            (spec_ema (spec_alpha 9)
               (zip_with Rminus (spec_ema (spec_alpha 12) close)
                                (spec_ema (spec_alpha 26) close)))) as Hs.
  { apply spec_ema_between; [by apply span_alpha_unit|done]. }
  split; [done|]. split; [done|].
  eapply Forall_impl.
  - apply (minus_between _ _ _ _ _ _ Hm Hs).
  - intros z Hz. simpl in Hz. lra.
Qed.

Lemma macd_within_price_range_sample :
  ∃ macd_line signal_line hist : list R,
    macd sample_prices 12 26 9
    = Ok (Some <$> macd_line, Some <$> signal_line, Some <$> hist) ∧
    Forall (fun x => - (14 - 11) <= x <= 14 - 11) macd_line ∧
    Forall (fun x => - (14 - 11) <= x <= 14 - 11) signal_line ∧
    Forall (fun x => - (2 * (14 - 11)) <= x <= 2 * (14 - 11)) hist.
Proof.
  apply (macd_within_price_range sample_prices [11; 12; 13; 14] 11 14).
  - reflexivity.
  - repeat (constructor; [lra|]). constructor.
Defined.

End Bounds.

Section FlatPrices.

Local Open Scope R_scope.

Lemma Rsum_replicate (k : nat) (c : R) : Rsum (replicate k c) = INR k * c.
Proof.
  induction k as [|k IH]; [simpl; lra|].
  cbn [replicate Rsum foldr]. fold (Rsum (replicate k c)). rewrite IH, S_INR. lra.
Qed.

Lemma spec_window_replicate (n : nat) (c : R) (lo hi : nat) :
  (hi < n)%nat -> spec_window (replicate n c) lo hi = replicate (S hi - lo) c.
Proof.
  intros Hhi. unfold spec_window.
  apply list_eq. intros j.
  rewrite list_lookup_fmap.
  destruct (decide (j < S hi - lo)%nat) as [Hj|Hj].
  - rewrite lookup_seq_lt by done. simpl.
    rewrite lookup_replicate_2 by done. f_equal.
    apply nth_lookup_Some with (d := 0). apply lookup_replicate_2. lia.
  - rewrite lookup_seq_ge by lia. simpl. symmetry.
    apply lookup_replicate_None. lia.
Qed.

Lemma spec_mean_replicate (k : nat) (c : R) :
  (0 < k)%nat -> spec_mean (replicate k c) = c.
Proof.
  intros Hk. unfold spec_mean. rewrite Rsum_replicate, length_replicate.
  assert (0 < INR k) by (apply lt_0_INR; lia). field. lra.
Qed.

Lemma spec_sample_std_replicate (k : nat) (c : R) :
  (0 < k)%nat -> spec_sample_std (replicate k c) = 0.
Proof.
  intros Hk. unfold spec_sample_std.
  rewrite spec_mean_replicate by done.
  rewrite fmap_replicate, Rsum_replicate.
  replace (INR k * Rsqr (c - c)) with 0 by (unfold Rsqr; ring).
  unfold Rdiv. rewrite Rmult_0_l. apply sqrt_0.
Qed.

Lemma spec_ema_from_replicate (alpha c : R) (n : nat) :
  spec_ema_from alpha c (replicate n c) = replicate n c.
Proof.
  induction n as [|n IH]; [done|].
  cbn [replicate spec_ema_from].
  replace (alpha * c + (1 - alpha) * c) with c by ring.
  by rewrite IH.
Qed.

Lemma spec_ema_replicate (alpha c : R) (n : nat) :
  spec_ema alpha (replicate n c) = replicate n c.
Proof.
  destruct n as [|n]; [done|].
  cbn [replicate spec_ema]. by rewrite spec_ema_from_replicate.
Qed.

(** X4.  While the price does not move, the moving average and both bands equal
    the price wherever they are defined, and the MACD line, the signal line
    and the histogram are zero everywhere. *)
Theorem flat_prices_flat_indicators (df : DataFrame) (c : R) (n : nat) :
  getitem df "Close" = Ok (Some <$> replicate n c) ->
  ∃ ma upper lower : Series,
    bollinger_bands df 20 2 = Ok (ma, upper, lower) ∧
    (∀ i : nat, (19 <= i)%nat -> (i < n)%nat ->
       ma !! i = Some (Some c) ∧ upper !! i = Some (Some c) ∧ lower !! i = Some (Some c)) ∧
    macd df 12 26 9
    = Ok (Some <$> replicate n 0, Some <$> replicate n 0, Some <$> replicate n 0).
Proof.
  intros Hclose.
  rewrite (bollinger_bands_unfold _ _ 20 2 Hclose).
  eexists _, _, _. split; [reflexivity|]. split.
  - intros i Hfull Hi.
    destruct (bands_at_full_window 20 2 (replicate n c) i) as (Hma & _ & Hup & Hlo);
      [lia|lia|by rewrite length_replicate|].
    rewrite spec_window_replicate in Hma, Hup, Hlo by done.
    rewrite spec_mean_replicate in Hma, Hup, Hlo by lia.
    rewrite spec_sample_std_replicate in Hup, Hlo by lia.
    split; [done|]. split.
    + rewrite Hup. do 2 f_equal. lra.
    + rewrite Hlo. do 2 f_equal. lra.
  - rewrite (macd_numeric df _ 12 26 9 eq_refl eq_refl eq_refl Hclose).
    rewrite !spec_ema_replicate, zip_with_replicate.
    replace (c - c) with 0 by ring.
    rewrite spec_ema_replicate, zip_with_replicate.
    by replace (0 - 0) with 0 by ring.
Qed.

Lemma flat_prices_flat_indicators_sample :
  ∃ ma upper lower : Series,
    bollinger_bands flat_prices 20 2 = Ok (ma, upper, lower) ∧
    (∀ i : nat, (19 <= i)%nat -> (i < 25)%nat ->
       ma !! i = Some (Some 7) ∧ upper !! i = Some (Some 7) ∧ lower !! i = Some (Some 7)) ∧
    macd flat_prices 12 26 9
    = Ok (Some <$> replicate 25 0, Some <$> replicate 25 0, Some <$> replicate 25 0).
Proof.
  apply (flat_prices_flat_indicators flat_prices 7 25).
  reflexivity.
Defined.

End FlatPrices.

Section PdfImage.

Lemma pdf_calls_with_image (env : Environment) (fig : Figure) (df : DataFrame)
    (ticker_sym png : string) :
  to_image env fig = Ok png ->
  pdf_calls env fig df ticker_sym
  = [SetAutoPageBreak 15; AddPage;
     SetFont "Arial" "B" 14;
     Cell 0 8 ("Stock Report — " +:+ ticker_sym) false true "C";
     Ln (Some 4);
     SetFont "Arial" "" 10;
     Cell 0 6 ("Generated: " +:+ now env) false true "";
     Ln (Some 6)]
      ++ (match pdf_image env png with
          | Ok _ => [Image png 10 190]
          | Raise _ => []
          end ++ [Ln (Some 6)])
      ++ [SetFont "Arial" "B" 12;
          Cell 0 8 "Data summary (last 5 rows):" false true "";
          SetFont "Arial" "" 9]
      ++ summary_table env df.
Proof. intros H. unfold pdf_calls. by rewrite H. Qed.

Lemma summary_table_no_note (env : Environment) (df : DataFrame) (w h : nat) (txt : string) :
  MultiCell w h txt ∉ summary_table env df.
Proof.
  unfold summary_table. cbv zeta.
  rewrite !elem_of_app, list_elem_of_fmap, list_elem_of_singleton.
  intros [(c & Hc & _)|[Hln|Hrows]]; [done|done|].
  apply list_elem_of_In, in_concat in Hrows as (ops & Hops & Hin).
  apply list_elem_of_In in Hops, Hin.
  apply list_elem_of_fmap in Hops as (row & -> & _).
  rewrite elem_of_app, list_elem_of_fmap, list_elem_of_singleton in Hin.
  by destruct Hin as [(v & Hv & _)|Hln].
Qed.

(** X5.  When the chart is exported to an image, the document [create_pdf]
    draws never carries the note that the image is unavailable.  It carries
    the image, full width, if FPDF accepts it; if FPDF refuses it the
    failure is swallowed and the document has neither image nor note.  The
    table follows in every case.  A rendered chart does not save the
    export: the call raises the [UnicodeEncodeError] of the title line. *)
Theorem pdf_with_rendered_chart (env : Environment) (fig : Figure) (df : DataFrame)
    (ticker_sym png : string) :
  to_image env fig = Ok png ->
  let doc := pdf_calls env fig df ticker_sym in
  (∃ front : list pdf_op, doc = front ++ summary_table env df) ∧
  (∀ (w h : nat) (txt : string), MultiCell w h txt ∉ doc) ∧
  match pdf_image env png with
  | Ok _ => Image png 10 190 ∈ doc
  | Raise _ => ∀ (p : string) (x w : nat), Image p x w ∉ doc
  end ∧
  create_pdf env fig df ticker_sym = Raise (UnicodeEncodeError (encode_error env doc)).
Proof.
  intros Himg doc.
  pose proof (pdf_calls_with_image env fig df ticker_sym png Himg) as Hdoc. fold doc in Hdoc.
  split.
  { eexists. rewrite Hdoc, !app_assoc. reflexivity. }
  split.
  { intros w h txt. rewrite Hdoc, !elem_of_app.
    intros [Hin|[[Hin|Hin]|[Hin|Hin]]].
    - not_listed Hin.
    - destruct (pdf_image env png); not_listed Hin.
    - not_listed Hin.
    - not_listed Hin.
    - by apply summary_table_no_note in Hin. }
  split; [|apply create_pdf_raises].
  rewrite Hdoc. destruct (pdf_image env png) as [[]|e].
  - rewrite !elem_of_app. right. left. left. apply elem_of_cons. by left.
  - intros p x w. rewrite !elem_of_app.
    intros [Hin|[[Hin|Hin]|[Hin|Hin]]].
    + not_listed Hin.
    + not_listed Hin.
    + not_listed Hin.
    + not_listed Hin.
    + by apply summary_table_no_image in Hin.
Qed.

(** With kaleido at hand and an image that FPDF refuses, the document has
    the table and nothing about the chart, and the call raises. *)
Lemma pdf_with_rendered_chart_refused :
  (∀ (w h : nat) (txt : string),
     MultiCell w h txt
       ∉ pdf_calls refusing_env (Fig "INFY.BO — Close" []) sample_prices "INFY.BO") ∧
  (∀ (p : string) (x w : nat),
     Image p x w
       ∉ pdf_calls refusing_env (Fig "INFY.BO — Close" []) sample_prices "INFY.BO") ∧
  create_pdf refusing_env (Fig "INFY.BO — Close" []) sample_prices "INFY.BO"
  = Raise (UnicodeEncodeError "'latin-1' codec can't encode character '\u2014' in position 59: ordinal not in range(256)").
Proof.
  destruct (pdf_with_rendered_chart refusing_env (Fig "INFY.BO — Close" [])
              sample_prices "INFY.BO" "PNG") as (_ & Hnote & Himage & Hraise).
  - reflexivity.
  - split; [exact Hnote|]. split; [exact Himage|exact Hraise].
Defined.

End PdfImage.

Section ExportFlags.

(** X6.  The downloads of one run.  The CSV and the Excel download of the
    frame bound to [data] come first, in every run, and no frame is touched.
    No report is ever offered: when one is requested and a main chart
    exists, the message of the exception raised by [create_pdf] is shown as
    an error; a request without a main chart gets the error about the
    missing chart.  The prepared Excel file is offered exactly when it was
    requested, and the hint about the buttons is shown exactly when it was
    not: a request for the report never counts as an export. *)
Theorem export_downloads_outcomes (env : Environment) (w : widgets) (data : nat)
    (df : DataFrame) (fig_main : option Figure) (σ : state) :
  frames σ !! data = Some df ->
  ∃ rest : list ui_event,
    export_downloads env w data fig_main σ
    = (Done tt,
       State (frames σ)
             (log σ
                ++ [DownloadButton "Download CSV (filtered)" (CsvBytes (to_csv df))
                      (ticker w +:+ "_filtered.csv") "text/csv";
                    DownloadButton "Download Excel (filtered)"
                      (XlsxBytes (df_to_excel_bytes df))
                      (ticker w +:+ "_filtered.xlsx")
                      "application/vnd.openxmlformats-officedocument.spreadsheetml.sheet"]
                ++ rest)) ∧
    reports rest = [] ∧
    ((∃ msg, Error ("Failed to create PDF: " +:+ msg) ∈ rest)
     <-> pdf_request w = true ∧ is_Some fig_main) ∧
    (∀ fig, pdf_request w = true -> fig_main = Some fig ->
            Error ("Failed to create PDF: "
                     +:+ encode_error env (pdf_calls env fig df (ticker w))) ∈ rest) ∧
    (Error "No main chart available to include in PDF. Generate a chart first." ∈ rest
     <-> pdf_request w = true ∧ fig_main = None) ∧
    ((∃ msg, Info msg ∈ rest) <-> excel_request w = false) ∧
    (DownloadButton "Download prepared Excel (.xlsx)" (XlsxBytes (df_to_excel_bytes df))
       (ticker w +:+ "_filtered.xlsx")
       "application/vnd.openxmlformats-officedocument.spreadsheetml.sheet" ∈ rest
     <-> excel_request w = true).
Proof.
  intros Hdata. unfold export_downloads.
  rewrite (bind_read _ _ _ _ Hdata).
  destruct fig_main as [fig|]; [rewrite create_pdf_raises|];
    destruct (excel_request w), (pdf_request w);
    unfold mbind, script_bind, try_except, lift, emit, mret, script_ret;
    cbn [frames log negb exn_str]; rewrite <- ?app_assoc; cbn [app];
    (eexists; split; [reflexivity|]).
  all: split; [reflexivity|].
  all: split;
    [split;
       [intros [msg H]; listed_cases H; by eauto
       |intros [Hreq [fig' Hfig]]; try discriminate; eexists; listed]|].
  all: split;
    [intros fig' Hreq Hfig; try discriminate; injection Hfig as <-; listed|].
  all: split;
    [split;
       [intros H; listed_cases H; done
       |intros [Hreq Hnone]; try discriminate; listed]|].
  all: split;
    [split;
       [intros [msg H]; listed_cases H; done
       |intros Hex; try discriminate; eexists; listed]|].
  all: split; [intros H; listed_cases H; done|intros Hreq; try discriminate; listed].
Qed.

Lemma export_downloads_outcomes_sample :
  ∃ rest : list ui_event,
    export_downloads sample_env (sample_widgets (Date 2024 1 2) (Date 2024 1 5)) 0
      (Some (Fig "INFY.BO — Close" [])) sample_state
    = (Done tt,
       State (frames sample_state)
             (log sample_state
                ++ [DownloadButton "Download CSV (filtered)" (CsvBytes (to_csv sample_prices))
                      "INFY.BO_filtered.csv" "text/csv";
                    DownloadButton "Download Excel (filtered)"
                      (XlsxBytes (df_to_excel_bytes sample_prices))
                      "INFY.BO_filtered.xlsx"
                      "application/vnd.openxmlformats-officedocument.spreadsheetml.sheet"]
                ++ rest)) ∧
    reports rest = [] ∧
    Error "Failed to create PDF: 'latin-1' codec can't encode character '\u2014' in position 59: ordinal not in range(256)"
      ∈ rest ∧
    ∃ msg, Info msg ∈ rest.
Proof.
  destruct (export_downloads_outcomes sample_env
              (sample_widgets (Date 2024 1 2) (Date 2024 1 5)) 0 sample_prices
              (Some (Fig "INFY.BO — Close" [])) sample_state)
    as (rest & Hrun & Hnone & _ & Hfail & _ & Hinfo & _).
  - reflexivity.
  - exists rest. split; [exact Hrun|]. split; [exact Hnone|]. split.
    + exact (Hfail (Fig "INFY.BO — Close" []) eq_refl eq_refl).
    + by apply Hinfo.
Defined.

End ExportFlags.

Section SidebarButtons.

(** X7.  In no run does the sidebar call [st.rerun()]: the inner refresh button
    is only reached in a run started by the outer one, where it is not the
    button that was clicked.  The cache is cleared exactly in the runs
    started by the outer refresh button, and a run never carries both a PDF
    and an Excel request. *)
Theorem sidebar_never_reruns (clicked : option string) :
  (Rerun ∉ sidebar_refresh clicked) ∧
  (ClearCache ∈ sidebar_refresh clicked
   <-> clicked = Some "🔄 Refresh Data (fetch latest)") ∧
  (fst (sidebar_requests clicked) && snd (sidebar_requests clicked)) = false.
Proof.
  unfold sidebar_refresh, sidebar_requests, st_button.
  destruct clicked as [l|]; cbn [fst snd].
  - destruct (String.eqb_spec l "🔄 Refresh Data (fetch latest)") as [->|Hne].
    + cbn. split; [intros H; not_listed H|].
      split; [|done]. split; [done|]. intros _. apply elem_of_cons. by left.
    + split; [intros H; not_listed H|]. split.
      * split; [intros H; not_listed H|]. intros [= ->]. done.
      * destruct (String.eqb_spec l "📄 Create PDF Report") as [->|]; [|done].
        done.
  - split; [intros H; not_listed H|]. split; [|done].
    split; [intros H; not_listed H|done].
Qed.

End SidebarButtons.

Section FetchLabels.

Lemma lookup_col_zip (k : string) (names : list string) (data : list Series) (i : nat)
    (s : Series) :
  NoDup names -> names !! i = Some k -> data !! i = Some s ->
  lookup_col k (zip names data) = Some s.
Proof.
  intros Hnd. revert data i. induction Hnd as [|n names Hn Hnd IH];
    intros [|s0 data] [|i] Hk Hs; simplify_eq/=.
  - by rewrite String.eqb_refl.
  - destruct (String.eqb_spec n k) as [->|_].
    + exfalso. apply Hn. by eapply list_elem_of_lookup_2.
    + by eapply IH.
Qed.

Lemma zip_data {A B : Type} (names : list A) (data : list B) :
  snd <$> zip names data = take (length names) data.
Proof.
  revert data. induction names as [|n names IH]; intros [|s data]; try done.
  cbn [zip zip_with fmap list_fmap snd length take]. f_equal. apply IH.
Qed.

Lemma zip_labels {A B : Type} (names : list A) (data : list B) :
  fst <$> zip names data = take (length data) names.
Proof.
  revert data. induction names as [|n names IH]; intros [|s data]; try done.
  cbn [zip zip_with fmap list_fmap fst length take]. f_equal. apply IH.
Qed.

(** X8.  The fetch keeps the index of the download and its columns in order.
    When the labels have two levels with distinct first levels, as for one
    ticker, the column of the result named [k] is the column of the download
    whose first level is [k]. *)
Theorem get_stock_data_first_level (dl : Download) (tuples : list (string * list string))
    (i : nat) (k : string) (rest : list string) (s : Series) :
  dl_labels dl = MultiIndex tuples ->
  NoDup (fst <$> tuples) ->
  tuples !! i = Some (k, rest) ->
  dl_data dl !! i = Some s ->
  getitem (get_stock_data dl) k = Ok s ∧
  index (get_stock_data dl) = dl_index dl ∧
  index_name (get_stock_data dl) = dl_index_name dl ∧
  snd <$> columns (get_stock_data dl) = take (length tuples) (dl_data dl).
Proof.
  intros Hlabels Hnd Hk Hs. split.
  { apply getitem_unique; unfold get_stock_data; rewrite Hlabels; cbn [columns].
    - rewrite zip_labels. exact (sublist_NoDup _ _ Hnd (sublist_take _ _)).
    - apply (lookup_col_zip k _ _ i s Hnd); [by rewrite list_lookup_fmap, Hk|done]. }
  unfold get_stock_data. rewrite Hlabels. cbn [columns index index_name].
  split; [done|]. split; [done|].
  by rewrite zip_data, length_fmap.
Qed.

Lemma get_stock_data_first_level_infy :
  getitem (get_stock_data infy_download) "Close" = Ok (Some <$> [11; 12; 13; 14]%R) ∧
  index (get_stock_data infy_download) = dl_index infy_download ∧
  index_name (get_stock_data infy_download) = dl_index_name infy_download ∧
  snd <$> columns (get_stock_data infy_download) = take 5 (dl_data infy_download).
Proof.
  apply (get_stock_data_first_level infy_download
           [("Close", ["INFY.BO"]); ("High", ["INFY.BO"]);
            ("Low", ["INFY.BO"]); ("Open", ["INFY.BO"]);
            ("Volume", ["INFY.BO"])] 0 "Close" ["INFY.BO"]).
  - reflexivity.
  - cbn. repeat (constructor; [intros H; not_listed H|]). constructor.
  - reflexivity.
  - reflexivity.
Defined.

End FetchLabels.

Section TimestampOrder.

Lemma date_cmp_cases (a b : date) :
  match date_cmp a b with
  | Lt => spec_date_lt a b
  | Eq => a = b
  | Gt => spec_date_lt b a
  end.
Proof.
  unfold date_cmp, spec_date_lt. destruct a as [ya ma da], b as [yb mb db]. cbn.
  destruct (Z.compare_spec ya yb) as [->|?|?]; [|by left|by left].
  destruct (Z.compare_spec ma mb) as [->|?|?];
    [|right; split; [done|by left]|right; split; [done|by left]].
  destruct (Z.compare_spec da db) as [->|?|?];
    [done|right; split; [done|by right]|right; split; [done|by right]].
Qed.

Lemma spec_date_lt_trans (a b c : date) :
  spec_date_lt a b -> spec_date_lt b c -> spec_date_lt a c.
Proof. unfold spec_date_lt. lia. Qed.

Lemma spec_date_lt_irrefl (a : date) : ¬ spec_date_lt a a.
Proof. unfold spec_date_lt. lia. Qed.

Lemma spec_date_le_trans (a b c : date) :
  spec_date_le a b -> spec_date_le b c -> spec_date_le a c.
Proof.
  intros [->|Hab] [->|Hbc]; [by left|by right|by right|].
  right. by eapply spec_date_lt_trans.
Qed.

(** [ts_leb] is the order by date, then by time of day. *)
Lemma ts_leb_spec (a b : Timestamp) :
  ts_leb a b = true <->
  spec_date_lt (ts_date a) (ts_date b) ∨
  (ts_date a = ts_date b ∧ (ts_nanos a <= ts_nanos b)%Z).
Proof.
  unfold ts_leb. pose proof (date_cmp_cases (ts_date a) (ts_date b)) as Hc.
  destruct (date_cmp (ts_date a) (ts_date b)).
  - rewrite Z.leb_le. split; [by right|].
    intros [Hlt|[_ ?]]; [|done]. rewrite Hc in Hlt.
    by apply spec_date_lt_irrefl in Hlt.
  - split; [by left|done].
  - split; [done|]. intros [Hlt|[Heq _]].
    + exfalso. eapply spec_date_lt_irrefl, spec_date_lt_trans; eauto.
    + rewrite Heq in Hc. by apply spec_date_lt_irrefl in Hc.
Qed.

Lemma ts_leb_total (a b : Timestamp) : ts_leb a b = false -> ts_leb b a = true.
Proof.
  intros Hab. apply ts_leb_spec.
  unfold ts_leb in Hab. pose proof (date_cmp_cases (ts_date a) (ts_date b)) as Hc.
  destruct (date_cmp (ts_date a) (ts_date b)); [|done|by left].
  right. split; [done|]. apply Z.leb_gt in Hab. lia.
Qed.

Lemma ts_leb_trans (a b c : Timestamp) :
  ts_leb a b = true -> ts_leb b c = true -> ts_leb a c = true.
Proof.
  rewrite !ts_leb_spec.
  intros [Hab|[Hab ?]] [Hbc|[Hbc ?]].
  - left. by eapply spec_date_lt_trans.
  - left. by rewrite <- Hbc.
  - left. by rewrite Hab.
  - right. split; [congruence|lia].
Qed.

Lemma ts_leb_refl (a : Timestamp) : ts_leb a a = true.
Proof. apply ts_leb_spec. right. split; [done|lia]. Qed.

Lemma ts_leb_date (a b : Timestamp) :
  ts_leb a b = true -> date_le (ts_date a) (ts_date b) = true.
Proof.
  rewrite ts_leb_spec, date_le_spec. intros [?|[? _]]; [by right|by left].
Qed.

Lemma foldl_min_below (m : Timestamp) (ts : list Timestamp) :
  let r := foldl (fun m x => if ts_leb x m then x else m) m ts in
  ts_leb r m = true ∧ Forall (fun x => ts_leb r x = true) ts.
Proof.
  revert m. induction ts as [|t ts IH]; intros m; cbn [foldl].
  - split; [apply ts_leb_refl|constructor].
  - destruct (ts_leb t m) eqn:Htm.
    + destruct (IH t) as [Hr Hall]. split; [by eapply ts_leb_trans|].
      constructor; done.
    + destruct (IH m) as [Hr Hall]. split; [done|].
      constructor; [|done]. eapply ts_leb_trans; [exact Hr|]. by apply ts_leb_total.
Qed.

Lemma foldl_max_above (m : Timestamp) (ts : list Timestamp) :
  let r := foldl (fun m x => if ts_leb m x then x else m) m ts in
  ts_leb m r = true ∧ Forall (fun x => ts_leb x r = true) ts.
Proof.
  revert m. induction ts as [|t ts IH]; intros m; cbn [foldl].
  - split; [apply ts_leb_refl|constructor].
  - destruct (ts_leb m t) eqn:Hmt.
    + destruct (IH t) as [Hr Hall]. split; [by eapply ts_leb_trans|].
      constructor; done.
    + destruct (IH m) as [Hr Hall]. split; [done|].
      constructor; [|done]. eapply ts_leb_trans; [|exact Hr]. by apply ts_leb_total.
Qed.

(** Every timestamp of the index lies between the earliest and the latest. *)
Lemma index_min_max (idx : list Timestamp) (lo hi : Timestamp) :
  index_min idx = Some lo -> index_max idx = Some hi ->
  Forall (fun t => ts_leb lo t = true ∧ ts_leb t hi = true) idx.
Proof.
  destruct idx as [|t ts]; [done|]. cbn [index_min index_max].
  intros [= <-] [= <-].
  destruct (foldl_min_below t ts) as [Hlo Hlos].
  destruct (foldl_max_above t ts) as [Hhi His].
  constructor; [done|].
  apply Forall_and. done.
Qed.

End TimestampOrder.

Section DefaultRange.

Lemma select_all {A B : Type} (f : A -> bool) (idx : list A) (c : list B) :
  Forall (fun t => f t = true) idx -> length c = length idx ->
  select (f <$> idx) c = c.
Proof.
  intros Hall. revert c. induction Hall as [|t idx Ht _ IH]; intros [|x c] Hlen;
    simplify_eq/=; [done|].
  rewrite Ht. f_equal. by apply IH.
Qed.

Lemma loc_mask_all (df : DataFrame) (f : Timestamp -> bool) :
  wf_frame df -> Forall (fun t => f t = true) (index df) ->
  loc_mask df (f <$> index df) = df.
Proof.
  intros Hwf Hall. destruct df as [name idx cols]. unfold loc_mask, wf_frame in *.
  cbn [index columns index_name] in *. f_equal.
  - by apply select_all.
  - rewrite <- (list_fmap_id cols) at 2. apply Forall_fmap_ext.
    eapply Forall_impl; [exact Hwf|]. intros [n c] Hc. cbn in *.
    by rewrite select_all.
Qed.

(** X9.  With the date pickers left at their defaults, the earliest and the
    latest date of the fetched table, the range is valid and the filter
    keeps the whole table: [data] is bound to a copy of it. *)
Theorem default_range_keeps_all (w : widgets) (raw : DataFrame) (raw_data : nat)
    (σ : state) :
  frames σ !! raw_data = Some raw ->
  wf_frame raw ->
  min_date raw = Some (start_date w) ->
  max_date raw = Some (end_date w) ->
  filter_range raw_data w σ
  = (Done (fresh (dom (frames σ))),
     State (<[fresh (dom (frames σ)) := raw]> (frames σ)) (log σ)).
Proof.
  intros Hraw Hwf Hmin Hmax. unfold min_date, max_date in *.
  destruct (index_min (index raw)) as [lo|] eqn:Hlo; [|done].
  destruct (index_max (index raw)) as [hi|] eqn:Hhi; [|done].
  cbn in Hmin, Hmax. injection Hmin as Hs. injection Hmax as He.
  pose proof (index_min_max _ _ _ Hlo Hhi) as Hall.
  assert (date_gt (start_date w) (end_date w) = false) as Hgt.
  { destruct (index raw) as [|t ts]; [done|].
    apply Forall_cons in Hall as [[H1 H2] _].
    pose proof (ts_leb_date _ _ (ts_leb_trans _ _ _ H1 H2)) as Hle.
    rewrite Hs, He in Hle. unfold date_le, date_gt in *.
    by destruct (date_cmp (start_date w) (end_date w)). }
  rewrite (filter_range_valid w raw_data raw σ Hraw Hgt).
  rewrite date_mask_within, loc_mask_all; [done|done|].
  eapply Forall_impl; [exact Hall|]. intros t [H1 H2]. cbn in *.
  unfold spec_within. rewrite <- Hs, <- He.
  by rewrite (ts_leb_date _ _ H1), (ts_leb_date _ _ H2).
Qed.

Lemma default_range_keeps_all_sample :
  filter_range 0 (sample_widgets (Date 2024 1 2) (Date 2024 1 5)) sample_state
  = (Done (fresh (dom (frames sample_state))),
     State (<[fresh (dom (frames sample_state)) := sample_prices]> (frames sample_state))
           (log sample_state)).
Proof.
  apply (default_range_keeps_all (sample_widgets (Date 2024 1 2) (Date 2024 1 5))
           sample_prices 0 sample_state).
  - reflexivity.
  - repeat constructor.
  - reflexivity.
  - reflexivity.
Defined.

End DefaultRange.

Section Contiguous.

Lemma select_skip {B : Type} (a : nat) (mask : list bool) (xs : list B) :
  select (replicate a false ++ mask) xs = select mask (drop a xs).
Proof.
  revert xs. induction a as [|a IH]; intros xs; [done|].
  destruct xs as [|x xs]; cbn [replicate app select drop].
  - by rewrite select_nil_r.
  - apply IH.
Qed.

Lemma select_keep {B : Type} (b : nat) (mask : list bool) (xs : list B) :
  select (replicate b true ++ mask) xs = take b xs ++ select mask (drop b xs).
Proof.
  revert xs. induction b as [|b IH]; intros xs; [done|].
  destruct xs as [|x xs]; cbn [replicate app select drop take].
  - by rewrite select_nil_r.
  - by rewrite IH.
Qed.

Lemma select_drop_all {B : Type} (c : nat) (xs : list B) :
  select (replicate c false) xs = [].
Proof.
  revert xs. induction c as [|c IH]; intros [|x xs]; try done.
  cbn [replicate select]. apply IH.
Qed.

(** A mask of a block of [true] between two blocks of [false] selects a
    contiguous slice. *)
Lemma select_block {B : Type} (a b c : nat) (xs : list B) :
  select (replicate a false ++ replicate b true ++ replicate c false) xs
  = take b (drop a xs).
Proof.
  by rewrite select_skip, select_keep, select_drop_all, app_nil_r.
Qed.

Variables start_date end_date : date.

Lemma within_after_end (idx : list Timestamp) (t : Timestamp) :
  Forall (fun u => ts_leb t u = true) idx ->
  date_le (ts_date t) end_date = false ->
  spec_within start_date end_date <$> idx = replicate (length idx) false.
Proof.
  intros Hall Hend. induction Hall as [|u idx Hu _ IH]; [done|].
  cbn [fmap list_fmap length replicate]. rewrite IH. f_equal.
  unfold spec_within. apply andb_false_iff. right.
  destruct (date_le (ts_date u) end_date) eqn:Hu_end; [|done].
  exfalso. apply ts_leb_date in Hu.
  apply date_le_spec in Hu, Hu_end.
  pose proof (spec_date_le_trans _ _ _ Hu Hu_end) as Hle.
  apply date_le_spec in Hle. congruence.
Qed.

Lemma within_from_start (idx : list Timestamp) :
  StronglySorted (fun a b => ts_leb a b = true) idx ->
  Forall (fun u => date_le start_date (ts_date u) = true) idx ->
  ∃ b c : nat,
    spec_within start_date end_date <$> idx = replicate b true ++ replicate c false.
Proof.
  intros Hsorted. induction Hsorted as [|t idx Hsorted IH Hle]; intros Hstart.
  - by exists 0%nat, 0%nat.
  - apply Forall_cons in Hstart as [Ht Hstart].
    destruct (date_le (ts_date t) end_date) eqn:Hend.
    + destruct (IH Hstart) as (b & c & Hmask).
      exists (S b), c. cbn [fmap list_fmap replicate app]. rewrite Hmask.
      f_equal. unfold spec_within. by rewrite Ht, Hend.
    + exists 0%nat, (S (length idx)). cbn [fmap list_fmap replicate app].
      rewrite (within_after_end idx t Hle Hend). f_equal.
      unfold spec_within. by rewrite Ht, Hend.
Qed.

(** On a time-ordered index the mask of the range filter is one block. *)
Lemma within_block (idx : list Timestamp) :
  StronglySorted (fun a b => ts_leb a b = true) idx ->
  ∃ a b c : nat,
    spec_within start_date end_date <$> idx
    = replicate a false ++ replicate b true ++ replicate c false.
Proof.
  intros Hsorted. induction Hsorted as [|t idx Hsorted IH Hle].
  - by exists 0%nat, 0%nat, 0%nat.
  - destruct (date_le start_date (ts_date t)) eqn:Hstart.
    + destruct (within_from_start (t :: idx)) as (b & c & Hmask).
      * by constructor.
      * constructor; [done|].
        eapply Forall_impl; [exact Hle|]. intros u Hu. cbn in *.
        apply ts_leb_date in Hu. apply date_le_spec in Hu, Hstart.
        apply date_le_spec. by eapply spec_date_le_trans.
      * exists 0%nat, b, c. exact Hmask.
    + destruct IH as (a & b & c & Hmask).
      exists (S a), b, c. cbn [fmap list_fmap replicate app]. rewrite Hmask.
      f_equal. unfold spec_within. by rewrite Hstart.
Qed.

End Contiguous.

Section ContiguousRange.

(** X10.  On a table ordered by time the range filter cuts out one contiguous run
    of rows: some rows are skipped at the start, then rows are kept, and
    nothing after them. *)
Theorem range_filter_contiguous (raw : DataFrame) (start_date end_date : date) :
  StronglySorted (fun a b => ts_leb a b = true) (index raw) ->
  ∃ skipped kept : nat,
    rows (loc_mask raw (date_mask raw start_date end_date))
    = take kept (drop skipped (rows raw)) ∧
    index (loc_mask raw (date_mask raw start_date end_date))
    = take kept (drop skipped (index raw)).
Proof.
  intros Hsorted.
  destruct (within_block start_date end_date _ Hsorted) as (a & b & c & Hmask).
  exists a, b.
  rewrite rows_loc_mask by (by rewrite date_mask_within, length_fmap).
  unfold loc_mask. cbn [index].
  by rewrite date_mask_within, Hmask, !select_block.
Qed.

Lemma range_filter_contiguous_sample :
  ∃ skipped kept : nat,
    rows (loc_mask sample_prices (date_mask sample_prices (Date 2024 1 3) (Date 2024 1 4)))
    = take kept (drop skipped (rows sample_prices)) ∧
    index (loc_mask sample_prices (date_mask sample_prices (Date 2024 1 3) (Date 2024 1 4)))
    = take kept (drop skipped (index sample_prices)).
Proof.
  apply (range_filter_contiguous sample_prices (Date 2024 1 3) (Date 2024 1 4)).
  repeat (constructor; [|repeat constructor]). constructor.
Defined.

End ContiguousRange.

Section NoData.

(** X11.  Without data the run shows the warning about the ticker and stops at
    once: whether the fetch returned nothing or an empty table, nothing else
    is shown and no other frame is created. *)
Theorem run_stops_without_data (env : Environment) (w : widgets) (df : DataFrame)
    (σ : state) :
  df_empty df = true ->
  run env w None σ
  = (Stopped,
     State (frames σ)
           (log σ ++ [Warning "No data found for this ticker & period. Check the symbol (e.g., INFY.BO) and try again."])) ∧
  run env w (Some df) σ
  = (Stopped,
     State (<[fresh (dom (frames σ)) := df]> (frames σ))
           (log σ ++ [Warning "No data found for this ticker & period. Check the symbol (e.g., INFY.BO) and try again."])).
Proof.
  intros He. split; [reflexivity|]. by apply run_empty_fetch.
Qed.

Lemma run_stops_without_data_sample :
  run sample_env (sample_widgets (Date 2024 1 2) (Date 2024 1 5)) None initial
  = (Stopped,
     State (frames initial)
           (log initial ++ [Warning "No data found for this ticker & period. Check the symbol (e.g., INFY.BO) and try again."])) ∧
  run sample_env (sample_widgets (Date 2024 1 2) (Date 2024 1 5)) (Some no_rows) initial
  = (Stopped,
     State (<[fresh (dom (frames initial)) := no_rows]> (frames initial))
           (log initial ++ [Warning "No data found for this ticker & period. Check the symbol (e.g., INFY.BO) and try again."])).
Proof.
  apply (run_stops_without_data sample_env
           (sample_widgets (Date 2024 1 2) (Date 2024 1 5)) no_rows initial).
  reflexivity.
Defined.

End NoData.

Section MissingClose.

Lemma lookup_col_loc_mask (k : string) (df : DataFrame) (mask : list bool) :
  lookup_col k (columns (loc_mask df mask)) = select mask <$> lookup_col k (columns df).
Proof.
  unfold loc_mask. cbn [columns].
  induction (columns df) as [|[n s] cols IH]; [done|].
  cbn [fmap list_fmap lookup_col fst snd]. by destruct (String.eqb n k).
Qed.

Lemma select_some {A : Type} (f : A -> bool) (xs : list A) :
  Exists (fun x => f x = true) xs -> select (f <$> xs) xs ≠ [].
Proof.
  induction 1 as [x xs Hx|x xs _ IH]; cbn [fmap list_fmap select].
  - by rewrite Hx.
  - by destruct (f x).
Qed.

(** X12.  A fetched table without a Close column, with a row in the date range,
    ends the run with the uncaught [KeyError: 'Close'] of the indicator step:
    nothing has been shown by then, neither chart nor download, and [data]
    is the filtered table as the filter left it. *)
Theorem run_fails_without_close (env : Environment) (w : widgets) (raw : DataFrame)
    (σ : state) :
  df_empty raw = false ->
  lookup_col "Close" (columns raw) = None ->
  spec_date_le (start_date w) (end_date w) ->
  Exists (fun t => spec_within (start_date w) (end_date w) t = true) (index raw) ->
  let raw_data := fresh (dom (frames σ)) in
  let data := fresh (dom (<[raw_data := raw]> (frames σ))) in
  run env w (Some raw) σ
  = (Uncaught (KeyError "Close"),
     State (<[data := loc_mask raw (date_mask raw (start_date w) (end_date w))]>
              (<[raw_data := raw]> (frames σ)))
           (log σ)).
Proof.
  intros Hraw Hclose Hle Hsome raw_data data.
  assert (date_gt (start_date w) (end_date w) = false) as Hgt.
  { apply date_le_spec in Hle. unfold date_le, date_gt in *.
    by destruct (date_cmp (start_date w) (end_date w)). }
  set (filtered := loc_mask raw (date_mask raw (start_date w) (end_date w))).
  assert (df_empty filtered = false) as He.
  { unfold df_empty in *. apply orb_false_iff in Hraw as [_ Hcols].
    apply orb_false_iff. split.
    - unfold filtered, loc_mask. cbn [index]. rewrite date_mask_within.
      pose proof (select_some _ _ Hsome) as Hne.
      destruct (select _ (index raw)); [done|done].
    - unfold filtered, loc_mask. cbn [columns]. by rewrite length_fmap. }
  unfold run.
  rewrite (bind_done _ _ _ _ _ (fetch_data_ok raw σ Hraw)). fold raw_data.
  set (σ1 := State (<[raw_data := raw]> (frames σ)) (log σ)).
  assert (frames σ1 !! raw_data = Some raw) as Hr by apply lookup_insert_eq.
  rewrite (bind_done _ _ _ _ _ (filter_range_valid w raw_data raw σ1 Hr Hgt)).
  cbn [frames log σ1]. fold data. fold filtered.
  set (σ2 := State (<[data := filtered]> (<[raw_data := raw]> (frames σ))) (log σ)).
  assert (frames σ2 !! data = Some filtered) as Hd by apply lookup_insert_eq.
  assert (bollinger_bands filtered default_window default_no_of_std
          = Raise (KeyError "Close")) as Hbb.
  { unfold bollinger_bands, getitem, filtered.
    by rewrite lookup_col_loc_mask, Hclose. }
  unfold add_indicators.
  rewrite bind_assoc, (bind_read _ _ _ _ Hd), He. cbn [negb].
  rewrite Hbb. reflexivity.
Qed.

Lemma run_fails_without_close_sample :
  run sample_env (sample_widgets (Date 2024 1 2) (Date 2024 1 5)) (Some no_close_prices)
      initial
  = (Uncaught (KeyError "Close"),
     State (<[fresh (dom (<[fresh (dom (frames initial)) := no_close_prices]>
                            (frames initial))) :=
                loc_mask no_close_prices
                  (date_mask no_close_prices (Date 2024 1 2) (Date 2024 1 5))]>
              (<[fresh (dom (frames initial)) := no_close_prices]> (frames initial)))
           (log initial)).
Proof.
  apply (run_fails_without_close sample_env
           (sample_widgets (Date 2024 1 2) (Date 2024 1 5)) no_close_prices initial).
  - reflexivity.
  - reflexivity.
  - right. unfold spec_date_lt. simpl. lia.
  - constructor. reflexivity.
Defined.

End MissingClose.

Section ShortTables.

Lemma length_observations (w : Series) : (length (observations w) <= length w)%nat.
Proof.
  unfold observations. induction w as [|[x|] w IH]; cbn; lia.
Qed.

(** A rolling aggregate over fewer rows than its window is NaN throughout. *)
Lemma rolling_short (W : nat) (agg : list R -> cell) (xs : Series) :
  (length xs < W)%nat -> rolling W agg xs = replicate (length xs) None.
Proof.
  intros Hshort. apply list_eq. intros i.
  destruct (decide (i < length xs)%nat) as [Hi|Hi].
  - rewrite lookup_rolling, lookup_replicate_2 by done. cbv zeta. f_equal.
    assert (length (observations (window_at W xs i)) <= length (window_at W xs i))%nat
      as Hobs by apply length_observations.
    unfold window_at in Hobs at 2. rewrite length_drop, length_take in Hobs.
    by destruct (Nat.ltb_spec (length (observations (window_at W xs i))) W); [|lia].
  - rewrite lookup_ge_None_2 by (rewrite length_rolling; lia).
    symmetry. apply lookup_replicate_None. lia.
Qed.

End ShortTables.

Section CloseChart.

Lemma scatter_of_ok (df : DataFrame) (col name : string) (y : Series) :
  getitem df col = Ok y -> scatter_of df col name = Ok (Trace Scatter name (index df) y).
Proof. intros H. unfold scatter_of. by rewrite H. Qed.

(** The Close chart, step by step. *)
Lemma close_chart_result (w : widgets) (data : nat) (d : DataFrame)
    (c ma upper lower : Series) (σ : state) :
  frames σ !! data = Some d ->
  NoDup (fst <$> columns d) ->
  getitem d "Close" = Ok c ->
  getitem d "BB_MA" = Ok ma ->
  getitem d "BB_upper" = Ok upper ->
  getitem d "BB_lower" = Ok lower ->
  let fig :=
    Fig (ticker w +:+ " — Close")
        ([Trace Scatter "Close" (index d) c;
          Trace Scatter "MA50" (index d) (rolling_mean 50 c);
          Trace Scatter "MA200" (index d) (rolling_mean 200 c)]
           ++ (if show_bollinger w then
                 [Trace Scatter "BB Upper" (index d) upper;
                  Trace Scatter "BB Lower" (index d) lower;
                  Trace Scatter "BB MA (20)" (index d) ma]
               else [])) in
  close_chart w data σ
  = (Done fig,
     State (<[data := setitem (setitem d "MA50" (rolling_mean 50 c))
                        "MA200" (rolling_mean 200 c)]> (frames σ))
           (log σ ++ [PlotlyChart fig])).
Proof.
  intros Hd Hnd Hc Hma Hup Hlo fig. unfold close_chart.
  rewrite (bind_read _ _ _ _ Hd).
  rewrite (scatter_of_ok d "Close" "Close" c Hc), Hc.
  rewrite bind_lift_ok, bind_lift_ok, bind_write.
  set (d1 := setitem d "MA50" (rolling_mean 50 c)).
  rewrite bind_read with (df := d1) by apply lookup_insert_eq.
  assert (getitem d1 "Close" = Ok c) as Hc1
    by (unfold d1; by rewrite getitem_setitem_ne).
  rewrite Hc1, bind_lift_ok, bind_write. cbn [frames log].
  rewrite insert_insert_eq.
  set (d2 := setitem d1 "MA200" (rolling_mean 200 c)).
  rewrite bind_read with (df := d2) by apply lookup_insert_eq.
  assert (getitem d2 "MA50" = Ok (rolling_mean 50 c)) as H50.
  { unfold d2. rewrite getitem_setitem_ne by done.
    by apply getitem_setitem_eq, count_col_NoDup. }
  assert (getitem d2 "MA200" = Ok (rolling_mean 200 c)) as H200
    by (by apply getitem_setitem_eq, count_col_NoDup, labels_setitem).
  assert (getitem d2 "BB_upper" = Ok upper) as Hup2
    by (unfold d2, d1; by rewrite !getitem_setitem_ne).
  assert (getitem d2 "BB_lower" = Ok lower) as Hlo2
    by (unfold d2, d1; by rewrite !getitem_setitem_ne).
  assert (getitem d2 "BB_MA" = Ok ma) as Hma2
    by (unfold d2, d1; by rewrite !getitem_setitem_ne).
  rewrite (scatter_of_ok d2 _ "MA50" _ H50), (scatter_of_ok d2 _ "MA200" _ H200).
  rewrite (scatter_of_ok d2 _ "BB Upper" _ Hup2), (scatter_of_ok d2 _ "BB Lower" _ Hlo2).
  rewrite (scatter_of_ok d2 _ "BB MA (20)" _ Hma2).
  rewrite !bind_lift_ok.
  destruct (show_bollinger w); reflexivity.
Qed.

(** X13.  On a table with distinct column labels the Close chart writes into
    the table itself: after it the frame bound
    to [data] has the columns MA50 and MA200, the 50-row and 200-row rolling
    means of Close, which are NaN throughout on a table of fewer rows.  The
    chart shows Close, MA50 and MA200, and the three Bollinger lines exactly
    when they are switched on. *)
Theorem close_chart_adds_averages (w : widgets) (data : nat) (d : DataFrame)
    (c ma upper lower : Series) (σ : state) :
  frames σ !! data = Some d ->
  NoDup (fst <$> columns d) ->
  getitem d "Close" = Ok c ->
  getitem d "BB_MA" = Ok ma ->
  getitem d "BB_upper" = Ok upper ->
  getitem d "BB_lower" = Ok lower ->
  ∃ (fig : Figure) (d' : DataFrame),
    close_chart w data σ
    = (Done fig, State (<[data := d']> (frames σ)) (log σ ++ [PlotlyChart fig])) ∧
    getitem d' "MA50" = Ok (rolling_mean 50 c) ∧
    getitem d' "MA200" = Ok (rolling_mean 200 c) ∧
    ((length c < 50)%nat -> rolling_mean 50 c = replicate (length c) None) ∧
    ((length c < 200)%nat -> rolling_mean 200 c = replicate (length c) None) ∧
    same_prices d d' ∧
    tr_name <$> fig_traces fig
    = ["Close"; "MA50"; "MA200"]
        ++ (if show_bollinger w then ["BB Upper"; "BB Lower"; "BB MA (20)"] else []).
Proof.
  intros Hd Hnd Hc Hma Hup Hlo.
  eexists _, _.
  split; [by apply (close_chart_result w data d c ma upper lower σ)|].
  split.
  { rewrite getitem_setitem_ne by done. by apply getitem_setitem_eq, count_col_NoDup. }
  split; [by apply getitem_setitem_eq, count_col_NoDup, labels_setitem|].
  split; [apply rolling_short|]. split; [apply rolling_short|].
  split.
  { repeat apply same_prices_setitem; try apply same_prices_refl; not_price. }
  cbn [fig_traces]. by destruct (show_bollinger w).
Qed.

Lemma close_chart_adds_averages_sample :
  ∃ (fig : Figure) (d' : DataFrame),
    close_chart (sample_widgets (Date 2024 1 2) (Date 2024 1 5)) 0 derived_state
    = (Done fig, State (<[0%nat := d']> (frames derived_state))
                       (log derived_state ++ [PlotlyChart fig])) ∧
    getitem d' "MA50" = Ok (replicate 4 None) ∧
    tr_name <$> fig_traces fig
    = ["Close"; "MA50"; "MA200"; "BB Upper"; "BB Lower"; "BB MA (20)"].
Proof.
  destruct (close_chart_adds_averages (sample_widgets (Date 2024 1 2) (Date 2024 1 5))
              0 sample_derived (Some <$> [11; 12; 13; 14]%R)
              (rolling_mean 20 (Some <$> [11; 12; 13; 14]%R))
              (sadd (rolling_mean 20 (Some <$> [11; 12; 13; 14]%R))
                    (smul_scalar (rolling_std 20 (Some <$> [11; 12; 13; 14]%R)) 2))
              (ssub (rolling_mean 20 (Some <$> [11; 12; 13; 14]%R))
                    (smul_scalar (rolling_std 20 (Some <$> [11; 12; 13; 14]%R)) 2))
              derived_state)
    as (fig & d' & Hrun & H50 & _ & _ & _ & _ & Hnames).
  - reflexivity.
  - apply (bool_decide_unpack _). vm_compute. exact I.
  - reflexivity.
  - reflexivity.
  - reflexivity.
  - reflexivity.
  - exists fig, d'. split; [exact Hrun|]. split; [|exact Hnames].
    rewrite H50. reflexivity.
Defined.

End CloseChart.

Section MultiChart.

Lemma mapM_ok {A B : Type} (f : A -> result B) (g : A -> B) (l : list A) :
  Forall (fun x => f x = Ok (g x)) l -> mapM f l = Ok (g <$> l).
Proof.
  induction 1 as [|x l Hx _ IH]; [done|].
  change (mapM f (x :: l)) with (y ← f x; k ← mapM f l; mret (y :: k)).
  rewrite Hx, IH. reflexivity.
Qed.

Lemma px_column_ok (df : DataFrame) (k : string) (s : Series) :
  lookup_col k (columns df) = Some s -> px_column df k = Ok s.
Proof. intros H. unfold px_column. by rewrite H. Qed.

Lemma mapM_fmap_ok {A A' B : Type} (f : A' -> result B) (h : A -> A') (g : A -> B)
    (l : list A) :
  Forall (fun x => f (h x) = Ok (g x)) l -> mapM f (h <$> l) = Ok (g <$> l).
Proof.
  induction 1 as [|x l Hx _ IH]; [done|].
  cbn [fmap list_fmap].
  change (mapM f (h x :: (h <$> l))) with (y ← f (h x); k ← mapM f (h <$> l); mret (y :: k)).
  rewrite Hx, IH. reflexivity.
Qed.

Lemma getitem_present (d : DataFrame) (k : string) :
  NoDup (fst <$> columns d) ->
  is_Some (lookup_col k (columns d)) ->
  getitem d k = Ok (default [] (lookup_col k (columns d))).
Proof. intros Hnd [s Hs]. rewrite Hs. by apply getitem_unique. Qed.

(** The multi-metric chart, step by step. *)
Lemma multi_chart_result (w : widgets) (data : nat) (d : DataFrame)
    (metrics : list string) (σ : state) :
  frames σ !! data = Some d ->
  NoDup (fst <$> columns d) ->
  Forall (fun m => m ∈ ohlcv) metrics ->
  (∀ k : string, k ∈ ohlcv -> is_Some (lookup_col k (columns d))) ->
  let col k := default [] (lookup_col k (columns d)) in
  let max_price := smax [smax (col "Close"); smax (col "Open");
                         smax (col "High"); smax (col "Low")] in
  let scaled := smul_cell (sdiv_scalar (col "Volume") (smax (col "Volume"))) max_price in
  let fig := Fig (ticker w +:+ " — Multiple metrics")
                 ((fun m => Trace Line m (index d) (plotted_series d scaled m)) <$> metrics) in
  multi_chart w data metrics σ
  = (Done fig,
     State (<[fresh (dom (frames σ)) :=
                if existsb (String.eqb "Volume") metrics
                then setitem d "Volume_scaled" scaled else d]> (frames σ))
           (log σ ++ [PlotlyChart fig])).
Proof.
  intros Hd Hnd Hm Hcols col max_price scaled fig. unfold multi_chart.
  rewrite (bind_read _ _ _ _ Hd), bind_alloc.
  set (df_plot := fresh (dom (frames σ))).
  destruct (existsb (String.eqb "Volume") metrics) eqn:Hvol.
  - rewrite bind_assoc.
    rewrite bind_read with (df := d) by apply lookup_insert_eq.
    rewrite !getitem_present by (try exact Hnd; apply Hcols; unfold ohlcv; set_solver).
    rewrite bind_assoc, bind_lift_ok, bind_assoc, bind_lift_ok,
      bind_assoc, bind_lift_ok, bind_assoc, bind_lift_ok.
    cbv zeta. rewrite bind_assoc, bind_lift_ok, bind_assoc, bind_write, bind_ret.
    cbv beta iota. cbn [frames log]. rewrite insert_insert_eq.
    fold col. fold max_price. fold scaled.
    set (p := setitem d "Volume_scaled" scaled).
    rewrite bind_read with (df := p) by apply lookup_insert_eq.
    assert (px_line_wide p
              ((fun m => if negb (String.eqb m "Volume") then m else "Volume_scaled")
                 <$> metrics)
              (ticker w +:+ " — Multiple metrics")
            = Ok (Fig (ticker w +:+ " — Multiple metrics")
                      ((fun m => Trace Line
                                   (if negb (String.eqb m "Volume") then m else "Volume_scaled")
                                   (index d) (plotted_series d scaled m)) <$> metrics)))
      as Hpx.
    { unfold px_line_wide.
      rewrite (mapM_fmap_ok _ _
                 (fun m => Trace Line
                             (if negb (String.eqb m "Volume") then m else "Volume_scaled")
                             (index d) (plotted_series d scaled m))); [done|].
      eapply Forall_impl; [exact Hm|]. intros m Hin. cbn beta.
      unfold plotted_series.
      destruct (String.eqb_spec m "Volume") as [->|Hne]; cbn [negb].
      - rewrite (px_column_ok p "Volume_scaled" scaled); [done|].
        unfold p, setitem. cbn [columns]. apply lookup_assign_col_eq.
      - destruct (Hcols m Hin) as [s Hs].
        rewrite (px_column_ok p m s); [by rewrite Hs|].
        unfold p, setitem. cbn [columns]. rewrite lookup_assign_col_ne; [done|].
        intros <-. unfold ohlcv in Hin. not_listed Hin. }
    rewrite Hpx, bind_lift_ok. cbv zeta.
    assert (rename_traces [("Volume_scaled", "Volume")]
              (Fig (ticker w +:+ " — Multiple metrics")
                   ((fun m => Trace Line
                                (if negb (String.eqb m "Volume") then m else "Volume_scaled")
                                (index d) (plotted_series d scaled m)) <$> metrics))
            = fig) as ->.
    { unfold rename_traces, fig. cbn [fig_title fig_traces]. f_equal.
      rewrite <- list_fmap_compose. apply Forall_fmap_ext.
      eapply Forall_impl; [exact Hm|]. intros m Hin.
      cbn beta. unfold compose. cbn [tr_kind tr_name tr_x tr_y].
      destruct (String.eqb_spec m "Volume") as [->|Hne]; cbn [negb find fst].
      - by rewrite String.eqb_refl.
      - destruct (String.eqb_spec "Volume_scaled" m) as [<-|_]; [|done].
        unfold ohlcv in Hin. not_listed Hin. }
    reflexivity.
  - rewrite bind_ret. cbv beta iota.
    rewrite bind_read with (df := d) by apply lookup_insert_eq.
    assert (px_line_wide d metrics (ticker w +:+ " — Multiple metrics")
            = Ok (Fig (ticker w +:+ " — Multiple metrics")
                      ((fun m => Trace Line m (index d) (plotted_series d scaled m))
                         <$> metrics))) as Hpx.
    { unfold px_line_wide.
      rewrite (mapM_ok _ (fun m => Trace Line m (index d) (plotted_series d scaled m)));
        [done|].
      apply Forall_forall. intros m Hin.
      assert (m ≠ "Volume") as Hne.
      { intros ->. apply not_true_iff_false in Hvol. apply Hvol.
        apply existsb_exists. exists "Volume". split; [by apply list_elem_of_In|done]. }
      unfold plotted_series. destruct (String.eqb_spec m "Volume") as [|_]; [done|].
      rewrite Forall_forall in Hm.
      destruct (Hcols m (Hm m Hin)) as [s Hs].
      by rewrite (px_column_ok d m s), Hs. }
    rewrite Hpx, bind_lift_ok. cbv zeta.
    assert (rename_traces []
              (Fig (ticker w +:+ " — Multiple metrics")
                   ((fun m => Trace Line m (index d) (plotted_series d scaled m))
                      <$> metrics))
            = fig) as ->.
    { unfold rename_traces, fig. cbn [fig_title fig_traces]. f_equal.
      rewrite <- list_fmap_compose. by apply list_fmap_ext. }
    reflexivity.
Qed.

End MultiChart.

Section MultiMetric.

(** X14.  Lines 176-189: when the filtered table has distinct column
    labels, the five price columns among them, and the selected metrics are some of them, each chosen
    once, as the multiselect widget hands them over, the multi-metric
    chart is drawn and shown once; it has one line per selected metric, in
    the order of the selection, named by the metric itself (the scaled
    volume appears as Volume, never as Volume_scaled), over the dates of the
    table; a price is drawn as it is and Volume as
    Volume / max(Volume) * (highest of the Close, Open, High, Low maxima). *)
Theorem multi_chart_draws_selected (w : widgets) (data : nat) (d : DataFrame)
    (metrics : list string) (σ : state) :
  frames σ !! data = Some d ->
  NoDup (fst <$> columns d) ->
  metrics ≠ [] ->
  NoDup metrics ->
  Forall (fun m => m ∈ ohlcv) metrics ->
  (∀ k : string, k ∈ ohlcv -> is_Some (lookup_col k (columns d))) ->
  let col k := default [] (lookup_col k (columns d)) in
  let max_price := smax [smax (col "Close"); smax (col "Open");
                         smax (col "High"); smax (col "Low")] in
  let scaled := smul_cell (sdiv_scalar (col "Volume") (smax (col "Volume"))) max_price in
  ∃ (fig : Figure) (σ' : state),
    multi_chart w data metrics σ = (Done fig, σ') ∧
    log σ' = log σ ++ [PlotlyChart fig] ∧
    tr_name <$> fig_traces fig = metrics ∧
    fig_traces fig
    = (fun m => Trace Line m (index d) (plotted_series d scaled m)) <$> metrics.
Proof.
  intros Hd Hnd _ _ Hm Hcols col max_price scaled.
  eexists _, _. split; [exact (multi_chart_result w data d metrics σ Hd Hnd Hm Hcols)|].
  cbn [log fig_traces]. split; [done|]. split; [|done].
  rewrite <- list_fmap_compose. unfold compose. cbn [tr_name]. apply list_fmap_id.
Qed.

Lemma multi_chart_draws_selected_sample :
  ∃ (fig : Figure) (σ' : state),
    multi_chart (sample_widgets (Date 2024 1 2) (Date 2024 1 5)) 0
                ["Volume"; "Close"] derived_state = (Done fig, σ') ∧
    log σ' = [PlotlyChart fig] ∧
    tr_name <$> fig_traces fig = ["Volume"; "Close"].
Proof.
  destruct (multi_chart_draws_selected (sample_widgets (Date 2024 1 2) (Date 2024 1 5))
              0 sample_derived ["Volume"; "Close"] derived_state)
    as (fig & σ' & Hrun & Hlog & Hnames & _).
  - reflexivity.
  - apply (bool_decide_unpack _). vm_compute. exact I.
  - discriminate.
  - apply (bool_decide_unpack _). vm_compute. exact I.
  - apply (bool_decide_unpack _). vm_compute. exact I.
  - intros k Hk. unfold ohlcv in Hk.
    repeat (apply elem_of_cons in Hk as [->|Hk]; [vm_compute; by eexists|]).
    by apply elem_of_nil in Hk.
  - exists fig, σ'. repeat split; assumption.
Defined.

End MultiMetric.

Section ChartCopy.

Lemma fresh_location_free (σ : state) (l : nat) (df : DataFrame) :
  frames σ !! l = Some df -> l ≠ fresh (dom (frames σ)).
Proof.
  intros Hl ->. apply (is_fresh (dom (frames σ))).
  apply elem_of_dom. by exists df.
Qed.

(** The multi-metric chart writes to its own copy only: a table held before
    it is still there after it, however it ends. *)
Lemma multi_chart_frames (w : widgets) (data : nat) (metrics : list string)
    (σ : state) (l : nat) (df : DataFrame) :
  frames σ !! l = Some df ->
  post (multi_chart w data metrics) σ
       (fun _ σ' => frames σ' !! l = Some df) (fun σ' => frames σ' !! l = Some df).
Proof.
  intros Hl.
  pose (J := fun σ' : state => frames σ' !! l = Some df).
  assert (∀ (σ' : state) (x : DataFrame),
            J σ' -> J (State (<[fresh (dom (frames σ)) := x]> (frames σ')) (log σ')))
    as Hput.
  { intros σ' x HJ. unfold J. cbn [frames].
    rewrite lookup_insert_ne; [exact HJ|]. intros Heq.
    by apply (fresh_location_free σ l df). }
  change (post (multi_chart w data metrics) σ (fun _ σ' => J σ') J).
  unfold multi_chart.
  apply post_bind, post_read; [intros d Hd|exact Hl].
  apply post_bind, post_alloc.
  set (loc := fresh (dom (frames σ))).
  assert (J (State (<[loc := d]> (frames σ)) (log σ))) as HJ1.
  { apply (Hput σ d). exact Hl. }
  revert HJ1. generalize (State (<[loc := d]> (frames σ)) (log σ)). intros σ1 HJ1.
  apply post_bind.
  apply (post_mono _ _ (fun _ σ' => J σ') _ J J); [|intros [names ms] σ2 HJ2|done].
  - destruct (existsb (String.eqb "Volume") metrics); [|by apply post_ret].
    apply post_bind, post_read; [intros p _|done].
    apply post_bind, post_lift; [intros c _|done].
    apply post_bind, post_lift; [intros o _|done].
    apply post_bind, post_lift; [intros h _|done].
    apply post_bind, post_lift; [intros lo _|done].
    cbv zeta.
    apply post_bind, post_lift; [intros v _|done].
    apply post_bind, post_write, post_ret. by apply Hput.
  - apply post_bind, post_read; [intros p _|done].
    apply post_bind, post_lift; [intros fig _|done].
    cbv zeta. apply post_bind, post_emit, post_ret. exact HJ2.
Qed.

(** X15.  Lines 141-203: in every view but the Close view, whatever
    the selected metrics are and whether or not a chart can be drawn, every
    table the script held before the charts is still there, unchanged, after
    them.  The scaled volume of the multi-metric chart goes to a copy; only
    the Close view writes to the filtered table that is exported. *)
Theorem charts_keep_tables (w : widgets) (data : nat) (σ : state)
    (l : nat) (df : DataFrame) :
  view_type w ≠ SingleMetric "Close" ->
  frames σ !! l = Some df ->
  frames (show_charts w data σ).2 !! l = Some df.
Proof.
  intros Hview Hl.
  pose (J := fun σ' : state => frames σ' !! l = Some df).
  assert (post (show_charts w data) σ (fun _ σ' => J σ') J) as Hpost.
  { unfold show_charts.
    apply post_bind, post_read; [intros d Hd|exact Hl].
    destruct (df_empty d).
    { apply post_bind, post_emit, post_ret. exact Hl. }
    apply post_bind.
    apply (post_mono _ _ (fun _ σ' => J σ') _ J J); [|intros fig σ1 HJ1|done].
    - destruct (view_type w) as [metric|metrics].
      + destruct (String.eqb_spec metric "Close") as [->|_]; [done|].
        apply post_bind, post_lift; [intros fig _|exact Hl].
        apply post_bind, post_emit, post_ret. exact Hl.
      + by apply multi_chart_frames.
    - apply post_bind.
      apply (post_mono _ _ (fun _ σ' => J σ') _ J J); [|intros [] σ2 HJ2|done].
      + unfold macd_chart.
        apply post_bind, post_read; [intros d1 _|exact HJ1].
        destruct (show_macd w && negb (df_empty d1)); [|by apply post_ret].
        apply post_bind, post_lift; [intros m _|exact HJ1].
        apply post_bind, post_lift; [intros s _|exact HJ1].
        apply post_bind, post_lift; [intros h _|exact HJ1].
        apply post_emit. exact HJ1.
      + by apply post_ret. }
  unfold post in Hpost.
  destruct (show_charts w data σ) as [[fig| |e] σ']; exact Hpost.
Qed.

Lemma charts_keep_tables_sample :
  frames derived_state !! 0%nat = Some sample_derived ∧
  frames (show_charts (Widgets "INFY.BO" (Date 2024 1 2) (Date 2024 1 5) false
                               (MultiMetric ["Close"; "Volume"]) true true false false)
                      0%nat derived_state).2 !! 0%nat
  = Some sample_derived.
Proof.
  assert (frames derived_state !! 0%nat = Some sample_derived) as H
    by (vm_compute; reflexivity).
  split; [exact H|].
  refine (charts_keep_tables _ 0%nat derived_state 0%nat sample_derived _ H).
  discriminate.
Defined.

End ChartCopy.

Section ScaledVolume.

Local Open Scope R_scope.

Lemma Rmax_monotone (f : R -> R) (a b : R) :
  (∀ x y : R, x <= y -> f x <= f y) -> f (Rmax a b) = Rmax (f a) (f b).
Proof.
  intros Hf. destruct (Rle_dec a b) as [Hab|Hab].
  - rewrite !Rmax_right; auto.
  - rewrite !Rmax_left; [done| |lra]. apply Hf. lra.
Qed.

Lemma foldr_Rmax_monotone (f : R -> R) (x : R) (xs : list R) :
  (∀ x y : R, x <= y -> f x <= f y) ->
  f (foldr Rmax x xs) = foldr Rmax (f x) (f <$> xs).
Proof.
  intros Hf. induction xs as [|y ys IH]; [done|].
  cbn [foldr fmap list_fmap]. by rewrite Rmax_monotone, IH.
Qed.

Lemma scaled_cells (v : Series) (m p : R) :
  m <> 0 ->
  smul_cell (sdiv_scalar v (Some m)) (Some p) = (fun c : cell => (fun x : R => x / m * p) <$> c) <$> v.
Proof.
  intros Hm. unfold smul_cell, sdiv_scalar. rewrite <- list_fmap_compose.
  apply list_fmap_ext. intros i [x|] _; unfold compose, fdiv; cbn; [|done].
  by destruct (Req_dec_T m 0).
Qed.

Lemma observations_fmap (f : R -> R) (v : Series) :
  observations ((fun c : cell => f <$> c) <$> v) = f <$> observations v.
Proof.
  unfold observations. induction v as [|[x|] v IH]; cbn; [done| |done].
  by rewrite <- IH.
Qed.

(** X16.  Lines 182-183: when the largest volume [m] is
    positive and the highest price [p] is not negative, the Volume line of
    the multi-metric chart is the volume times [p / m], a missing volume
    stays missing, and the line peaks exactly at the highest price. *)
Theorem volume_scaled_peak (v : Series) (m p : R) :
  smax v = Some m -> 0 < m -> 0 <= p ->
  smul_cell (sdiv_scalar v (smax v)) (Some p) = (fun c : cell => (fun x : R => x / m * p) <$> c) <$> v ∧
  smax (smul_cell (sdiv_scalar v (smax v)) (Some p)) = Some p.
Proof.
  intros Hmax Hm Hp. rewrite Hmax, scaled_cells by lra. split; [done|].
  unfold smax in *. rewrite (observations_fmap (fun x : R => x / m * p)).
  destruct (observations v) as [|x xs]; [done|].
  injection Hmax as Hmax. cbn [fmap list_fmap]. f_equal.
  rewrite <- (foldr_Rmax_monotone (fun x : R => x / m * p)).
  - rewrite Hmax. field. lra.
  - intros a b Hab. apply Rmult_le_compat_r; [exact Hp|].
    unfold Rdiv. apply Rmult_le_compat_r; [|exact Hab].
    left. by apply Rinv_0_lt_compat.
Qed.

Lemma volume_scaled_peak_sample :
  smax (smul_cell (sdiv_scalar (Some <$> [1000; 1300; 1100])
                               (smax (Some <$> [1000; 1300; 1100]))) (Some 15))
  = Some 15.
Proof.
  refine (proj2 (volume_scaled_peak (Some <$> [1000; 1300; 1100]) 1300 15 _ _ _)).
  - unfold smax. cbn. f_equal.
    rewrite (Rmax_left 1100 1000) by lra. apply Rmax_left. lra.
  - lra.
  - lra.
Defined.

(** X17.  Lines 182-183: when no volume is known, when the
    largest volume is zero (an index or a currency pair), or when no price
    is known, the scaled volume has no finite value on any row: the Volume
    line of the multi-metric chart is empty. *)
Theorem volume_scaled_without_volume (v : Series) (p : cell) :
  smax v = None ∨ smax v = Some 0 ∨ p = None ->
  smul_cell (sdiv_scalar v (smax v)) p = replicate (length v) None.
Proof.
  intros H. unfold smul_cell, sdiv_scalar. rewrite <- list_fmap_compose.
  revert H. generalize (smax v). intros mx H.
  assert (∀ c' : cell, lift2 Rmult (fdiv c' mx) p = None) as Hnone.
  { intros [x|]; [|done]. destruct H as [-> | [-> | ->]]; [done| |].
    - unfold fdiv. by destruct (Req_dec_T 0 0).
    - by destruct (fdiv (Some x) mx). }
  induction v as [|a l IH]; [done|].
  cbn. unfold compose at 1. by rewrite Hnone, <- IH.
Qed.

Lemma volume_scaled_without_volume_sample :
  smul_cell (sdiv_scalar (Some <$> [0; 0; 0]) (smax (Some <$> [0; 0; 0]))) (Some 15)
  = [None; None; None].
Proof.
  refine (volume_scaled_without_volume (Some <$> [0; 0; 0]) (Some 15) _).
  right. left. unfold smax. cbn. f_equal.
  rewrite (Rmax_left 0 0) by lra. apply Rmax_left. lra.
Defined.

End ScaledVolume.

Section CloseView.

Lemma df_empty_setitem (d : DataFrame) (k : string) (s : Series) :
  df_empty d = false -> df_empty (setitem d k s) = false.
Proof.
  unfold df_empty, setitem. cbn [index columns].
  intros [Hi _]%orb_false_iff. rewrite Hi. cbn [orb].
  by destruct (columns d) as [|[n s0] cols]; cbn; [|destruct (String.eqb n k)].
Qed.

(** The MACD chart, step by step. *)
Lemma macd_chart_result (w : widgets) (data : nat) (d : DataFrame)
    (m s h : Series) (σ : state) :
  frames σ !! data = Some d ->
  df_empty d = false ->
  getitem d "MACD" = Ok m ->
  getitem d "Signal" = Ok s ->
  getitem d "Histogram" = Ok h ->
  macd_chart w data σ
  = (Done tt,
     State (frames σ)
           (log σ ++ (if show_macd w then
                        [PlotlyChart (Fig (ticker w +:+ " — MACD")
                                          [Trace Scatter "MACD" (index d) m;
                                           Trace Scatter "Signal" (index d) s;
                                           Trace Bar "Histogram" (index d) h])]
                      else []))).
Proof.
  intros Hd He Hm Hs Hh. unfold macd_chart.
  rewrite (bind_read _ _ _ _ Hd), He, Hm, Hs, Hh.
  destruct (show_macd w); cbn [andb negb].
  - reflexivity.
  - unfold mret, script_ret. rewrite app_nil_r. by destruct σ.
Qed.

(** The charts of the Close view. *)
Lemma show_charts_close (w : widgets) (data : nat) (d : DataFrame)
    (c ma upper lower m s h : Series) (σ : state) :
  frames σ !! data = Some d ->
  df_empty d = false ->
  NoDup (fst <$> columns d) ->
  view_type w = SingleMetric "Close" ->
  getitem d "Close" = Ok c ->
  getitem d "BB_MA" = Ok ma ->
  getitem d "BB_upper" = Ok upper ->
  getitem d "BB_lower" = Ok lower ->
  getitem d "MACD" = Ok m ->
  getitem d "Signal" = Ok s ->
  getitem d "Histogram" = Ok h ->
  let fig :=
    Fig (ticker w +:+ " — Close")
        ([Trace Scatter "Close" (index d) c;
          Trace Scatter "MA50" (index d) (rolling_mean 50 c);
          Trace Scatter "MA200" (index d) (rolling_mean 200 c)]
           ++ (if show_bollinger w then
                 [Trace Scatter "BB Upper" (index d) upper;
                  Trace Scatter "BB Lower" (index d) lower;
                  Trace Scatter "BB MA (20)" (index d) ma]
               else [])) in
  show_charts w data σ
  = (Done (Some fig),
     State (<[data := setitem (setitem d "MA50" (rolling_mean 50 c))
                        "MA200" (rolling_mean 200 c)]> (frames σ))
           (log σ ++ [PlotlyChart fig]
              ++ (if show_macd w then
                    [PlotlyChart (Fig (ticker w +:+ " — MACD")
                                      [Trace Scatter "MACD" (index d) m;
                                       Trace Scatter "Signal" (index d) s;
                                       Trace Bar "Histogram" (index d) h])]
                  else []))).
Proof.
  intros Hd He Hnd Hview Hc Hma Hup Hlo Hm Hs Hh fig. unfold show_charts.
  rewrite (bind_read _ _ _ _ Hd), He, Hview.
  change (String.eqb "Close" "Close") with true. cbv iota.
  rewrite (bind_done _ _ _ _ _ (close_chart_result w data d c ma upper lower σ
                                   Hd Hnd Hc Hma Hup Hlo)).
  fold fig.
  set (final := setitem (setitem d "MA50" (rolling_mean 50 c)) "MA200" (rolling_mean 200 c)).
  set (σ1 := State (<[data := final]> (frames σ)) (log σ ++ [PlotlyChart fig])).
  assert (frames σ1 !! data = Some final) as Hf by apply lookup_insert_eq.
  assert (df_empty final = false) as Hef by (by do 2 apply df_empty_setitem).
  rewrite (bind_done _ _ _ _ _ (macd_chart_result w data final m s h σ1 Hf Hef
             ltac:(unfold final; by rewrite !getitem_setitem_ne)
             ltac:(unfold final; by rewrite !getitem_setitem_ne)
             ltac:(unfold final; by rewrite !getitem_setitem_ne))).
  unfold mret, script_ret. cbn [frames log σ1]. by rewrite <- app_assoc.
Qed.

Lemma select_fmap {A B : Type} (f : A -> B) (mask : list bool) (xs : list A) :
  select mask (f <$> xs) = f <$> select mask xs.
Proof.
  revert xs. induction mask as [|b mask IH]; intros [|x xs]; cbn; try done.
  destruct b; cbn; by rewrite IH.
Qed.

(** The downloads end normally and begin with the CSV and Excel buttons. *)
Lemma export_downloads_done (env : Environment) (w : widgets) (data : nat)
    (df : DataFrame) (fig_main : option Figure) (σ : state) :
  frames σ !! data = Some df ->
  ∃ rest : list ui_event,
    export_downloads env w data fig_main σ
    = (Done tt,
       State (frames σ)
             (log σ
                ++ [DownloadButton "Download CSV (filtered)" (CsvBytes (to_csv df))
                      (ticker w +:+ "_filtered.csv") "text/csv";
                    DownloadButton "Download Excel (filtered)"
                      (XlsxBytes (df_to_excel_bytes df))
                      (ticker w +:+ "_filtered.xlsx")
                      "application/vnd.openxmlformats-officedocument.spreadsheetml.sheet"]
                ++ rest)).
Proof.
  intros Hdata. unfold export_downloads.
  rewrite (bind_read _ _ _ _ Hdata).
  destruct fig_main as [fig|];
    [destruct (create_pdf env fig df (ticker w)) as [doc0|e0] eqn:Hpdf|];
    destruct (excel_request w), (pdf_request w);
    unfold mbind, script_bind, try_except, lift, emit, mret, script_ret;
    rewrite ?Hpdf;
    cbn [frames log negb]; rewrite <- ?app_assoc; cbn [app];
    eexists; reflexivity.
Qed.

(** X18.  Lines 69-224, the Close view on a fetched table with rows,
    distinct column labels, a numeric Close column and a row in a valid
    date range: the run does not
    stop and raises nothing up to and including the CSV and Excel buttons.
    The page shows, in this order, the filtered table with its six indicator
    columns (when asked for), the Close chart, the MACD chart (when switched
    on) and the two download buttons.  The table offered for download is the
    table shown plus the columns MA50 and MA200 that the Close chart added
    to it; the fetched table is kept as it was. *)
Theorem run_close_view (env : Environment) (w : widgets) (raw : DataFrame)
    (close : list R) (σ : state) :
  df_empty raw = false ->
  NoDup (fst <$> columns raw) ->
  lookup_col "Close" (columns raw) = Some (Some <$> close) ->
  spec_date_le (start_date w) (end_date w) ->
  Exists (fun t => spec_within (start_date w) (end_date w) t = true) (index raw) ->
  view_type w = SingleMetric "Close" ->
  let raw_data := fresh (dom (frames σ)) in
  let data := fresh (dom (<[raw_data := raw]> (frames σ))) in
  let filtered := loc_mask raw (date_mask raw (start_date w) (end_date w)) in
  ∃ (shown : DataFrame) (fig : Figure) (c m s h : Series) (rest : list ui_event),
    let final := setitem (setitem shown "MA50" (rolling_mean 50 c))
                         "MA200" (rolling_mean 200 c) in
    run env w (Some raw) σ
    = (Done (data, Some fig),
       State (<[data := final]> (<[raw_data := raw]> (frames σ)))
             (log σ
                ++ (if show_raw w then [ShowDataframe shown] else [])
                ++ [PlotlyChart fig]
                ++ (if show_macd w then
                      [PlotlyChart (Fig (ticker w +:+ " — MACD")
                                        [Trace Scatter "MACD" (index shown) m;
                                         Trace Scatter "Signal" (index shown) s;
                                         Trace Bar "Histogram" (index shown) h])]
                    else [])
                ++ [DownloadButton "Download CSV (filtered)" (CsvBytes (to_csv final))
                      (ticker w +:+ "_filtered.csv") "text/csv";
                    DownloadButton "Download Excel (filtered)"
                      (XlsxBytes (df_to_excel_bytes final))
                      (ticker w +:+ "_filtered.xlsx")
                      "application/vnd.openxmlformats-officedocument.spreadsheetml.sheet"]
                ++ rest)) ∧
    same_prices filtered shown ∧
    getitem filtered "Close" = Ok c ∧
    macd filtered 12 26 9 = Ok (m, s, h) ∧
    getitem shown "MACD" = Ok m ∧
    getitem shown "Signal" = Ok s ∧
    getitem shown "Histogram" = Ok h ∧
    tr_name <$> fig_traces fig
    = ["Close"; "MA50"; "MA200"]
        ++ (if show_bollinger w then ["BB Upper"; "BB Lower"; "BB MA (20)"] else []).
Proof.
  intros Hraw Hnd Hclose Hle Hsome Hview raw_data data filtered.
  assert (NoDup (fst <$> columns filtered)) as Hndf.
  { unfold filtered, loc_mask. cbn [columns]. rewrite <- list_fmap_compose.
    erewrite list_fmap_ext; [exact Hnd|]. by intros i [n c0] _. }
  assert (date_gt (start_date w) (end_date w) = false) as Hgt.
  { apply date_le_spec in Hle. unfold date_le, date_gt in *.
    by destruct (date_cmp (start_date w) (end_date w)). }
  assert (df_empty filtered = false) as He.
  { unfold df_empty in *. apply orb_false_iff in Hraw as [_ Hcols].
    apply orb_false_iff. split.
    - unfold filtered, loc_mask. cbn [index]. rewrite date_mask_within.
      pose proof (select_some _ _ Hsome) as Hne.
      destruct (select _ (index raw)); [done|done].
    - unfold filtered, loc_mask. cbn [columns]. by rewrite length_fmap. }
  set (c := select (date_mask raw (start_date w) (end_date w)) close).
  assert (getitem filtered "Close" = Ok (Some <$> c)) as Hc.
  { apply getitem_unique; [exact Hndf|].
    unfold filtered. rewrite lookup_col_loc_mask, Hclose.
    cbn [fmap option_fmap option_map]. by rewrite select_fmap. }
  unfold run.
  rewrite (bind_done _ _ _ _ _ (fetch_data_ok raw σ Hraw)). fold raw_data.
  set (σ1 := State (<[raw_data := raw]> (frames σ)) (log σ)).
  assert (frames σ1 !! raw_data = Some raw) as Hr by apply lookup_insert_eq.
  rewrite (bind_done _ _ _ _ _ (filter_range_valid w raw_data raw σ1 Hr Hgt)).
  cbn [frames log σ1]. fold data. fold filtered.
  set (σ2 := State (<[data := filtered]> (<[raw_data := raw]> (frames σ))) (log σ)).
  assert (frames σ2 !! data = Some filtered) as Hd by apply lookup_insert_eq.
  destruct (add_indicators_attaches data filtered c σ2 Hd He Hndf Hc)
    as (shown & ma & upper & lower & m & s & h & Hadd & Hbb & Hmacd
        & Hgma & Hgup & Hglo & Hgm & Hgs & Hgh & Hnds).
  assert (same_prices filtered shown) as Hsame.
  { pose proof (add_indicators_frame data filtered σ2 Hd) as Hpost.
    cbv zeta in Hpost. unfold post in Hpost. rewrite Hadd in Hpost.
    destruct Hpost as (d' & Hfr & Hsame). cbn [frames] in Hfr.
    assert (Some shown = Some d') as [= ->]; [|done].
    by rewrite <- (lookup_insert_eq (frames σ2) data shown), Hfr, lookup_insert_eq. }
  assert (getitem shown "Close" = Ok (Some <$> c)) as Hcs.
  { destruct Hsame as (_ & _ & Hcols). apply getitem_unique; [exact Hnds|].
    rewrite Hcols; [by apply getitem_lookup in Hc as [Hc _]|]. unfold ohlcv. listed. }
  assert (df_empty shown = false) as Hes.
  { unfold df_empty in *. destruct Hsame as (Hidx & _ & _). rewrite Hidx.
    apply orb_false_iff in He as [-> _]. cbn [orb].
    apply getitem_lookup in Hcs as [Hcs _]. by destruct (columns shown). }
  rewrite (bind_done _ _ _ _ _ Hadd).
  cbn [frames log σ2]. rewrite insert_insert_eq.
  set (σ3 := State (<[data := shown]> (<[raw_data := raw]> (frames σ))) (log σ)).
  assert (frames σ3 !! data = Some shown) as Hd3 by apply lookup_insert_eq.
  set (σ4 := State (frames σ3) (log σ3 ++ (if show_raw w then [ShowDataframe shown] else []))).
  assert ((if show_raw w then df ← read data; emit (ShowDataframe df) else mret tt) σ3
          = (Done tt, σ4)) as Hshow.
  { unfold σ4. destruct (show_raw w).
    - by rewrite (bind_read _ _ _ _ Hd3).
    - unfold mret, script_ret. by rewrite app_nil_r. }
  rewrite (bind_done _ _ _ _ _ Hshow).
  assert (frames σ4 !! data = Some shown) as Hd4 by apply lookup_insert_eq.
  rewrite (bind_done _ _ _ _ _
             (show_charts_close w data shown (Some <$> c) ma upper lower m s h σ4
                Hd4 Hes Hnds Hview Hcs Hgma Hgup Hglo Hgm Hgs Hgh)).
  cbn [frames log σ4 σ3]. rewrite insert_insert_eq.
  match goal with
  | |- context [(export_downloads _ _ _ _ ≫= _) ?σ5] =>
      destruct (export_downloads_done env w data
                  (setitem (setitem shown "MA50" (rolling_mean 50 (Some <$> c)))
                     "MA200" (rolling_mean 200 (Some <$> c)))
                  (Some (Fig (ticker w +:+ " — Close")
                      ([Trace Scatter "Close" (index shown) (Some <$> c);
                        Trace Scatter "MA50" (index shown) (rolling_mean 50 (Some <$> c));
                        Trace Scatter "MA200" (index shown) (rolling_mean 200 (Some <$> c))]
                         ++ (if show_bollinger w then
                               [Trace Scatter "BB Upper" (index shown) upper;
                                Trace Scatter "BB Lower" (index shown) lower;
                                Trace Scatter "BB MA (20)" (index shown) ma]
                             else [])))) σ5)
        as (rest & Hexp); [apply lookup_insert_eq|]
  end.
  rewrite (bind_done _ _ _ _ _ Hexp). cbn [frames log].
  eexists shown, _, (Some <$> c), m, s, h, rest. cbv zeta.
  split.
  { unfold mret, script_ret. rewrite <- !app_assoc. reflexivity. }
  repeat (split; [assumption|]).
  cbn [fig_traces]. by destruct (show_bollinger w).
Qed.

Lemma run_close_view_sample :
  ∃ (fig : Figure) (σ' : state),
    run sample_env (sample_widgets (Date 2024 1 2) (Date 2024 1 5)) (Some sample_prices)
        initial
    = (Done (fresh (dom (<[fresh (dom (frames initial)) := sample_prices]>
                           (frames initial))),
             Some fig), σ') ∧
    tr_name <$> fig_traces fig
    = ["Close"; "MA50"; "MA200"; "BB Upper"; "BB Lower"; "BB MA (20)"].
Proof.
  destruct (run_close_view sample_env (sample_widgets (Date 2024 1 2) (Date 2024 1 5))
              sample_prices [11; 12; 13; 14]%R initial)
    as (shown & fig & c & m & s & h & rest & Hrun & _ & _ & _ & _ & _ & _ & Hnames).
  - reflexivity.
  - apply (bool_decide_unpack _). vm_compute. exact I.
  - reflexivity.
  - right. unfold spec_date_lt. simpl. lia.
  - constructor. reflexivity.
  - reflexivity.
  - exists fig. eexists. split; [exact Hrun|exact Hnames].
Defined.

End CloseView.

Section RepeatedLabels.

Lemma count_col_loc_mask (k : string) (df : DataFrame) (mask : list bool) :
  count_col k (columns (loc_mask df mask)) = count_col k (columns df).
Proof.
  unfold loc_mask. cbn [columns].
  induction (columns df) as [|[n s] cols IH]; [done|].
  cbn [fmap list_fmap count_col fst]. by rewrite IH.
Qed.

(** X19.  A fetched table on which several columns are labelled Close, as
    [get_stock_data] flattens a download of several tickers, with a row in a
    valid date range, ends the run with the uncaught [ValueError] of the
    indicator step: nothing has been shown by then, neither chart nor
    download, and [data] is the filtered table as the filter left it. *)
Theorem run_fails_on_repeated_close (env : Environment) (w : widgets) (raw : DataFrame)
    (σ : state) :
  df_empty raw = false ->
  (1 < count_col "Close" (columns raw))%nat ->
  lookup_col "BB_MA" (columns raw) = None ->
  spec_date_le (start_date w) (end_date w) ->
  Exists (fun t => spec_within (start_date w) (end_date w) t = true) (index raw) ->
  let raw_data := fresh (dom (frames σ)) in
  let data := fresh (dom (<[raw_data := raw]> (frames σ))) in
  ∃ msg : string,
    run env w (Some raw) σ
    = (Uncaught (ValueError msg),
       State (<[data := loc_mask raw (date_mask raw (start_date w) (end_date w))]>
                (<[raw_data := raw]> (frames σ)))
             (log σ)).
Proof.
  intros Hraw Hcount _ Hle Hsome raw_data data.
  assert (date_gt (start_date w) (end_date w) = false) as Hgt.
  { apply date_le_spec in Hle. unfold date_le, date_gt in *.
    by destruct (date_cmp (start_date w) (end_date w)). }
  set (filtered := loc_mask raw (date_mask raw (start_date w) (end_date w))).
  assert (df_empty filtered = false) as He.
  { unfold df_empty in *. apply orb_false_iff in Hraw as [_ Hcols].
    apply orb_false_iff. split.
    - unfold filtered, loc_mask. cbn [index]. rewrite date_mask_within.
      pose proof (select_some _ _ Hsome) as Hne.
      destruct (select _ (index raw)); [done|done].
    - unfold filtered, loc_mask. cbn [columns]. by rewrite length_fmap. }
  unfold run.
  rewrite (bind_done _ _ _ _ _ (fetch_data_ok raw σ Hraw)). fold raw_data.
  set (σ1 := State (<[raw_data := raw]> (frames σ)) (log σ)).
  assert (frames σ1 !! raw_data = Some raw) as Hr by apply lookup_insert_eq.
  rewrite (bind_done _ _ _ _ _ (filter_range_valid w raw_data raw σ1 Hr Hgt)).
  cbn [frames log σ1]. fold data. fold filtered.
  set (σ2 := State (<[data := filtered]> (<[raw_data := raw]> (frames σ))) (log σ)).
  assert (frames σ2 !! data = Some filtered) as Hd by apply lookup_insert_eq.
  assert (∃ msg, bollinger_bands filtered default_window default_no_of_std
                 = Raise (ValueError msg)) as [msg Hbb].
  { unfold bollinger_bands, getitem, filtered.
    rewrite lookup_col_loc_mask, count_col_loc_mask.
    destruct (lookup_col "Close" (columns raw)) as [c|] eqn:Hc.
    - cbn [fmap option_fmap option_map].
      destruct (Nat.eqb_spec (count_col "Close" (columns raw)) 1) as [Hone|_]; [lia|].
      by eexists.
    - exfalso. assert (count_col "Close" (columns raw) = 0%nat) as Hzero; [|lia].
      clear -Hc. induction (columns raw) as [|[n s] cols IH]; [done|].
      cbn [lookup_col count_col] in *.
      destruct (String.eqb n "Close"); [done|]. by apply IH. }
  exists msg. unfold add_indicators.
  rewrite bind_assoc, (bind_read _ _ _ _ Hd), He. cbn [negb].
  rewrite Hbb. reflexivity.
Qed.

Lemma run_fails_on_repeated_close_two_tickers :
  ∃ msg : string,
    run sample_env (sample_widgets (Date 2024 1 2) (Date 2024 1 5))
        (Some (get_stock_data two_tickers)) initial
    = (Uncaught (ValueError msg),
       State (<[fresh (dom (<[fresh (dom (frames initial)) := get_stock_data two_tickers]>
                              (frames initial))) :=
                  loc_mask (get_stock_data two_tickers)
                    (date_mask (get_stock_data two_tickers) (Date 2024 1 2) (Date 2024 1 5))]>
                (<[fresh (dom (frames initial)) := get_stock_data two_tickers]>
                   (frames initial)))
             (log initial)).
Proof.
  apply (run_fails_on_repeated_close sample_env
           (sample_widgets (Date 2024 1 2) (Date 2024 1 5))
           (get_stock_data two_tickers) initial).
  - reflexivity.
  - vm_compute. lia.
  - reflexivity.
  - right. unfold spec_date_lt. simpl. lia.
  - constructor. reflexivity.
Defined.

End RepeatedLabels.
